(** * The Second Mind: a shallow embedding of the hypothesis pipeline

    The five agents of the repository (generation, reflection, ranking,
    evolution, meta review) are Python classes that thread a [dict]
    through [process].  This development embeds the parts of them that
    decide the pipeline's contract, and proves or refutes that contract.

    Conventions of the embedding.
    - Python text is a [string]; the character classes ([str.strip],
      [\s], [\w]) are Python's, read on ASCII text.
    - Python floats are rationals ([Q]): arithmetic is exact, so the
      results speak about the formulas of the code, not about binary
      rounding.  Where the code converts a string with [float], the
      special values are kept ([pyfloat]).
    - A [dict] is an association list in insertion order with distinct
      keys ([pydict]); values decoded from JSON are [json].
    - A call that can raise returns a [result]; [try ... except] is
      [try_except].
    - What the outside world answers (the text oracle, the context
      server, the search and scraping services, the clock and the random
      generator) is an argument of the function that asks for it. *)

From Stdlib Require Import Ascii String QArith Qround Sorted Lqa.
From stdpp Require Import gmap strings list pretty.

Open Scope string_scope.

(** ** Exceptions and results *)

Module Py.

Inductive exn : Type :=
  | ValueError | KeyError | TypeError | AttributeError | IndexError
  | UnboundLocalError | ConnectionError.

Inductive result (A : Type) : Type :=
  | Ok (a : A)
  | Raise (e : exn).
Arguments Ok {A} a.
Arguments Raise {A} e.

Definition bind {A B} (m : result A) (k : A → result B) : result B :=
  match m with
  | Ok a => k a
  | Raise e => Raise e
  end.

(** [try: body except Exception: handler] *)
Definition try_except {A} (body : result A) (handler : exn → result A) : result A :=
  match body with
  | Ok a => Ok a
  | Raise e => handler e
  end.

(** [for x in l: acc = f(acc, x)], leaving the loop at the first exception. *)
Fixpoint for_each {A S} (f : S → A → result S) (l : list A) (s : S) : result S :=
  match l with
  | [] => Ok s
  | x :: l' => bind (f s x) (for_each f l')
  end.

(** [not l] for a list *)
Definition is_nil {A} (l : list A) : bool :=
  match l with [] => true | _ => false end.

(** [a < b], [min(a, b)] and [max(a, b)] on numbers: [min] and [max]
    answer their first argument unless the second is strictly better. *)
Definition qlt (a b : Q) : bool := negb (Qle_bool b a).
Definition qmin (a b : Q) : Q := if qlt b a then b else a.
Definition qmax (a b : Q) : Q := if qlt a b then b else a.

(** [sum(l)] *)
Definition qsum (l : list Q) : Q := foldl Qplus 0%Q l.

(** A count as a number. *)
Definition qnat (n : nat) : Q := inject_Z (Z.of_nat n).

(** The nearest integer, the even one of two that are equally near. *)
Definition round_half_even (q : Q) : Z :=
  let f := Qfloor q in
  match (q - inject_Z f ?= 1 # 2)%Q with
  | Lt => f
  | Gt => (f + 1)%Z
  | Eq => if Z.even f then f else (f + 1)%Z
  end.

(** [round(q, 1)] *)
Definition round1 (q : Q) : Q := Qmake (round_half_even (q * 10)) 10.

Definition raises {A} (m : result A) : Prop := ∃ e, m = Raise e.
Definition returns {A} (m : result A) : Prop := ∃ a, m = Ok a.

End Py.
Export Py.

#[global] Instance result_ret : MRet result := @Ok.
#[global] Instance result_bind : MBind result := λ A B k m, Py.bind m k.
#[global] Instance result_fmap : FMap result :=
  λ A B f m, match m with Ok a => Ok (f a) | Raise e => Raise e end.

(** ** Text *)

Module Text.

Definition code (c : ascii) : N := N_of_ascii c.

(** The double quote and the backslash. *)
Definition dquote : ascii := "034"%char.
Definition bslash : ascii := "092"%char.

(** [str.isspace] on ASCII: TAB, LF, VT, FF, CR, FS, GS, RS, US and space. *)
Definition isspace (c : ascii) : bool :=
  let n := code c in
  ((9 <=? n) && (n <=? 13) || (28 <=? n) && (n <=? 32))%N.

Definition isdigit (c : ascii) : bool :=
  let n := code c in ((48 <=? n) && (n <=? 57))%N.

Definition isupper (c : ascii) : bool :=
  let n := code c in ((65 <=? n) && (n <=? 90))%N.

Definition islower (c : ascii) : bool :=
  let n := code c in ((97 <=? n) && (n <=? 122))%N.

(** [\w] on ASCII *)
Definition isword (c : ascii) : bool :=
  isdigit c || isupper c || islower c || Ascii.eqb c "_".

Definition ishex (c : ascii) : bool :=
  let n := code c in
  (isdigit c || (65 <=? n) && (n <=? 70) || (97 <=? n) && (n <=? 102))%N.

Fixpoint lstrip (s : string) : string :=
  match s with
  | String c s' => if isspace c then lstrip s' else s
  | EmptyString => EmptyString
  end.

(** Drops the trailing white space: a character stays when it is not a
    space or when something that stays follows it. *)
Fixpoint rstrip (s : string) : string :=
  match s with
  | String c s' =>
      match rstrip s' with
      | EmptyString => if isspace c then EmptyString else String c EmptyString
      | r => String c r
      end
  | EmptyString => EmptyString
  end.

(** [s.strip()] *)
Definition strip (s : string) : string := rstrip (lstrip s).

Fixpoint all_chars (p : ascii → bool) (s : string) : bool :=
  match s with
  | String c s' => p c && all_chars p s'
  | EmptyString => true
  end.

Fixpoint drop (n : nat) (s : string) : string :=
  match n, s with
  | S n', String _ s' => drop n' s'
  | _, _ => s
  end.

(** [s.startswith(p)] *)
Fixpoint startswith (p s : string) : bool :=
  match p, s with
  | EmptyString, _ => true
  | String a p', String b s' => Ascii.eqb a b && startswith p' s'
  | String _ _, EmptyString => false
  end.

(** [s.endswith(p)] *)
Definition endswith (p s : string) : bool :=
  startswith (String.rev p) (String.rev s).

(** [p in s] *)
Fixpoint contains (p s : string) : bool :=
  startswith p s ||
  match s with
  | String _ s' => contains p s'
  | EmptyString => false
  end.

(** [s.find(p)] as a split: the text before the first occurrence of [p]
    and the text after it. *)
Fixpoint split_at (p s : string) : option (string * string) :=
  if startswith p s then Some (EmptyString, drop (String.length p) s)
  else match s with
       | String c s' =>
           match split_at p s' with
           | Some (a, b) => Some (String c a, b)
           | None => None
           end
       | EmptyString => None
       end.

(** [s.replace(p, r)] for a non-empty [p]: the occurrences are taken from
    the left and do not overlap.  [skip] counts the characters of the
    current occurrence that are still to be passed over. *)
Fixpoint replace_from (p r : string) (skip : nat) (s : string) : string :=
  match s with
  | EmptyString => EmptyString
  | String c s' =>
      match skip with
      | S k => replace_from p r k s'
      | O =>
          if startswith p s
          then r +:+ replace_from p r (String.length p - 1) s'
          else String c (replace_from p r 0 s')
      end
  end.

Definition replace (p r s : string) : string := replace_from p r 0 s.

Definition lower_char (c : ascii) : ascii :=
  if isupper c then ascii_of_N (code c + 32) else c.

(** [s.lower()] *)
Fixpoint lower (s : string) : string :=
  match s with
  | String c s' => String (lower_char c) (lower s')
  | EmptyString => EmptyString
  end.

Definition newline : string := String "010"%char EmptyString.
Definition quote : string := String dquote EmptyString.
Definition backslash : string := String bslash EmptyString.

(** A text written with apostrophes for its double quotes, which keeps
    the examples readable: [quoted "{'a': 1}"] is the text [{"a": 1}]. *)
Definition quoted (s : string) : string := replace "'" quote s.

(** The scanning loop of [re.sub] and [re.findall]: [m] tries the pattern
    at the head of the text and answers with what it produces there and
    the number of characters it consumed (at least one); the search
    resumes after them, or at the next character when the pattern does
    not match. *)
Fixpoint scan_matches {A} (m : option ascii → string → option (A * nat))
    (keep : ascii → list A) (prev : option ascii) (skip : nat) (s : string) : list A :=
  match s with
  | EmptyString => []
  | String c s' =>
      match skip with
      | S k => scan_matches m keep (Some c) k s'
      | O =>
          match m prev s with
          | Some (a, n) => a :: scan_matches m keep (Some c) (n - 1) s'
          | None => keep c ++ scan_matches m keep (Some c) 0 s'
          end
      end
  end.

(** [re.sub]: the text between the matches is kept. *)
Definition sub_matches (m : option ascii → string → option (string * nat)) (s : string) : string :=
  String.concat EmptyString
    (scan_matches m (λ c, [String c EmptyString]) None 0 s).

(** [re.findall]: only the matches are kept. *)
Definition find_matches {A} (m : option ascii → string → option (A * nat)) (s : string) : list A :=
  scan_matches m (λ _, []) None 0 s.

(** [s.split()]: the words between the runs of white space.  [word] is
    the word being read, in reverse. *)
Fixpoint split_from (word : string) (s : string) : list string :=
  let flush (rest : list string) :=
    match word with
    | EmptyString => rest
    | _ => String.rev word :: rest
    end in
  match s with
  | EmptyString => flush []
  | String c s' =>
      if isspace c then flush (split_from EmptyString s')
      else split_from (String c word) s'
  end.

Definition split (s : string) : list string := split_from EmptyString s.

Definition upper_char (c : ascii) : ascii :=
  if islower c then ascii_of_N (code c - 32) else c.

(** [s.capitalize()] *)
Definition capitalize (s : string) : string :=
  match s with
  | String c s' => String (upper_char c) (lower s')
  | EmptyString => EmptyString
  end.

(** The number of white-space characters at the head of the text. *)
Fixpoint count_space (s : string) : nat :=
  match s with
  | String c s' => if isspace c then S (count_space s') else O
  | EmptyString => O
  end.

End Text.

(** ** JSON values and Python dictionaries *)

Module Json.

#[local] Set Warnings "-register-all".

(** What [json.loads] returns: [None], [bool], [int], [float], [str],
    [list] and [dict]. *)
Inductive json : Type :=
  | JNull
  | JBool (b : bool)
  | JInt (z : Z)
  | JFloat (q : Q)
  | JStr (s : string)
  | JArr (l : list json)
  | JObj (d : list (string * json)).

(** A [dict] with text keys, in insertion order. *)
Abbreviation pydict := (list (string * json)).

(** [d.get(k)] *)
Fixpoint dict_get (k : string) (d : pydict) : option json :=
  match d with
  | [] => None
  | (k', v) :: d' => if String.eqb k k' then Some v else dict_get k d'
  end.

(** [k in d] *)
Definition dict_has (k : string) (d : pydict) : bool :=
  match dict_get k d with Some _ => true | None => false end.

(** [d[k]] *)
Definition dict_item (k : string) (d : pydict) : result json :=
  match dict_get k d with Some v => Ok v | None => Raise KeyError end.

(** [d[k] = v]: an existing key keeps its place, a new key goes last. *)
Fixpoint dict_set (k : string) (v : json) (d : pydict) : pydict :=
  match d with
  | [] => [(k, v)]
  | (k', v') :: d' =>
      if String.eqb k k' then (k, v) :: d' else (k', v') :: dict_set k v d'
  end.

Definition dict_wf (d : pydict) : Prop := NoDup (d.*1).

(** [bool(v)] *)
Definition truthy (v : json) : bool :=
  match v with
  | JNull => false
  | JBool b => b
  | JInt z => negb (z =? 0)%Z
  | JFloat q => negb (Qeq_bool q 0)
  | JStr s => negb (String.eqb s EmptyString)
  | JArr l => match l with [] => false | _ => true end
  | JObj d => match d with [] => false | _ => true end
  end.

Definition is_str (v : json) : bool :=
  match v with JStr _ => true | _ => false end.

(** *** The decoder

    [loads] follows [json.loads] of the standard library in its default
    (strict) mode on ASCII text.  Two things the library accepts have no
    value in this model and are refused here: the constants [NaN],
    [Infinity] and [-Infinity], and [\u] escapes above U+00FF. *)

Definition is_ws (c : ascii) : bool :=
  let n := Text.code c in ((n =? 32) || (n =? 9) || (n =? 10) || (n =? 13))%N.

Fixpoint skip_ws (s : string) : string :=
  match s with
  | String c s' => if is_ws c then skip_ws s' else s
  | EmptyString => EmptyString
  end.

Definition hex_val (c : ascii) : option N :=
  let n := Text.code c in
  if Text.isdigit c then Some (n - 48)%N
  else if ((65 <=? n) && (n <=? 70))%N then Some (n - 55)%N
  else if ((97 <=? n) && (n <=? 102))%N then Some (n - 87)%N
  else None.

Definition hex4 (a b c d : ascii) : option N :=
  x ← hex_val a; y ← hex_val b; z ← hex_val c; w ← hex_val d;
  Some (((x * 16 + y) * 16 + z) * 16 + w)%N.

Definition unescape (e : ascii) : option ascii :=
  if Ascii.eqb e Text.dquote then Some Text.dquote
  else if Ascii.eqb e Text.bslash then Some Text.bslash
  else if Ascii.eqb e "/" then Some "/"%char
  else if Ascii.eqb e "b" then Some "008"%char
  else if Ascii.eqb e "f" then Some "012"%char
  else if Ascii.eqb e "n" then Some "010"%char
  else if Ascii.eqb e "r" then Some "013"%char
  else if Ascii.eqb e "t" then Some "009"%char
  else None.

(** The characters of a string literal after its opening quote, and the
    text after its closing quote. *)
Fixpoint scan_string (s : string) : option (string * string) :=
  match s with
  | EmptyString => None
  | String c s' =>
      if Ascii.eqb c Text.dquote then Some (EmptyString, s')
      else if Ascii.eqb c Text.bslash then
        match s' with
        | EmptyString => None
        | String e s'' =>
            match unescape e with
            | Some ch =>
                match scan_string s'' with
                | Some (r, rest) => Some (String ch r, rest)
                | None => None
                end
            | None =>
                if Ascii.eqb e "u" then
                  match s'' with
                  | String h1 (String h2 (String h3 (String h4 s4))) =>
                      match hex4 h1 h2 h3 h4 with
                      | Some n =>
                          if (n <? 256)%N then
                            match scan_string s4 with
                            | Some (r, rest) => Some (String (ascii_of_N n) r, rest)
                            | None => None
                            end
                          else None
                      | None => None
                      end
                  | _ => None
                  end
                else None
            end
        end
      else if (Text.code c <? 32)%N then None
      else
        match scan_string s' with
        | Some (r, rest) => Some (String c r, rest)
        | None => None
        end
  end.

(** The longest run of digits at the head of the text, as a number and a
    count, and the rest. *)
Fixpoint scan_digits (acc : Z) (n : nat) (s : string) : Z * nat * string :=
  match s with
  | String c s' =>
      if Text.isdigit c
      then scan_digits (acc * 10 + Z.of_N (Text.code c - 48)) (S n) s'
      else (acc, n, s)
  | EmptyString => (acc, n, s)
  end.

(** The integer part of a number: [0], or a non-zero digit and digits. *)
Definition scan_int (s : string) : option (Z * string) :=
  match s with
  | String c s' =>
      if Ascii.eqb c "0" then Some (0%Z, s')
      else if Text.isdigit c then
        let '(z, _, rest) := scan_digits 0 0 s in Some (z, rest)
      else None
  | EmptyString => None
  end.

(** The fraction, a dot and at least one digit, when there is one: its
    numerator and its number of digits. *)
Definition scan_frac (s : string) : option (Z * nat * string) :=
  match s with
  | String c s' =>
      if Ascii.eqb c "." then
        let '(z, n, rest) := scan_digits 0 0 s' in
        match n with O => None | _ => Some (z, n, rest) end
      else None
  | EmptyString => None
  end.

(** The exponent, when there is one: [e] or [E], a sign, digits. *)
Definition scan_exp (s : string) : option (Z * string) :=
  match s with
  | String c s' =>
      if Ascii.eqb c "e" || Ascii.eqb c "E" then
        let '(sign, s1) :=
          match s' with
          | String d s'' =>
              if Ascii.eqb d "-" then ((-1)%Z, s'')
              else if Ascii.eqb d "+" then (1%Z, s'')
              else (1%Z, s')
          | EmptyString => (1%Z, s')
          end in
        let '(z, n, rest) := scan_digits 0 0 s1 in
        match n with O => None | _ => Some ((sign * z)%Z, rest) end
      else None
  | EmptyString => None
  end.

(** [m * 10 ^ e] *)
Definition scale10 (m e : Z) : Q :=
  if (0 <=? e)%Z then inject_Z (m * 10 ^ e)%Z
  else Qmake m (Z.to_pos (10 ^ (- e))%Z).

(** A number literal: a sign, the integer part, a fraction, an exponent.
    It is an [int] when there is neither fraction nor exponent, a [float]
    otherwise. *)
Definition scan_number (s : string) : option (json * string) :=
  let '(neg, s0) :=
    match s with
    | String c s' => if Ascii.eqb c "-" then (true, s') else (false, s)
    | EmptyString => (false, s)
    end in
  match scan_int s0 with
  | None => None
  | Some (i, s1) =>
      let sg (z : Z) : Z := if neg then (- z)%Z else z in
      let '(fz, fn, s2, has_frac) :=
        match scan_frac s1 with
        | Some (z, n, r) => (z, n, r, true)
        | None => (0%Z, O, s1, false)
        end in
      let '(ez, s3, has_exp) :=
        match scan_exp s2 with
        | Some (z, r) => (z, r, true)
        | None => (0%Z, s2, false)
        end in
      if has_frac || has_exp
      then Some (JFloat (scale10 (sg (i * 10 ^ Z.of_nat fn + fz)%Z)
                                 (ez - Z.of_nat fn)%Z), s3)
      else Some (JInt (sg i), s3)
  end.

(** One value at the head of the text, and the text after it.  The fuel
    bounds the nesting and the number of elements; [loads] gives enough. *)
Fixpoint scan_value (fuel : nat) (s : string) : option (json * string) :=
  match fuel with
  | O => None
  | S fuel' =>
      match s with
      | EmptyString => None
      | String c s' =>
          if Ascii.eqb c Text.dquote then
            match scan_string s' with
            | Some (str, rest) => Some (JStr str, rest)
            | None => None
            end
          else if Ascii.eqb c "[" then
            match skip_ws s' with
            | String "]" rest => Some (JArr [], rest)
            | s1 =>
                match scan_elements fuel' s1 with
                | Some (l, rest) => Some (JArr l, rest)
                | None => None
                end
            end
          else if Ascii.eqb c "{" then
            match skip_ws s' with
            | String "}" rest => Some (JObj [], rest)
            | s1 =>
                match scan_members fuel' s1 with
                | Some (d, rest) => Some (JObj d, rest)
                | None => None
                end
            end
          else if Text.startswith "null" s then Some (JNull, Text.drop 4 s)
          else if Text.startswith "true" s then Some (JBool true, Text.drop 4 s)
          else if Text.startswith "false" s then Some (JBool false, Text.drop 5 s)
          else scan_number s
      end
  end
with scan_elements (fuel : nat) (s : string) : option (list json * string) :=
  match fuel with
  | O => None
  | S fuel' =>
      match scan_value fuel' s with
      | None => None
      | Some (v, s1) =>
          match skip_ws s1 with
          | String "]" rest => Some ([v], rest)
          | String "," s2 =>
              match scan_elements fuel' (skip_ws s2) with
              | Some (l, rest) => Some (v :: l, rest)
              | None => None
              end
          | _ => None
          end
      end
  end
with scan_members (fuel : nat) (s : string) : option (list (string * json) * string) :=
  match fuel with
  | O => None
  | S fuel' =>
      match s with
      | String c s0 =>
          if negb (Ascii.eqb c Text.dquote) then None else
          match scan_string s0 with
          | None => None
          | Some (k, s1) =>
              match skip_ws s1 with
              | String ":" s2 =>
                  match scan_value fuel' (skip_ws s2) with
                  | None => None
                  | Some (v, s3) =>
                      match skip_ws s3 with
                      | String "}" rest => Some ([(k, v)], rest)
                      | String "," s4 =>
                          match scan_members fuel' (skip_ws s4) with
                          | Some (d, rest) => Some ((k, v) :: d, rest)
                          | None => None
                          end
                      | _ => None
                      end
                  end
              | _ => None
              end
          end
      | _ => None
      end
  end.

(** The pairs of an object become a [dict]: a repeated key keeps its first
    place and its last value. *)
Fixpoint normalise (fuel : nat) (v : json) : json :=
  match fuel with
  | O => v
  | S fuel' =>
      match v with
      | JArr l => JArr (map (normalise fuel') l)
      | JObj d =>
          JObj (foldl (λ acc kv, dict_set kv.1 (normalise fuel' kv.2) acc) [] d)
      | other => other
      end
  end.

(** [json.loads(s)]; [None] stands for [json.JSONDecodeError]. *)
Definition loads (s : string) : option json :=
  let fuel := (2 * String.length s + 2)%nat in
  match scan_value fuel (skip_ws s) with
  | Some (v, rest) =>
      match skip_ws rest with
      | EmptyString => Some (normalise fuel v)
      | _ => None
      end
  | None => None
  end.

End Json.
Export Json.

(** ** Floats with their special values *)

Module Float.

Inductive pyfloat : Type :=
  | Fin (q : Q)
  | PosInf
  | NegInf
  | NaN.

(** [a < b]; every comparison with [nan] is false. *)
Definition lt (a b : pyfloat) : bool :=
  match a, b with
  | NaN, _ | _, NaN => false
  | _, NegInf => false
  | NegInf, _ => true
  | PosInf, _ => false
  | Fin _, PosInf => true
  | Fin x, Fin y => negb (Qle_bool y x)
  end.

(** [min(a, b)]: the first argument, unless the second is smaller. *)
Definition min (a b : pyfloat) : pyfloat := if lt b a then b else a.

(** [max(a, b)]: the first argument, unless the second is greater. *)
Definition max (a b : pyfloat) : pyfloat := if lt a b then b else a.

(** [a + b] *)
Definition add (a b : pyfloat) : pyfloat :=
  match a, b with
  | NaN, _ | _, NaN => NaN
  | PosInf, NegInf | NegInf, PosInf => NaN
  | PosInf, _ | _, PosInf => PosInf
  | NegInf, _ | _, NegInf => NegInf
  | Fin x, Fin y => Fin (x + y)%Q
  end.

Definition sign (a : pyfloat) : comparison :=
  match a with
  | Fin q => (q ?= 0)%Q
  | PosInf => Gt
  | NegInf => Lt
  | NaN => Eq
  end.

(** [a * b] *)
Definition mul (a b : pyfloat) : pyfloat :=
  match a, b with
  | NaN, _ | _, NaN => NaN
  | Fin x, Fin y => Fin (x * y)%Q
  | _, _ =>
      match sign a, sign b with
      | Eq, _ | _, Eq => NaN
      | Gt, Gt | Lt, Lt => PosInf
      | _, _ => NegInf
      end
  end.

(** [a / b] for a divisor that is not zero. *)
Definition div (a b : pyfloat) : pyfloat :=
  match a, b with
  | NaN, _ | _, NaN => NaN
  | Fin x, Fin y => Fin (x / y)%Q
  | Fin _, _ => Fin 0
  | _, Fin _ =>
      match sign a, sign b with
      | Gt, Gt | Lt, Lt => PosInf
      | _, _ => NegInf
      end
  | _, _ => NaN
  end.

Definition in_unit (x : pyfloat) : Prop :=
  match x with
  | Fin q => (0 <= q <= 1)%Q
  | _ => False
  end.

(** [float(s)] for a text: a number literal of JSON has its value; the
    other spellings Python accepts (a sign, surrounding blanks, [inf],
    [nan], ...) are left to [other], and [None] is [ValueError]. *)
Definition of_text (other : string → option pyfloat) (s : string) : option pyfloat :=
  match Json.scan_number s with
  | Some (JInt z, EmptyString) => Some (Fin (inject_Z z))
  | Some (JFloat q, EmptyString) => Some (Fin q)
  | _ => other s
  end.

(** [float(v)] *)
Definition of_json (other : string → option pyfloat) (v : json) : result pyfloat :=
  match v with
  | JInt z => Ok (Fin (inject_Z z))
  | JFloat q => Ok (Fin q)
  | JBool b => Ok (Fin (if b then 1 else 0))
  | JStr s =>
      match of_text other s with
      | Some x => Ok x
      | None => Raise ValueError
      end
  | JNull | JArr _ | JObj _ => Raise TypeError
  end.

End Float.
Export Float(pyfloat, Fin, PosInf, NegInf, NaN).

(** ** The recovery of JSON from the oracle's text *)

Module Recovery.

Import Text.

Definition fence : string := "```".

(** The opening of a code block at the head of the text, [```] or
    [```json] and a line break, and what follows it. *)
Definition fence_open (s : string) : option string :=
  if startswith (fence +:+ "json" +:+ newline) s then Some (drop 8 s)
  else if startswith (fence +:+ newline) s then Some (drop 4 s)
  else None.

(** The pattern of a fenced block tried at the head of the text: the
    content is the shortest text closed by a line break and a fence. *)
Definition code_block_at (s : string) : option string :=
  match fence_open s with
  | Some rest =>
      match split_at (newline +:+ fence) rest with
      | Some (inner, _) => Some inner
      | None => None
      end
  | None => None
  end.

(** [re.search] of the fenced block with [re.DOTALL]: the first position
    where the pattern matches; the answer is its group 1. *)
Fixpoint search_code_block (s : string) : option string :=
  match code_block_at s with
  | Some inner => Some inner
  | None =>
      match s with
      | String _ s' => search_code_block s'
      | EmptyString => None
      end
  end.

Definition is_closer (c : ascii) : bool := Ascii.eqb c "]" || Ascii.eqb c "}".

(** A double quote that follows neither a quote nor a backslash and is
    followed by something else than a blank, a comma or a closing
    bracket gets a backslash. *)
Definition escape_inner_quote (prev : option ascii) (s : string) : option (string * nat) :=
  match s with
  | String c s' =>
      let behind :=
        match prev with
        | Some p => negb (Ascii.eqb p dquote || Ascii.eqb p bslash)
        | None => true
        end in
      let ahead :=
        match s' with
        | String n _ => negb (isspace n || Ascii.eqb n "," || is_closer n)
        | EmptyString => true
        end in
      if Ascii.eqb c dquote && behind && ahead
      then Some (backslash +:+ quote, 1%nat)
      else None
  | EmptyString => None
  end.

(** A word character, a double quote and [s]: the quote was an
    apostrophe. *)
Definition quote_to_apostrophe (prev : option ascii) (s : string) : option (string * nat) :=
  match s with
  | String c (String d (String e _)) =>
      if isword c && Ascii.eqb d dquote && Ascii.eqb e "s"
      then Some (String c (backslash +:+ "'s"), 3%nat)
      else None
  | _ => None
  end.

(** A comma, blanks and a closing bracket: the comma and the blanks go. *)
Definition trailing_comma (prev : option ascii) (s : string) : option (string * nat) :=
  match s with
  | String c s' =>
      if Ascii.eqb c "," then
        let n := count_space s' in
        match drop n s' with
        | String b _ =>
            if is_closer b then Some (String b EmptyString, (n + 2)%nat) else None
        | EmptyString => None
        end
      else None
  | EmptyString => None
  end.

(** [GenerationAgent._sanitize_json_response] *)
Definition sanitize_json_response (loads : string → option json) (response : string) : string :=
  if String.eqb response EmptyString then "[]" else
  let response :=
    match search_code_block response with
    | Some inner => strip inner
    | None => response
    end in
  match loads response with
  | Some _ => response
  | None =>
      let response := sub_matches escape_inner_quote response in
      let response := sub_matches quote_to_apostrophe response in
      let response := replace "'" quote response in
      let response := replace (backslash +:+ quote) (backslash +:+ backslash +:+ quote) response in
      let response := sub_matches trailing_comma response in
      if startswith "{" (strip response) && endswith "}" (strip response)
      then
        if negb (startswith "[" (strip response) && endswith "]" (strip response))
        then "[" +:+ response +:+ "]"
        else response
      else response
  end.

(** The fence markers of [ReflectionAgent._clean_json_response]: the
    marker and the blanks after it are removed. *)
Definition fence_and_blanks (marker : string) (prev : option ascii) (s : string)
    : option (string * nat) :=
  if startswith marker s
  then Some (EmptyString, (String.length marker + count_space (drop (String.length marker) s))%nat)
  else None.

(** The text up to its last closing brace, included. *)
Fixpoint upto_last_brace (s : string) : option string :=
  match s with
  | EmptyString => None
  | String c s' =>
      match upto_last_brace s' with
      | Some r => Some (String c r)
      | None => if Ascii.eqb c "}" then Some (String c EmptyString) else None
      end
  end.

(** [re.search] of an opening brace, anything, a closing brace, greedy
    and with [re.DOTALL]: from the first opening brace that has a closing
    brace after it to the last closing brace. *)
Fixpoint search_braces (s : string) : option string :=
  match s with
  | EmptyString => None
  | String c s' =>
      if Ascii.eqb c "{" then
        match upto_last_brace s' with
        | Some r => Some (String c r)
        | None => search_braces s'
        end
      else search_braces s'
  end.

Definition escape_char_ok (s : string) : bool :=
  match s with
  | String c rest =>
      if Ascii.eqb c dquote || Ascii.eqb c bslash || Ascii.eqb c "/"
         || Ascii.eqb c "b" || Ascii.eqb c "f" || Ascii.eqb c "n"
         || Ascii.eqb c "r" || Ascii.eqb c "t"
      then true
      else if Ascii.eqb c "u" then
        match rest with
        | String h1 (String h2 (String h3 (String h4 _))) =>
            ishex h1 && ishex h2 && ishex h3 && ishex h4
        | _ => false
        end
      else false
  | EmptyString => false
  end.

(** A backslash that follows no backslash and starts no escape of JSON is
    doubled. *)
Definition stray_backslash (prev : option ascii) (s : string) : option (string * nat) :=
  match s with
  | String c s' =>
      let behind :=
        match prev with
        | Some p => negb (Ascii.eqb p bslash)
        | None => true
        end in
      if Ascii.eqb c bslash && behind && negb (escape_char_ok s')
      then Some (backslash +:+ backslash, 1%nat)
      else None
  | EmptyString => None
  end.

(** [ReflectionAgent._clean_json_response] *)
Definition clean_json_response (response : string) : string :=
  let response := sub_matches (fence_and_blanks (fence +:+ "json")) response in
  let response := sub_matches (fence_and_blanks fence) response in
  let response :=
    match search_braces response with
    | Some found => found
    | None => response
    end in
  let response := replace (backslash +:+ quote) quote response in
  let response := replace backslash (backslash +:+ backslash) response in
  let response := replace (backslash +:+ backslash +:+ quote) (backslash +:+ quote) response in
  sub_matches stray_backslash response.

End Recovery.

(** ** The generation agent *)

Module Generation.

Import Text Recovery.

(** An item of [web_data], as [process] builds it. *)
Record web_item : Type := {
  wi_source : string;
  wi_title : string;
  wi_content : string
}.

(** A hypothesis; the keys that only some paths write are optional. *)
Record hypothesis : Type := {
  hyp_id : string;
  statement : json;
  confidence : pyfloat;
  rationale : option json;
  sources : list nat;
  source_urls : option (list string);
  created_at : option Q;
  context_item_id : option string
}.

Record context : Type := {
  ctx_query : option string;
  ctx_session_id : option string;
  ctx_cycle : option Z
}.

Record generated_data : Type := {
  gd_web_data : list web_item;
  gd_hypotheses : list hypothesis;
  gd_cycle : Z
}.

(** What the agent asks of the outside. *)
Record world : Type := {
  (** [time.time()] *)
  clock : Q;
  (** [uuid.uuid4().hex] *)
  uuid_hex : string;
  (** [BaseAgent.validate_context], with the keys [["query"]] *)
  validate_context : context → bool * string;
  (** the search and the scraping of its results: the items kept, or the
      exception of [search_api.search] *)
  gather_web_data : string → result (list web_item);
  (** [generate_text(prompt)] for the prompt built from the query and the
      web data; it answers [None] when the service fails *)
  generate_text : string → list web_item → option string;
  (** [json.loads] *)
  json_loads : string → option json;
  (** [float] on the texts that are not number literals of JSON *)
  float_other : string → option pyfloat;
  (** [random.randint(3, 5)] *)
  randint_3_5 : nat;
  (** [round(random.uniform(0.5, 0.9), 2)], one draw per hypothesis *)
  uniform_draw : nat → Q;
  (** the concepts read in the titles and bodies of the web data, in the
      order the [set] gives them *)
  mined_concepts : list web_item → list string;
  (** the item identifier the context server answers with, or the empty
      text *)
  store_context_item : string → hypothesis → string
}.

Definition now (W : world) : Z := Qfloor (clock W).

(** The indices, and the sources, of the items whose content contains the
    text, whatever the case. *)
Definition matching_sources (needle : string) (web_data : list web_item) : list (nat * string) :=
  omap (λ '(j, data),
          if contains (lower needle) (lower (wi_content data))
          then Some (j, wi_source data) else None)
       (imap (λ j data, (j, data)) web_data).

Definition default_concepts : list string :=
  ["AI in forensics"; "Digital forensics"; "Forensic investigation"].

(** [_extract_key_concepts] *)
Definition extract_key_concepts (W : world) (web_data : list web_item) : list string :=
  match web_data with
  | [] => default_concepts
  | _ =>
      match mined_concepts W web_data with
      | [] => default_concepts
      | concepts => concepts
      end
  end.

Definition default_hypotheses (W : world) : list hypothesis :=
  let ts := pretty (now W) in
  [ {| hyp_id := "hyp-" +:+ ts +:+ "-1";
       statement := JStr "AI technologies are revolutionizing forensic investigations by automating evidence analysis";
       confidence := Fin 0.8;
       rationale := Some (JStr "AI can process large volumes of digital evidence faster than humans");
       sources := [0; 1]%nat; source_urls := Some [];
       created_at := Some (clock W); context_item_id := None |};
    {| hyp_id := "hyp-" +:+ ts +:+ "-2";
       statement := JStr "Machine learning algorithms can identify patterns in forensic data that humans might miss";
       confidence := Fin 0.75;
       rationale := Some (JStr "Pattern recognition is a key strength of modern AI systems");
       sources := [2; 3]%nat; source_urls := Some [];
       created_at := Some (clock W); context_item_id := None |};
    {| hyp_id := "hyp-" +:+ ts +:+ "-3";
       statement := JStr "Ethical concerns about AI in forensics include potential bias and privacy implications";
       confidence := Fin 0.7;
       rationale := Some (JStr "AI systems can inherit biases from training data");
       sources := [0; 4]%nat; source_urls := Some [];
       created_at := Some (clock W); context_item_id := None |} ].

(** The body of the loop of the fallback, for the index [i]. *)
Definition concept_hypothesis (W : world) (web_data : list web_item) (i : nat) (concept : string)
    : hypothesis :=
  let found := matching_sources concept web_data in
  let source_indices :=
    match found with
    | [] => if (2 <=? length web_data)%nat then [0; 1]%nat else [0]%nat
    | _ => found.*1
    end in
  {| hyp_id := "hyp-" +:+ pretty (now W) +:+ "-" +:+ pretty i;
     statement := JStr (concept +:+ " is a significant factor in the impact of AI on forensic investigations");
     confidence := Fin (uniform_draw W i);
     rationale := Some (JStr "This concept appears frequently in relevant sources");
     sources := take 3 source_indices;
     source_urls := Some (take 3 (found.*2));
     created_at := Some (clock W);
     context_item_id := None |}.

(** [_generate_hypotheses_fallback] *)
Definition generate_hypotheses_fallback (W : world) (query : string) (web_data : list web_item)
    : list hypothesis :=
  let concepts := extract_key_concepts W web_data in
  let num_hypotheses := Nat.min (length concepts) (randint_3_5 W) in
  let num_hypotheses := if (num_hypotheses <? 3)%nat then 3%nat else num_hypotheses in
  match concepts with
  | [] => default_hypotheses W
  | _ =>
      omap (λ i, concept_hypothesis W web_data i <$> concepts !! i) (seq 0 num_hypotheses)
  end.

(** [s.lower()] for a value of JSON: only a text has the method. *)
Definition lower_of (v : json) : result string :=
  match v with
  | JStr s => Ok (lower s)
  | _ => Raise AttributeError
  end.

(** One entry of the decoded list: skipped when it is not an object with
    the two keys, a hypothesis otherwise. *)
Definition hypothesis_of_entry (W : world) (web_data : list web_item) (i : nat) (h : json)
    : result (option hypothesis) :=
  match h with
  | JObj d =>
      match dict_get "statement" d, dict_get "confidence" d with
      | Some st, Some c =>
          found ← match web_data with
                  | [] => Ok []
                  | _ => needle ← lower_of st; Ok (matching_sources needle web_data)
                  end;
          conf ← Float.of_json (float_other W) c;
          Ok (Some {| hyp_id := "hyp-" +:+ pretty (now W) +:+ "-" +:+ pretty i;
                      statement := st;
                      confidence := conf;
                      rationale := Some (default (JStr EmptyString) (dict_get "rationale" d));
                      sources := take 3 (found.*1);
                      source_urls := Some (take 3 (found.*2));
                      created_at := Some (clock W);
                      context_item_id := None |})
      | _, _ => Ok None
      end
  | _ => Ok None
  end.

(** The loop over the decoded list. *)
Fixpoint hypotheses_of_entries (W : world) (web_data : list web_item) (i : nat) (l : list json)
    : result (list hypothesis) :=
  match l with
  | [] => Ok []
  | h :: l' =>
      o ← hypothesis_of_entry W web_data i h;
      rest ← hypotheses_of_entries W web_data (S i) l';
      Ok (match o with Some hyp => hyp :: rest | None => rest end)
  end.

(** The text captured after [key], blanks, a colon, blanks and an opening
    quote, up to the next quote; with the number of characters of the
    whole match. *)
Definition quoted_field (key : string) (prev : option ascii) (s : string) : option (string * nat) :=
  let k := quote +:+ key +:+ quote in
  if startswith k s then
    let s1 := drop (String.length k) s in
    let n1 := count_space s1 in
    match drop n1 s1 with
    | String c s2 =>
        if Ascii.eqb c ":" then
          let n2 := count_space s2 in
          match drop n2 s2 with
          | String q s3 =>
              if Ascii.eqb q dquote then
                match split_at quote s3 with
                | Some (inner, _) =>
                    Some (inner, (String.length k + n1 + 1 + n2 + 1 + String.length inner + 1)%nat)
                | None => None
                end
              else None
          | EmptyString => None
          end
        else None
    | EmptyString => None
    end
  else None.

Fixpoint digits_prefix (s : string) : string :=
  match s with
  | String c s' => if isdigit c then String c (digits_prefix s') else EmptyString
  | EmptyString => EmptyString
  end.

(** The number captured after ["confidence"], blanks, a colon and blanks:
    [0.] and digits, or [1.0], or [1]. *)
Definition confidence_field (prev : option ascii) (s : string) : option (string * nat) :=
  let k := quote +:+ "confidence" +:+ quote in
  if startswith k s then
    let s1 := drop (String.length k) s in
    let n1 := count_space s1 in
    match drop n1 s1 with
    | String c s2 =>
        if Ascii.eqb c ":" then
          let n2 := count_space s2 in
          let s3 := drop n2 s2 in
          let head := (String.length k + n1 + 1 + n2)%nat in
          if startswith "0." s3 && negb (String.eqb (digits_prefix (drop 2 s3)) EmptyString)
          then let num := "0." +:+ digits_prefix (drop 2 s3) in
               Some (num, (head + String.length num)%nat)
          else if startswith "1.0" s3 then Some ("1.0", (head + 3)%nat)
          else if startswith "1" s3 then Some ("1", (head + 1)%nat)
          else None
        else None
    | EmptyString => None
    end
  else None.

(** The extraction by regular expressions, inside its own [try]; [None]
    when it gives nothing or fails. *)
Definition extract_with_regex (W : world) (sanitized : string) : option (list hypothesis) :=
  let statements := find_matches (quoted_field "statement") sanitized in
  let confidence_matches := find_matches confidence_field sanitized in
  let rationale_matches := find_matches (quoted_field "rationale") sanitized in
  match mapM (Float.of_text (float_other W)) confidence_matches with
  | None => None
  | Some confidences =>
      if negb (is_nil statements) && negb (is_nil confidences)
         && (length statements =? length confidences)%nat
      then
        let hypotheses :=
          imap (λ i st,
                  {| hyp_id := "hyp-" +:+ pretty (now W) +:+ "-" +:+ pretty i;
                     statement := JStr st;
                     confidence := default (Fin 0.5) (confidences !! i);
                     rationale := Some (JStr (default "Extracted from malformed JSON"
                                                      (rationale_matches !! i)));
                     sources := [];
                     source_urls := Some [];
                     created_at := Some (clock W);
                     context_item_id := None |})
               statements in
        match hypotheses with
        | [] => None
        | _ => Some hypotheses
        end
      else None
  end.

(** [_generate_hypotheses_with_gemini] *)
Definition generate_hypotheses_with_gemini (W : world) (query : string) (web_data : list web_item)
    : result (list hypothesis) :=
  match generate_text W query web_data with
  | None => Ok (generate_hypotheses_fallback W query web_data)
  | Some gemini_response =>
      if String.eqb (strip gemini_response) EmptyString
      then Ok (generate_hypotheses_fallback W query web_data)
      else
        let sanitized := sanitize_json_response (json_loads W) gemini_response in
        match json_loads W sanitized with
        | Some (JArr parsed) =>
            hypotheses ← hypotheses_of_entries W web_data 0 parsed;
            match hypotheses with
            | [] => Ok (generate_hypotheses_fallback W query web_data)
            | _ => Ok hypotheses
            end
        | Some _ => Ok (generate_hypotheses_fallback W query web_data)
        | None =>
            match extract_with_regex W sanitized with
            | Some hypotheses => Ok hypotheses
            | None => Ok (generate_hypotheses_fallback W query web_data)
            end
        end
  end.

(** The local variables of [process] that the code reads after its
    [try]: each is bound by an assignment inside it. *)
Record locals : Type := {
  l_query : option string;
  l_web_data : option (list web_item);
  l_hypotheses : option (list hypothesis)
}.

Definition local {A} (v : option A) : result A :=
  match v with Some a => Ok a | None => Raise UnboundLocalError end.

(** The hypothesis is stored and keeps the identifier the server gave. *)
Definition store_hypothesis (W : world) (session_id : string) (h : hypothesis) : hypothesis :=
  let item := store_context_item W session_id h in
  if String.eqb item EmptyString then h
  else {| hyp_id := hyp_id h; statement := statement h; confidence := confidence h;
          rationale := rationale h; sources := sources h; source_urls := source_urls h;
          created_at := created_at h; context_item_id := Some item |}.

(** The [try] block of [process]: the variables bound when it ends, the
    data generated so far, and the exception if there is one. *)
Definition process_try (W : world) (ctx : context) (session_id : string) (gd : generated_data)
    : locals * generated_data * option exn :=
  let unbound := {| l_query := None; l_web_data := None; l_hypotheses := None |} in
  if negb (validate_context W ctx).1 then (unbound, gd, Some ValueError) else
  match ctx_query ctx with
  | None => (unbound, gd, Some KeyError)
  | Some query =>
      let bound_q := {| l_query := Some query; l_web_data := None; l_hypotheses := None |} in
      match gather_web_data W query with
      | Raise e => (bound_q, gd, Some e)
      | Ok web_data =>
          let bound_w :=
            {| l_query := Some query; l_web_data := Some web_data; l_hypotheses := None |} in
          match generate_hypotheses_with_gemini W query web_data with
          | Raise e => (bound_w, gd, Some e)
          | Ok hypotheses =>
              let hypotheses := store_hypothesis W session_id <$> hypotheses in
              ({| l_query := Some query; l_web_data := Some web_data;
                  l_hypotheses := Some hypotheses |},
               {| gd_web_data := web_data; gd_hypotheses := hypotheses;
                  gd_cycle := gd_cycle gd |},
               None)
          end
      end
  end.

Definition fallback_hypothesis (W : world) (ctx : context) : hypothesis :=
  {| hyp_id := "fallback-" +:+ pretty (now W);
     statement := JStr ("General hypothesis about " +:+ default "the topic" (ctx_query ctx));
     confidence := Fin 0.3;
     rationale := None;
     sources := [];
     source_urls := None;
     created_at := None;
     context_item_id := None |}.

(** [GenerationAgent.process]: the generated data and the session. *)
Definition process (W : world) (ctx : context) : result (generated_data * string) :=
  let session_id :=
    match ctx_session_id ctx with
    | Some s => if String.eqb s EmptyString then "session_" +:+ uuid_hex W else s
    | None => "session_" +:+ uuid_hex W
    end in
  let gd := {| gd_web_data := []; gd_hypotheses := [];
               gd_cycle := default 0%Z (ctx_cycle ctx) + 1 |} in
  let '(vars, gd, raised) := process_try W ctx session_id gd in
  let gd :=
    match raised with
    | Some _ =>
        {| gd_web_data := gd_web_data gd; gd_hypotheses := [fallback_hypothesis W ctx];
           gd_cycle := gd_cycle gd |}
    | None => gd
    end in
  (* the summary sent to the context server reads the three variables *)
  query ← local (l_query vars);
  web_data ← local (l_web_data vars);
  hypotheses ← local (l_hypotheses vars);
  Ok (gd, session_id).

Record generated : Type := {
  results : list hypothesis;
  session_id : string
}.

(** [GenerationAgent.generate]; the argument is any value. *)
Definition generate (W : world) (query : json) : result generated :=
  match query with
  | JStr q =>
      if String.eqb (strip q) EmptyString
      then Ok {| results := []; session_id := EmptyString |}
      else
        try_except
          (let session := "gen_" +:+ uuid_hex W in
           let ctx := {| ctx_query := Some q; ctx_session_id := Some session;
                         ctx_cycle := None |} in
           updated ← process W ctx;
           Ok {| results := gd_hypotheses updated.1; session_id := session |})
          (λ _, Ok {| results := []; session_id := "error_session" |})
  | _ => Ok {| results := []; session_id := EmptyString |}
  end.

End Generation.

(** ** The reflection agent *)

Module Reflection.

Import Text Recovery.

Abbreviation web_item := Generation.web_item.

(** A hypothesis as the agent reads it: [hypothesis["statement"]] and
    [hypothesis.get("id", "unknown")]. *)
Record hypothesis : Type := {
  h_id : option string;
  h_statement : option string
}.

Record context : Type := {
  c_session_id : option string;
  c_hypotheses : option (list hypothesis);
  c_web_data : option (list web_item);
  c_query : option string;
  c_reflection_results : option (list pydict);
  c_hypotheses_to_improve : option (list string)
}.

Record world : Type := {
  (** [uuid.uuid4()] as a text *)
  uuid : string;
  (** [generate_text(prompt, temperature=0.2)] for the prompt built from
      the hypothesis, the web data, the query and the reflections the
      context server remembers *)
  generate_text : hypothesis → list web_item → string → option string;
  (** [json.loads] *)
  json_loads : string → option json;
  (** the scan of the web data for the keywords of the statement in
      [_reflect_on_hypothesis]: the supporting facts and the
      contradictions found, or the exception it ends with *)
  scan_evidence : hypothesis → list web_item → result (list json * list json)
}.

Definition id_or_unknown (h : hypothesis) : string := default "unknown" (h_id h).

Definition json_strings (l : list string) : json := JArr (JStr <$> l).

(** [re.split] on the characters [p]. *)
Fixpoint split_chars (p : ascii → bool) (s : string) : list string :=
  match s with
  | EmptyString => [EmptyString]
  | String c s' =>
      if p c then EmptyString :: split_chars p s'
      else match split_chars p s' with
           | w :: ws => String c w :: ws
           | [] => [String c EmptyString]
           end
  end.

Definition sentence_end (c : ascii) : bool :=
  Ascii.eqb c "." || Ascii.eqb c "!" || Ascii.eqb c "?".

(** A pattern of literal alternatives searched with [re.IGNORECASE]. *)
Definition mentions (alternatives : list string) (text : string) : bool :=
  existsb (λ p, contains p (lower text)) alternatives.

(** [_extract_reflection_from_text] *)
Definition extract_reflection_from_text (text hypothesis_id query : string) : pydict :=
  let incoherent := mentions ["not coherent"; "lacks coherence"; "incoherent"] text in
  let supported :=
    mentions ["supporting evidence"; "evidence supports"; "well supported"] text in
  let comments :=
    filter (λ sentence,
              (15 <? String.length sentence)%nat
              && negb (startswith "{" sentence) && negb (startswith quote sentence) = true)
           (strip <$> split_chars sentence_end text) in
  [ ("hypothesis_id", JStr hypothesis_id);
    ("is_coherent", JBool (negb incoherent));
    ("coherence_score", JFloat (if incoherent then 0.3 else 0.5));
    ("has_supporting_evidence", JBool supported);
    ("supporting_facts", JArr []);
    ("contradictions", JArr []);
    ("comments", json_strings (take 3 comments));
    ("query", JStr query) ].

(** The value a missing field is given. *)
Definition field_default (field : string) : json :=
  if bool_decide (field ∈ ["supporting_facts"; "contradictions"; "comments"]) then JArr []
  else if bool_decide (field ∈ ["is_coherent"; "has_supporting_evidence"]) then JBool false
  else JFloat 0.5.

Definition required_fields : list string :=
  ["is_coherent"; "coherence_score"; "has_supporting_evidence";
   "supporting_facts"; "contradictions"; "comments"].

Definition fill_missing (d : pydict) : pydict :=
  foldl (λ acc field,
           if dict_has field acc then acc else dict_set field (field_default field) acc)
        d required_fields.

(** [_reflect_with_gemini] *)
Definition reflect_with_gemini (W : world) (h : hypothesis) (web_data : list web_item)
    (query : string) : result pydict :=
  match h_statement h with
  | None => Raise KeyError
  | Some _ =>
      let empty_answer :=
        [ ("error", JStr "Gemini response was empty");
          ("hypothesis_id", JStr (id_or_unknown h));
          ("query", JStr query) ] in
      match generate_text W h web_data query with
      | None => Ok empty_answer
      | Some gemini_response =>
          if String.eqb (strip gemini_response) EmptyString then Ok empty_answer
          else
            match json_loads W (clean_json_response gemini_response) with
            | None =>
                Ok (extract_reflection_from_text gemini_response (id_or_unknown h) query)
            | Some (JObj d) =>
                let d := dict_set "hypothesis_id" (JStr (id_or_unknown h)) d in
                let d := if dict_has "query" d then d else dict_set "query" (JStr query) d in
                Ok (fill_missing d)
            | Some _ => Raise TypeError
            end
      end
  end.

Definition contradictory_pairs : list (string * string) :=
  [("increase", "decrease"); ("always", "never"); ("all", "none"); ("positive", "negative")].

(** [_check_coherence] *)
Definition check_coherence (statement : string) : bool :=
  if ((String.length statement <? 10) || (500 <? String.length statement))%nat then false
  else
    let statement_lower := lower statement in
    negb (existsb (λ '(word1, word2),
                     contains word1 statement_lower && contains word2 statement_lower
                     && negb (contains "than" statement_lower)
                     && negb (contains "but" statement_lower))
                  contradictory_pairs).

(** [_reflect_on_hypothesis], the rule-based reflection *)
Definition reflect_on_hypothesis (W : world) (h : hypothesis) (web_data : list web_item)
    (query : string) : result pydict :=
  let statement := default EmptyString (h_statement h) in
  let is_coherent := check_coherence statement in
  found ← scan_evidence W h web_data;
  let supporting_facts := take 5 found.1 in
  let contradictions := take 3 found.2 in
  let has_supporting_evidence := negb (is_nil supporting_facts) in
  let has_contradictions := negb (is_nil contradictions) in
  let comments :=
    ((if is_coherent then [] else ["The hypothesis may not be internally coherent."])
     ++ (if has_supporting_evidence then []
         else ["The hypothesis lacks supporting evidence from the web data."])
     ++ (if has_contradictions
         then ["The hypothesis has contradicting evidence that should be addressed."] else [])
     ++ (if is_coherent && has_supporting_evidence && negb has_contradictions
         then ["The hypothesis is well-supported by the web data."] else []))%list in
  Ok [ ("hypothesis_id", JStr (id_or_unknown h));
       ("is_coherent", JBool is_coherent);
       ("coherence_score", JFloat (if is_coherent then 0.8 else 0.4));
       ("has_supporting_evidence", JBool has_supporting_evidence);
       ("contradictions", JArr contradictions);
       ("supporting_facts", JArr supporting_facts);
       ("comments", json_strings comments);
       ("query", JStr query) ].

(** The body of the loop of [process]: the reflection with the oracle,
    and the rule-based one when it raises. *)
Definition reflect (W : world) (web_data : list web_item) (query : string)
    (results : list pydict) (h : hypothesis) : result (list pydict) :=
  reflection ← try_except (reflect_with_gemini W h web_data query)
                          (λ _, reflect_on_hypothesis W h web_data query);
  Ok (results ++ [reflection])%list.

(** [not r["is_coherent"] or not r["has_supporting_evidence"]] *)
Definition needs_improvement (r : pydict) : result bool :=
  coherent ← dict_item "is_coherent" r;
  if negb (truthy coherent) then Ok true
  else supported ← dict_item "has_supporting_evidence" r; Ok (negb (truthy supported)).

Fixpoint hypotheses_to_improve (l : list (hypothesis * pydict)) : result (list string) :=
  match l with
  | [] => Ok []
  | (h, r) :: l' =>
      b ← needs_improvement r;
      rest ← hypotheses_to_improve l';
      Ok (if b : bool then id_or_unknown h :: rest else rest)
  end.

Definition set_results (ctx : context) (rs : list pydict) : context :=
  {| c_session_id := c_session_id ctx; c_hypotheses := c_hypotheses ctx;
     c_web_data := c_web_data ctx; c_query := c_query ctx;
     c_reflection_results := Some rs;
     c_hypotheses_to_improve := c_hypotheses_to_improve ctx |}.

Definition set_to_improve (ctx : context) (ids : list string) : context :=
  {| c_session_id := c_session_id ctx; c_hypotheses := c_hypotheses ctx;
     c_web_data := c_web_data ctx; c_query := c_query ctx;
     c_reflection_results := c_reflection_results ctx;
     c_hypotheses_to_improve := Some ids |}.

(** The [try] block of [process]: the context as the block leaves it,
    and the exception if there is one. *)
Definition process_try (W : world) (ctx : context) : context * option exn :=
  match c_hypotheses ctx, c_web_data ctx, c_query ctx with
  | Some hypotheses, Some web_data, Some query =>
      match for_each (reflect W web_data query) hypotheses [] with
      | Raise e => (ctx, Some e)
      | Ok reflection_results =>
          let ctx := set_results ctx reflection_results in
          match hypotheses_to_improve (zip hypotheses reflection_results) with
          | Raise e => (ctx, Some e)
          | Ok ids => (set_to_improve ctx ids, None)
          end
      end
  | _, _, _ => (ctx, Some ValueError)
  end.

(** The result every hypothesis gets when the stage fails. *)
Definition failed_reflection (h : hypothesis) : pydict :=
  [ ("hypothesis_id", JStr (id_or_unknown h));
    ("is_coherent", JBool true);
    ("coherence_score", JFloat 0.5);
    ("has_supporting_evidence", JBool false);
    ("contradictions", JArr []);
    ("supporting_facts", JArr []);
    ("comments", json_strings ["Failed to complete reflection"]) ].

(** The session identifier is made up when the context has none. *)
Definition ensure_session (W : world) (ctx : context) : context :=
  match c_session_id ctx with
  | Some _ => ctx
  | None =>
      {| c_session_id := Some (uuid W); c_hypotheses := c_hypotheses ctx;
         c_web_data := c_web_data ctx; c_query := c_query ctx;
         c_reflection_results := c_reflection_results ctx;
         c_hypotheses_to_improve := c_hypotheses_to_improve ctx |}
  end.

(** [ReflectionAgent.process] *)
Definition process (W : world) (ctx : context) : context :=
  match process_try W (ensure_session W ctx) with
  | (ctx, None) => ctx
  | (ctx, Some _) =>
      let hypotheses := default [] (c_hypotheses ctx) in
      set_results ctx (failed_reflection <$> hypotheses)
  end.

End Reflection.

(** ** [list.sort(key=..., reverse=True)]

    Python's sort is stable, also in reverse: the elements come out by
    decreasing key, and those of equal key in the order they had.  The
    insertion sort below is that function. *)

Module Sorting.

Section Sort.

Context {A : Type} (key : A → Q).

(** [x] goes behind the elements of greater key and before the others:
    it was before them in the list being sorted. *)
Fixpoint insert_desc (x : A) (l : list A) : list A :=
  match l with
  | [] => [x]
  | y :: l' => if qlt (key x) (key y) then y :: insert_desc x l' else x :: y :: l'
  end.

Fixpoint sort_desc (l : list A) : list A :=
  match l with
  | [] => []
  | x :: l' => insert_desc x (sort_desc l')
  end.

End Sort.

End Sorting.

(** ** The ranking agent *)

Module Ranking.

Import Text Sorting.
#[local] Open Scope Q_scope.

Abbreviation web_item := Generation.web_item.
Abbreviation wi_content := Generation.wi_content.

(** A hypothesis as the agent reads it; its other keys are carried along
    by the copy [{**hypothesis, ...}]. *)
Record hypothesis : Type := {
  h_id : option string;
  h_statement : option string
}.

Record scores : Type := {
  coherence : Q;
  evidence : Q;
  relevance : Q;
  specificity : Q;
  novelty : Q;
  llm_credibility : Q
}.

Record ranked : Type := {
  base : hypothesis;
  r_scores : scores;
  overall_score : Q;
  rank_explanation : string;
  rank : option nat
}.

Record context : Type := {
  c_session_id : option string;
  c_query : option string;
  c_hypotheses : option (list hypothesis);
  c_reflection_results : option (list pydict);
  c_web_data : option (list web_item);
  c_ranked_hypotheses : option (list ranked);
  c_top_hypothesis : option ranked
}.

Record world : Type := {
  (** [uuid.uuid4().hex[:8]] *)
  uuid_hex8 : string;
  (** [BaseAgent.validate_context], with the four required keys *)
  validate_context : context → bool * string;
  (** [generate_text(prompt, temperature=0.2)] for the credibility prompt
      built from the statement, the query and the web data *)
  generate_text : string → string → list web_item → option string;
  (** [float] on the texts that are not number literals of JSON *)
  float_other : string → option pyfloat
}.

(** The weights of the criteria. *)
Definition weights : scores :=
  {| coherence := 0.20; evidence := 0.25; relevance := 0.20;
     specificity := 0.10; novelty := 0.10; llm_credibility := 0.15 |}.

(** [len(v)] *)
Definition py_len (v : json) : result nat :=
  match v with
  | JStr s => Ok (String.length s)
  | JArr l => Ok (length l)
  | JObj d => Ok (length d)
  | _ => Raise TypeError
  end.

(** A value used as a number in arithmetic. *)
Definition as_number (v : json) : result Q :=
  match v with
  | JInt z => Ok (inject_Z z)
  | JFloat q => Ok q
  | JBool b => Ok (if b then 1 else 0)
  | _ => Raise TypeError
  end.

(** [len(set(a) & set(b))] and [len(set(a) | set(b))] *)
Definition common_count (a b : list string) : nat :=
  length (filter (λ w, w ∈ b) (remove_dups a)).
Definition union_count (a b : list string) : nat :=
  length (remove_dups (a ++ b)%list).

(** [_calculate_relevance] *)
Definition calculate_relevance (statement query : string) (web_data : list web_item) : Q :=
  let statement_words := split (lower statement) in
  let query_words := split (lower query) in
  let overlap :=
    qnat (common_count statement_words query_words)
    / qnat (Nat.max 1 (length (remove_dups query_words))) in
  let query_terms := filter (λ w, (3 < String.length w)%nat) query_words in
  let relevant_terms :=
    filter (λ term, existsb (λ data, contains term (lower (wi_content data))) web_data = true)
           (remove_dups query_terms) in
  let query_term_coverage :=
    match relevant_terms with
    | [] => 0
    | _ =>
        let covered_terms :=
          filter (λ term, contains term (lower statement) = true) relevant_terms in
        qnat (length covered_terms) / qnat (length relevant_terms)
    end in
  qmin 1 (0.4 * overlap + 0.6 * query_term_coverage).

Definition specificity_indicators : list string :=
  ["specific"; "precisely"; "exactly"; "particularly";
   "uniquely"; "distinct"; "specialized"; "detailed"].

(** [_calculate_specificity] *)
Definition calculate_specificity (statement : string) : Q :=
  let length_factor := qmin 1 (qnat (String.length statement) / 100) in
  let has_numbers := negb (all_chars (λ c, negb (isdigit c)) statement) in
  let number_factor := if has_numbers then 0.2 else 0 in
  let indicator_factor :=
    0.1 * qnat (length (filter (λ word, contains word (lower statement) = true)
                               specificity_indicators)) in
  qmin 1 (0.5 * length_factor + 0.3 * number_factor + 0.2 * qmin 1 indicator_factor).

(** [_calculate_novelty] *)
Definition calculate_novelty (statement : string) (web_data : list web_item) : Q :=
  match web_data with
  | [] => 0.5
  | _ =>
      let statement_words := split (lower statement) in
      let similarities :=
        (λ data,
           let content_words := split (lower (wi_content data)) in
           qnat (common_count statement_words content_words)
           / qnat (Nat.max 1 (union_count statement_words content_words)))
        <$> web_data in
      1 - qsum similarities / qnat (length similarities)
  end.

(** [_calculate_llm_credibility] *)
Definition calculate_llm_credibility (W : world) (statement query : string)
    (web_data : list web_item) : Q :=
  match generate_text W statement query web_data with
  | None => 0.5
  | Some response =>
      if String.eqb response EmptyString then 0.5
      else
        match Float.of_text (float_other W) (strip response) with
        | None => 0.5
        | Some score =>
            match Float.max (Fin 0) (Float.min (Fin 1) score) with
            | Fin q => q
            | _ => 0.5
            end
        end
  end.

(** [_calculate_scores]; the coherence score is what the reflection
    holds, and has to be a number when the weighted sum is taken. *)
Definition calculate_scores (W : world) (h : hypothesis) (reflection : pydict)
    (web_data : list web_item) (query : string) : result scores :=
  let statement := default EmptyString (h_statement h) in
  let coherence_score := default (JFloat 0.5) (dict_get "coherence_score" reflection) in
  let supporting_facts := default (JArr []) (dict_get "supporting_facts" reflection) in
  let contradictions := default (JArr []) (dict_get "contradictions" reflection) in
  n_facts ← py_len supporting_facts;
  n_contradictions ← py_len contradictions;
  let evidence_score := qmin 1 (qnat n_facts * 0.2) - qmin 0.5 (qnat n_contradictions * 0.2) in
  let evidence_score := qmax 0.1 evidence_score in
  let relevance_score := calculate_relevance statement query web_data in
  let specificity_score := calculate_specificity statement in
  let novelty_score := calculate_novelty statement web_data in
  let llm_credibility_score := calculate_llm_credibility W statement query web_data in
  coherence_number ← as_number coherence_score;
  Ok {| coherence := coherence_number; evidence := evidence_score;
        relevance := relevance_score; specificity := specificity_score;
        novelty := novelty_score; llm_credibility := llm_credibility_score |}.

(** [sum(self.weights[criterion] * score for criterion, score in scores.items())] *)
Definition weighted_sum (s : scores) : Q :=
  0 + coherence weights * coherence s + evidence weights * evidence s
    + relevance weights * relevance s + specificity weights * specificity s
    + novelty weights * novelty s + llm_credibility weights * llm_credibility s.

(** [a >= b] *)
Definition qge (a b : Q) : bool := Qle_bool b a.

(** [_generate_explanation] *)
Definition generate_explanation (s : scores) (reflection : pydict) : result string :=
  let supporting_facts := default (JArr []) (dict_get "supporting_facts" reflection) in
  let contradictions := default (JArr []) (dict_get "contradictions" reflection) in
  n_facts ← py_len supporting_facts;
  contradicting ←
    (if truthy contradictions
     then n ← py_len contradictions;
          Ok ["has " +:+ pretty n +:+ " contradicting points"]
     else Ok []);
  let explanation_parts :=
    ([ if qge (coherence s) 0.8 then "The hypothesis is logically coherent"
       else if qge (coherence s) 0.5 then "The hypothesis is somewhat coherent"
       else "The hypothesis lacks logical coherence";
       if (3 <? n_facts)%nat
       then "strongly supported by " +:+ pretty n_facts +:+ " pieces of evidence"
       else if (0 <? n_facts)%nat
       then "supported by " +:+ pretty n_facts +:+ " pieces of evidence"
       else "lacks supporting evidence" ]
     ++ contradicting
     ++ [ if qge (relevance s) 0.8 then "highly relevant to the query"
          else if qge (relevance s) 0.5 then "moderately relevant to the query"
          else "not very relevant to the query";
          if qge (llm_credibility s) 0.8 then "assessed as highly credible by LLM"
          else if qge (llm_credibility s) 0.6 then "assessed as credible by LLM"
          else if qge (llm_credibility s) 0.4 then "has mixed credibility according to LLM"
          else "assessed as potentially unreliable by LLM" ])%list in
  Ok (capitalize (String.concat ". " explanation_parts) +:+ ".").

(** The key of a reflection in the mapping by hypothesis: a text or
    [None]; a key of another hashable type equals no identifier. *)
Definition reflection_key (r : pydict) : result (option (option string)) :=
  match dict_get "hypothesis_id" r with
  | None => Raise KeyError
  | Some (JStr s) => Ok (Some (Some s))
  | Some JNull => Ok (Some None)
  | Some (JArr _) | Some (JObj _) => Raise TypeError
  | Some _ => Ok None
  end.

(** [{r["hypothesis_id"]: r for r in reflection_results}] *)
Definition reflection_map (reflection_results : list pydict)
    : result (gmap (option string) pydict) :=
  for_each (λ m r,
              k ← reflection_key r;
              Ok (match k with Some k => <[k := r]> m | None => m end))
           reflection_results ∅.

Definition json_of_id (o : option string) : json :=
  match o with Some s => JStr s | None => JNull end.

(** The score, on the scale of ten, and the explanation of a hypothesis
    with its reflection. *)
Definition rank_hypothesis (W : world) (web_data : list web_item) (query : string)
    (h : hypothesis) (reflection : pydict) : result ranked :=
  s ← calculate_scores W h reflection web_data query;
  let overall := round1 (weighted_sum s * 10) in
  explanation ← generate_explanation s reflection;
  Ok {| base := h; r_scores := s; overall_score := overall;
        rank_explanation := explanation; rank := None |}.

Definition with_rank (i : nat) (r : ranked) : ranked :=
  {| base := base r; r_scores := r_scores r; overall_score := overall_score r;
     rank_explanation := rank_explanation r; rank := Some (i + 1)%nat |}.

(** The sort by decreasing score and the ranks, from 1. *)
Definition sort_and_rank (l : list ranked) : list ranked :=
  imap with_rank (sort_desc overall_score l).

(** The reflection a hypothesis without one is given. *)
Definition neutral_reflection (h : hypothesis) : pydict :=
  [ ("hypothesis_id", json_of_id (h_id h));
    ("coherence_score", JFloat 0.5);
    ("supporting_facts", JArr []);
    ("contradictions", JArr []) ].

(** The body of the loop of [process]: a hypothesis without a reflection
    gets the neutral one. *)
Definition score_step (W : world) (m : gmap (option string) pydict)
    (web_data : list web_item) (query : string) (acc : list ranked) (h : hypothesis)
    : result (list ranked) :=
  let reflection := default (neutral_reflection h) (m !! h_id h) in
  r ← rank_hypothesis W web_data query h reflection;
  Ok (acc ++ [r])%list.

Definition score_all (W : world) (m : gmap (option string) pydict)
    (web_data : list web_item) (query : string) (hypotheses : list hypothesis)
    : result (list ranked) :=
  for_each (score_step W m web_data query) hypotheses [].

(** The body of the loop of [rank]: a hypothesis without a reflection is
    left out. *)
Definition score_reflected_step (W : world) (m : gmap (option string) pydict)
    (web_data : list web_item) (query : string) (acc : list ranked) (h : hypothesis)
    : result (list ranked) :=
  match h_id h with
  | None => Raise KeyError
  | Some hid =>
      match m !! Some hid with
      | None => Ok acc
      | Some reflection =>
          r ← rank_hypothesis W web_data query h reflection;
          Ok (acc ++ [r])%list
      end
  end.

Definition score_reflected (W : world) (m : gmap (option string) pydict)
    (web_data : list web_item) (query : string) (hypotheses : list hypothesis)
    : result (list ranked) :=
  for_each (score_reflected_step W m web_data query) hypotheses [].

(** The [try] block of [process]; the context is written at its end. *)
Definition process_try (W : world) (ctx : context) : result context :=
  if negb (validate_context W ctx).1 then Raise ValueError else
  let hypotheses := default [] (c_hypotheses ctx) in
  let reflection_results := default [] (c_reflection_results ctx) in
  let web_data := default [] (c_web_data ctx) in
  let query := default EmptyString (c_query ctx) in
  m ← reflection_map reflection_results;
  scored ← score_all W m web_data query hypotheses;
  let ranked_hypotheses := sort_and_rank scored in
  Ok {| c_session_id := c_session_id ctx; c_query := c_query ctx;
        c_hypotheses := c_hypotheses ctx;
        c_reflection_results := c_reflection_results ctx;
        c_web_data := c_web_data ctx;
        c_ranked_hypotheses := Some ranked_hypotheses;
        c_top_hypothesis :=
          match ranked_hypotheses with
          | top :: _ => Some top
          | [] => c_top_hypothesis ctx
          end |}.

Definition neutral_scores : scores :=
  {| coherence := 0.5; evidence := 0.5; relevance := 0.5;
     specificity := 0.5; novelty := 0.5; llm_credibility := 0.5 |}.

Definition fallback_explanation : string := "Fallback ranking due to processing error".

(** The ranking written when the block raised. *)
Definition fallback_ranking (hypotheses : list hypothesis) : list ranked :=
  imap (λ i h, {| base := h; r_scores := neutral_scores; overall_score := 5.0;
                  rank_explanation := fallback_explanation; rank := Some (i + 1)%nat |})
       hypotheses.

(** The [except] block of [process]. *)
Definition process_except (ctx : context) : context :=
  match c_ranked_hypotheses ctx, c_hypotheses ctx with
  | None, Some hypotheses =>
      {| c_session_id := c_session_id ctx; c_query := c_query ctx;
         c_hypotheses := c_hypotheses ctx;
         c_reflection_results := c_reflection_results ctx;
         c_web_data := c_web_data ctx;
         c_ranked_hypotheses := Some (fallback_ranking hypotheses);
         c_top_hypothesis := c_top_hypothesis ctx |}
  | _, _ => ctx
  end.

(** The session identifier is made up when the context has none. *)
Definition ensure_session (W : world) (ctx : context) : context :=
  let fresh :=
    {| c_session_id := Some ("session_" +:+ uuid_hex8 W); c_query := c_query ctx;
       c_hypotheses := c_hypotheses ctx;
       c_reflection_results := c_reflection_results ctx;
       c_web_data := c_web_data ctx;
       c_ranked_hypotheses := c_ranked_hypotheses ctx;
       c_top_hypothesis := c_top_hypothesis ctx |} in
  match c_session_id ctx with
  | Some s => if String.eqb s EmptyString then fresh else ctx
  | None => fresh
  end.

(** [RankingAgent.process] *)
Definition process (W : world) (ctx : context) : context :=
  let ctx := ensure_session W ctx in
  match process_try W ctx with
  | Ok ctx' => ctx'
  | Raise _ => process_except ctx
  end.

(** [RankingAgent.rank] *)
Definition rank_hypotheses (W : world) (ctx : context) : result (list ranked) :=
  hypotheses ← match c_hypotheses ctx with Some v => Ok v | None => Raise KeyError end;
  reflection_results ←
    match c_reflection_results ctx with Some v => Ok v | None => Raise KeyError end;
  web_data ← match c_web_data ctx with Some v => Ok v | None => Raise KeyError end;
  query ← match c_query ctx with Some v => Ok v | None => Raise KeyError end;
  m ← reflection_map reflection_results;
  scored ← score_reflected W m web_data query hypotheses;
  Ok (sort_and_rank scored).

End Ranking.

(** ** The evolution agent *)

Module Evolution.

Import Text.
#[local] Open Scope Q_scope.

(** A ranked hypothesis as the agent reads it: [hyp["id"]],
    [hyp["statement"]], and with a default [hyp.get("scores",
    {}).get("evidence", 0)], [hyp.get("overall_score", 0)],
    [hyp.get("confidence", 0.5)] and [hyp.get("sources", [])].  An evolved
    hypothesis has the same shape, with [parent_id]. *)
Record hypothesis : Type := {
  id : string;
  parent_id : option string;
  statement : string;
  confidence : option Q;
  sources : option (list nat);
  evidence_score : option Q;
  overall_score : option Q;
  evolved_at : option Q;
  evolution_cycle : option Z
}.

Record detail : Type := {
  original_id : string;
  evolved_id : string;
  original_statement : string;
  evolved_statement : string;
  evolution_reason : string
}.

Record world : Type := {
  (** [time.time()] *)
  clock : Q;
  (** [random.choice] *)
  choice : list string → string;
  (** the content of the pages found and scraped for the search terms,
      cut at 500 characters *)
  gather_additional_data : list string → list string
}.

(** The test of the loop of [_select_hypotheses_to_evolve]. *)
Definition has_potential (hyp : hypothesis) : bool :=
  qlt 0.6 (default 0 (evidence_score hyp)) && qlt (default 0 (overall_score hyp)) 8.0.

(** The loop over [ranked_hypotheses[1:]]. *)
Fixpoint select_more (to_evolve : list string) (rest : list hypothesis) : list string :=
  match rest with
  | [] => to_evolve
  | hyp :: rest' =>
      let to_evolve :=
        if has_potential hyp then (to_evolve ++ [id hyp])%list else to_evolve in
      if (3 <=? length to_evolve)%nat then to_evolve else select_more to_evolve rest'
  end.

(** [_select_hypotheses_to_evolve] *)
Definition select_hypotheses_to_evolve (ranked_hypotheses : list hypothesis) : list string :=
  match ranked_hypotheses with
  | [] => []
  | top :: rest => select_more [id top] rest
  end.

(** [max(parts, key=len)]: the first of the longest. *)
Fixpoint longest (best : string) (parts : list string) : string :=
  match parts with
  | [] => best
  | p :: parts' =>
      longest (if (String.length best <? String.length p)%nat then p else best) parts'
  end.

(** [_improve_coherence] *)
Definition improve_coherence (W : world) (statement : string) : string :=
  let statement :=
    if (20 <? length (split statement))%nat then
      match Reflection.split_chars (λ c, Ascii.eqb c ",") statement with
      | p1 :: p2 :: p3 :: parts =>
          strip (longest p1 (p2 :: p3 :: parts)) +:+ ", "
          +:+ choice W ["specifically"; "in particular"; "notably"; "especially"]
      | _ => statement
      end
    else statement in
  if existsb (λ connector, contains connector (lower statement))
             ["because"; "therefore"; "consequently"; "as a result"]
  then statement
  else statement +:+ " " +:+ choice W ["because"; "which"].

(** [_generate_targeted_search_terms]; [query_terms[0]] needs a word in
    the query. *)
Definition generate_targeted_search_terms (statement query : string) : result (list string) :=
  let key_terms :=
    filter (λ word, (4 < String.length word)%nat
                    ∧ word ∉ ["could"; "would"; "should"; "might"; "because"; "therefore"])
           (split (lower statement)) in
  match split (lower query) with
  | [] => Raise IndexError
  | first :: _ =>
      let about := String.concat " " (take 2 key_terms) +:+ " " +:+ first in
      Ok ["evidence " +:+ about; "research " +:+ about; "example " +:+ about]
  end.

(** The sentences of a page that share two words with the statement, or
    contain one of its words of more than five letters. *)
Definition relevant_sentences (statement : string) (content : string) : list string :=
  let statement_words := remove_dups (split (lower statement)) in
  let sentences :=
    filter (λ s, (10 < String.length s)%nat)
           (strip <$> Reflection.split_chars (λ c, Ascii.eqb c ".") content) in
  filter (λ sentence,
            (2 <=? Ranking.common_count statement_words (split (lower sentence)))%nat
            || existsb (λ word, (5 <? String.length word)%nat
                                && contains word (lower sentence))
                       statement_words = true)
         sentences.

(** [_incorporate_evidence] *)
Definition incorporate_evidence (W : world) (statement : string)
    (additional_data : list string) (reflection : pydict) : result string :=
  match additional_data with
  | [] => Ok statement
  | _ =>
      match additional_data ≫= relevant_sentences statement with
      | [] => Ok statement
      | _ =>
          let phrase :=
            choice W ["Research indicates that"; "Evidence suggests that";
                      "Studies have shown that"; "According to research,"] in
          contradictions ← dict_item "contradictions" reflection;
          if truthy contradictions
          then Ok (phrase +:+ " " +:+ statement +:+ ", although some limitations exist.")
          else Ok (phrase +:+ " " +:+ statement +:+ ".")
      end
  end.

(** [s[:-1]] when the text ends with a full stop, an exclamation mark or
    a question mark. *)
Fixpoint drop_final_mark (s : string) : string :=
  match s with
  | EmptyString => EmptyString
  | String c EmptyString => if Reflection.sentence_end c then EmptyString else s
  | String c s' => String c (drop_final_mark s')
  end.

(** [_make_more_specific] *)
Definition make_more_specific (W : world) (statement query : string) : string :=
  drop_final_mark statement +:+ ", "
  +:+ choice W [ "especially in the context of " +:+ query;
                 "particularly when considering " +:+ query;
                 "with notable impact on " +:+ query;
                 "which is critical for " +:+ query ]
  +:+ ".".

(** The issues read in the reflection: coherence, evidence and
    contradictions. *)
Definition issues_of (reflection : pydict) : result (bool * bool * bool) :=
  coherent ← dict_item "is_coherent" reflection;
  supported ← dict_item "has_supporting_evidence" reflection;
  contradictions ← dict_item "contradictions" reflection;
  Ok (negb (truthy coherent), negb (truthy supported), truthy contradictions).

(** [_refine_hypothesis] *)
Definition refine_hypothesis (W : world) (h : hypothesis) (reflection : pydict)
    (query : string) (cycle : Z) : result string :=
  let statement := statement h in
  '(coherence, evidence, contradictions) ← issues_of reflection;
  let statement := if coherence : bool then improve_coherence W statement else statement in
  statement ←
    (if evidence || contradictions then
       search_terms ← generate_targeted_search_terms statement query;
       incorporate_evidence W statement (gather_additional_data W search_terms) reflection
     else Ok statement);
  if (1 <? cycle)%Z && negb (coherence || evidence || contradictions)
  then Ok (make_more_specific W statement query)
  else Ok statement.

(** [_get_evolution_reason] *)
Definition get_evolution_reason (h : hypothesis) (reflection : pydict) : result string :=
  '(coherence, evidence, contradictions) ← issues_of reflection;
  let reasons :=
    ((if coherence : bool then ["improved logical coherence"] else [])
     ++ (if evidence : bool then ["added supporting evidence"] else [])
     ++ (if contradictions : bool then ["addressed contradictions"] else []))%list in
  let reasons :=
    match reasons with
    | [] =>
        if qlt (default 0 (overall_score h)) 7.0
        then ["enhanced overall quality"]
        else ["refined with more specific details"]
    | _ => reasons
    end in
  Ok ("Evolution based on " +:+ String.concat " and " reasons).

(** The identifier of the evolved hypothesis. *)
Definition evolved_name (hypothesis_id : string) (cycle : Z) : string :=
  hypothesis_id +:+ "-evolved-" +:+ pretty cycle.

(** The body of the loop of [evolve] for a hypothesis that is selected
    and has a reflection. *)
Definition evolve_one (W : world) (h : hypothesis) (reflection : pydict)
    (query : string) (cycle : Z) : result (hypothesis * detail) :=
  refined_statement ← refine_hypothesis W h reflection query cycle;
  let evolved :=
    {| id := evolved_name (id h) cycle;
       parent_id := Some (id h);
       statement := refined_statement;
       confidence := Some (qmin 1 (default 0.5 (confidence h) + 0.1));
       sources := Some (default [] (sources h));
       evidence_score := None;
       overall_score := None;
       evolved_at := Some (clock W);
       evolution_cycle := Some cycle |} in
  reason ← get_evolution_reason h reflection;
  Ok (evolved,
      {| original_id := id h; evolved_id := id evolved;
         original_statement := statement h; evolved_statement := refined_statement;
         evolution_reason := reason |}).

(** [evolve]: the evolved list and the details. *)
Fixpoint evolve (W : world) (ranked_hypotheses : list hypothesis)
    (hypotheses_to_evolve : list string) (reflection_map : gmap string pydict)
    (query : string) (cycle : Z) : result (list hypothesis * list detail) :=
  match ranked_hypotheses with
  | [] => Ok ([], [])
  | h :: rest =>
      step ←
        match reflection_map !! id h with
        | None | Some [] => Ok (h, None)
        | Some reflection =>
            if bool_decide (id h ∈ hypotheses_to_evolve)
            then '(evolved, d) ← evolve_one W h reflection query cycle;
                 Ok (evolved, Some d)
            else Ok (h, None)
        end;
      '(hs, ds) ← evolve W rest hypotheses_to_evolve reflection_map query cycle;
      Ok (step.1 :: hs, match step.2 with Some d => d :: ds | None => ds end)
  end.

End Evolution.

(** ** The meta-review agent: the performance of a cycle *)

Module MetaReview.

Record bottleneck : Type := {
  agent : string;
  time : pyfloat;
  percentage : pyfloat
}.

Record performance_metrics : Type := {
  total_cycle_time : pyfloat;
  agent_times : list (string * pyfloat);
  bottlenecks : list bottleneck;
  successful_agents : list string;
  failed_agents : list string
}.

Definition empty_metrics : performance_metrics :=
  {| total_cycle_time := Fin 0; agent_times := []; bottlenecks := [];
     successful_agents := []; failed_agents := [] |}.

(** [agent_times[name] = t] *)
Fixpoint set_time (name : string) (t : pyfloat) (d : list (string * pyfloat))
    : list (string * pyfloat) :=
  match d with
  | [] => [(name, t)]
  | (k, v) :: d' =>
      if String.eqb name k then (name, t) :: d' else (k, v) :: set_time name t d'
  end.

Definition is_success (status : option json) : bool :=
  match status with
  | Some (JStr s) => String.eqb s "success"
  | _ => false
  end.

(** The execution time of an agent, when its data is a [dict] that has
    one and [float] accepts it. *)
Definition execution_time (float_other : string → option pyfloat) (agent_data : json)
    : option pyfloat :=
  match agent_data with
  | JObj d =>
      match dict_get "execution_time" d with
      | Some v =>
          match Float.of_json float_other v with
          | Ok t => Some t
          | Raise _ => None
          end
      | None => None
      end
  | _ => None
  end.

(** The body of the first loop, for one agent. *)
Definition record_agent (float_other : string → option pyfloat)
    (pm : performance_metrics) (entry : string * json) : performance_metrics :=
  let '(agent_name, agent_data) := entry in
  match execution_time float_other agent_data with
  | None => pm
  | Some exec_time =>
      let success :=
        match agent_data with
        | JObj d => is_success (dict_get "status" d)
        | _ => false
        end in
      {| total_cycle_time := Float.add (total_cycle_time pm) exec_time;
         agent_times := set_time agent_name exec_time (agent_times pm);
         bottlenecks := bottlenecks pm;
         successful_agents :=
           if success then (successful_agents pm ++ [agent_name])%list
           else successful_agents pm;
         failed_agents :=
           if success then failed_agents pm
           else (failed_agents pm ++ [agent_name])%list |}
  end.

(** The test of the second loop. *)
Definition is_bottleneck (total_time time_taken : pyfloat) : bool :=
  Float.lt (Float.mul (Fin 0.25) total_time) time_taken.

Definition bottleneck_entry (total_time : pyfloat) (entry : string * pyfloat) : bottleneck :=
  {| agent := entry.1; time := entry.2;
     percentage := Float.mul (Float.div entry.2 total_time) (Fin 100) |}.

(** [_analyze_cycle_performance] *)
Definition analyze_cycle_performance (float_other : string → option pyfloat)
    (cycle_data : pydict) : performance_metrics :=
  match default (JObj []) (dict_get "agent_outputs" cycle_data) with
  | JObj agent_outputs =>
      let pm := foldl (record_agent float_other) empty_metrics agent_outputs in
      let total_time := total_cycle_time pm in
      if Float.lt (Fin 0) total_time then
        {| total_cycle_time := total_time; agent_times := agent_times pm;
           bottlenecks :=
             bottleneck_entry total_time
             <$> filter (λ entry, is_bottleneck total_time entry.2 = true) (agent_times pm);
           successful_agents := successful_agents pm;
           failed_agents := failed_agents pm |}
      else pm
  | _ => empty_metrics
  end.

End MetaReview.

(** ** The stage of the evolution agent *)

Module EvolutionStage.

Import Evolution.

Record context : Type := {
  c_query : option string;
  c_ranked_hypotheses : option (list hypothesis);
  c_reflection_results : option (list pydict);
  c_cycle : option Z;
  c_session_id : option string;
  c_evolved_hypotheses : option (list hypothesis);
  c_evolution_details : option (list detail)
}.

Record world : Type := {
  (** what the refinement asks of the outside *)
  outside : Evolution.world;
  (** [BaseAgent.validate_context], with the five required keys *)
  validate_context : context → bool * string
}.

(** [context[key]] *)
Definition item {A} (v : option A) : result A :=
  match v with Some a => Ok a | None => Raise KeyError end.

(** The key of a reflection in the mapping by hypothesis: the identifiers
    of the hypotheses are texts, so that a key of another hashable type
    is the key of no hypothesis. *)
Definition reflection_key (r : pydict) : result (option string) :=
  match dict_get "hypothesis_id" r with
  | None => Raise KeyError
  | Some (JStr s) => Ok (Some s)
  | Some (JArr _) | Some (JObj _) => Raise TypeError
  | Some _ => Ok None
  end.

(** [{r["hypothesis_id"]: r for r in reflection_results}] *)
Definition reflection_map (reflection_results : list pydict) : result (gmap string pydict) :=
  for_each (λ m r,
              k ← reflection_key r;
              Ok (match k with Some k => <[k := r]> m | None => m end))
           reflection_results ∅.

(** The [try] block of [process]: the evolved hypotheses and the details
    it writes into the context. *)
Definition process_try (W : world) (ctx : context) : result (list hypothesis * list detail) :=
  if negb (validate_context W ctx).1 then Raise ValueError else
  ranked_hypotheses ← item (c_ranked_hypotheses ctx);
  reflection_results ← item (c_reflection_results ctx);
  query ← item (c_query ctx);
  cycle ← item (c_cycle ctx);
  session_id ← item (c_session_id ctx);
  m ← reflection_map reflection_results;
  let hypotheses_to_evolve := select_hypotheses_to_evolve ranked_hypotheses in
  evolve (outside W) ranked_hypotheses hypotheses_to_evolve m query cycle.

(** [EvolutionAgent.process] *)
Definition process (W : world) (ctx : context) : context :=
  match process_try W ctx with
  | Ok (evolved_hypotheses, evolution_details) =>
      {| c_query := c_query ctx; c_ranked_hypotheses := c_ranked_hypotheses ctx;
         c_reflection_results := c_reflection_results ctx; c_cycle := c_cycle ctx;
         c_session_id := c_session_id ctx;
         c_evolved_hypotheses := Some evolved_hypotheses;
         c_evolution_details := Some evolution_details |}
  | Raise _ =>
      match c_evolved_hypotheses ctx, c_ranked_hypotheses ctx with
      | None, Some ranked_hypotheses =>
          {| c_query := c_query ctx; c_ranked_hypotheses := c_ranked_hypotheses ctx;
             c_reflection_results := c_reflection_results ctx; c_cycle := c_cycle ctx;
             c_session_id := c_session_id ctx;
             c_evolved_hypotheses := Some ranked_hypotheses;
             c_evolution_details := c_evolution_details ctx |}
      | _, _ => ctx
      end
  end.

End EvolutionStage.

(** ** The meta-review agent: the insights of the oracle *)

Module Insights.

Import Text.

(** The text from its first opening brace to its last closing brace,
    [llm_response[json_start:json_end]], when the first comes before the
    last. *)
Definition braces_slice (s : string) : option string :=
  match split_at "{" s with
  | Some (_, after) =>
      match Recovery.upto_last_brace after with
      | Some r => Some ("{" +:+ r)
      | None => None
      end
  | None => None
  end.

Definition is_backtick (c : ascii) : bool := Ascii.eqb c "`".

Fixpoint lstrip_backticks (s : string) : string :=
  match s with
  | String c s' => if is_backtick c then lstrip_backticks s' else s
  | EmptyString => EmptyString
  end.

Fixpoint rstrip_backticks (s : string) : string :=
  match s with
  | String c s' =>
      match rstrip_backticks s' with
      | EmptyString => if is_backtick c then EmptyString else String c EmptyString
      | r => String c r
      end
  | EmptyString => EmptyString
  end.

(** [s.strip('`')] *)
Definition strip_backticks (s : string) : string :=
  rstrip_backticks (lstrip_backticks s).

Definition texts (l : list string) : json := JArr (JStr <$> l).

Definition insights_of (insights recommendations bottlenecks : list string) : json :=
  JObj [ ("insights", texts insights);
         ("recommendations", texts recommendations);
         ("bottlenecks", texts bottlenecks) ].

Definition default_result : json :=
  insights_of ["No insights available due to LLM processing error"]
              ["Review system logs for errors"; "Check LLM integration"]
              ["LLM processing"].

Definition required_keys : list string := ["insights"; "recommendations"; "bottlenecks"].

(** [key in result] *)
Definition py_in (key : string) (result : json) : Py.result bool :=
  match result with
  | JObj d => Ok (dict_has key d)
  | JArr l => Ok (existsb (λ v, match v with JStr s => String.eqb s key | _ => false end) l)
  | JStr s => Ok (contains key s)
  | _ => Raise TypeError
  end.

(** [all(key in result for key in keys)] *)
Fixpoint has_all (keys : list string) (result : json) : Py.result bool :=
  match keys with
  | [] => Ok true
  | key :: keys' =>
      b ← py_in key result;
      if b : bool then has_all keys' result else Ok false
  end.

(** The sections of a text answered in lines: what the loop has
    collected, and the section it is in. *)
Record sections : Type := {
  current_section : option string;
  insights : list string;
  recommendations : list string;
  bottlenecks : list string
}.

Definition add_item (acc : sections) (section item : string) : sections :=
  if String.eqb section "insights" then
    {| current_section := current_section acc; insights := insights acc ++ [item];
       recommendations := recommendations acc; bottlenecks := bottlenecks acc |}
  else if String.eqb section "recommendations" then
    {| current_section := current_section acc; insights := insights acc;
       recommendations := recommendations acc ++ [item]; bottlenecks := bottlenecks acc |}
  else if String.eqb section "bottlenecks" then
    {| current_section := current_section acc; insights := insights acc;
       recommendations := recommendations acc; bottlenecks := bottlenecks acc ++ [item] |}
  else acc.

Definition enter (acc : sections) (section : string) : sections :=
  {| current_section := Some section; insights := insights acc;
     recommendations := recommendations acc; bottlenecks := bottlenecks acc |}.

(** The body of the loop over the lines. *)
Definition read_line (acc : sections) (line : string) : sections :=
  let line := strip line in
  if String.eqb line EmptyString then acc
  else if contains "insights" (lower line) then enter acc "insights"
  else if contains "recommendations" (lower line) then enter acc "recommendations"
  else if contains "bottlenecks" (lower line) then enter acc "bottlenecks"
  else
    match current_section acc with
    | Some section =>
        if startswith "-" line || startswith "*" line
        then add_item acc section (strip (drop 1 line))
        else acc
    | None => acc
    end.

Definition or_default (l : list string) (placeholder : string) : list string :=
  match l with [] => [placeholder] | _ => l end.

(** The manual reading of the answer, line by line. *)
Definition parse_lines (llm_response : string) : json :=
  let lines := Reflection.split_chars (λ c, Ascii.eqb c "010") llm_response in
  let acc :=
    foldl read_line
          {| current_section := None; insights := []; recommendations := [];
             bottlenecks := [] |}
          lines in
  if is_nil (insights acc) && is_nil (recommendations acc) && is_nil (bottlenecks acc)
  then default_result
  else insights_of (or_default (insights acc) "No insights available")
                   (or_default (recommendations acc) "No recommendations available")
                   (or_default (bottlenecks acc) "No bottlenecks identified").

(** The attempt on the text between the braces: a decoded value to
    return, or nothing, in which case the lines are read. *)
Definition parse_braces (json_str : string) : Py.result (option json) :=
  let json_str := strip_backticks json_str in
  let json_str := replace backslash (backslash +:+ backslash) json_str in
  match Json.loads json_str with
  | Some result =>
      complete ← has_all required_keys result;
      Ok (Some (if complete : bool then result else default_result))
  | None =>
      let clean_json_str := replace (String "009" EmptyString) " "
                              (replace newline " " json_str) in
      Ok (Json.loads clean_json_str)
  end.

(** [MetaReviewAgent._parse_llm_response]; the response is [None] when
    the oracle failed. *)
Definition parse_llm_response (llm_response : option string) : json :=
  match llm_response with
  | None => default_result
  | Some llm_response =>
      if String.eqb llm_response EmptyString then default_result
      else
        match
          try_except
            (found ← match braces_slice llm_response with
                     | Some json_str => parse_braces json_str
                     | None => Ok None
                     end;
             Ok (match found with
                 | Some result => result
                 | None => parse_lines llm_response
                 end))
            (λ _, Ok default_result)
        with
        | Ok result => result
        | Raise _ => default_result
        end
  end.

End Insights.

(** ** The meta-review agent: the final review *)

Module Proximity.

Record review_entry : Type := {
  item : json;
  review_score : pyfloat
}.

Record review_result : Type := {
  meta_review_results : list review_entry;
  mcps_item_id : option string
}.

Definition possible_keys : list string :=
  ["proximity_score"; "score"; "proximity"; "connection_score"].

(** The loop over the keys: the first key of the item whose value
    [float] accepts gives the score. *)
Fixpoint first_score (float_other : string → option pyfloat) (keys : list string)
    (d : pydict) : option pyfloat :=
  match keys with
  | [] => None
  | key :: keys' =>
      match dict_get key d with
      | Some v =>
          match Float.of_json float_other v with
          | Ok score => Some score
          | Raise _ => first_score float_other keys' d
          end
      | None => first_score float_other keys' d
      end
  end.

(** [_evaluate_proximity_score], on any value: the recursion of the code
    goes into the value of the key [item] when it is a [dict]. *)
Fixpoint evaluate_proximity_score (float_other : string → option pyfloat) (v : json)
    : pyfloat :=
  match v with
  | JObj d =>
      match first_score float_other possible_keys d with
      | Some score => score
      | None =>
          (fix nested (l : list (string * json)) : pyfloat :=
             match l with
             | [] => Fin 0
             | (k, x) :: l' =>
                 if String.eqb "item" k
                 then match x with
                      | JObj _ => evaluate_proximity_score float_other x
                      | _ => Fin 0
                      end
                 else nested l'
             end) d
      end
  | _ => Fin 0
  end.

Definition default_item : json :=
  JObj [("item", JArr []); ("proximity_score", JFloat 0.0)].

Definition default_entry : review_entry :=
  {| item := default_item; review_score := Fin 0 |}.

(** The entry of one proximity result. *)
Definition review_item (float_other : string → option pyfloat) (x : json) : review_entry :=
  match x with
  | JObj _ => {| item := x; review_score := evaluate_proximity_score float_other x |}
  | _ => default_entry
  end.

(** [MetaReviewAgent.review]; [post] stands for the request that stores
    the review and answers with an item identifier, or with nothing. *)
Definition review (float_other : string → option pyfloat)
    (post : list review_entry → option string) (data : json) : review_result :=
  match data with
  | JObj d =>
      let proximity_results :=
        match dict_get "proximity_results" d with
        | Some (JArr l) => l
        | _ => []
        end in
      let meta_review_results := review_item float_other <$> proximity_results in
      let meta_review_results :=
        match meta_review_results with
        | [] => [default_entry; default_entry]
        | _ => meta_review_results
        end in
      {| meta_review_results := meta_review_results;
         mcps_item_id :=
           match post meta_review_results with
           | Some item_id => if String.eqb item_id EmptyString then None else Some item_id
           | None => None
           end |}
  | _ => {| meta_review_results := []; mcps_item_id := None |}
  end.

End Proximity.

(** ** The meta-review agent: the improvement of the hypothesis *)

Module Improvement.

#[local] Open Scope Q_scope.

Record hypothesis_improvement : Type := {
  current_score : pyfloat;
  previous_score : pyfloat;
  score_delta : pyfloat;
  complexity_increase : Q;
  refinement_count : nat;
  improvement_percentage : pyfloat
}.

Definition no_improvement : hypothesis_improvement :=
  {| current_score := Fin 0; previous_score := Fin 0; score_delta := Fin 0;
     complexity_increase := 0; refinement_count := 0; improvement_percentage := Fin 0 |}.

(** [a - b] *)
Definition sub (a b : pyfloat) : pyfloat :=
  Float.add a (Float.mul (Fin (-1)) b).

(** [float(hypothesis.get("score", 0))] *)
Definition score_of (float_other : string → option pyfloat) (hypothesis : pydict)
    : result pyfloat :=
  Float.of_json float_other (default (JInt 0) (dict_get "score" hypothesis)).

(** [hypothesis.get("text", "")] *)
Definition text_of (hypothesis : pydict) : json :=
  default (JStr EmptyString) (dict_get "text" hypothesis).

(** The comparison with the hypothesis of the last cycle, inside its
    [try]: what is written before an exception stays written. *)
Definition compare_with (float_other : string → option pyfloat)
    (hi : hypothesis_improvement) (current : pyfloat)
    (current_hypothesis previous_hypothesis : pydict) (cycles : nat)
    : hypothesis_improvement :=
  match score_of float_other previous_hypothesis with
  | Raise _ => hi
  | Ok previous =>
      let hi :=
        {| current_score := current_score hi; previous_score := previous;
           score_delta := sub current previous;
           complexity_increase := complexity_increase hi;
           refinement_count := refinement_count hi;
           improvement_percentage :=
             if Float.lt (Fin 0) previous
             then Float.mul (Float.div (sub current previous) previous) (Fin 100)
             else improvement_percentage hi |} in
      match Ranking.py_len (text_of previous_hypothesis) with
      | Raise _ => hi
      | Ok previous_length =>
          let counted (complexity : Q) :=
            {| current_score := current_score hi; previous_score := previous_score hi;
               score_delta := score_delta hi; complexity_increase := complexity;
               refinement_count := (cycles + 1)%nat;
               improvement_percentage := improvement_percentage hi |} in
          if (0 <? previous_length)%nat then
            match Ranking.py_len (text_of current_hypothesis) with
            | Raise _ => hi
            | Ok current_length =>
                counted ((inject_Z (Z.of_nat current_length - Z.of_nat previous_length)
                          / inject_Z (Z.of_nat previous_length)) * 100)
            end
          else counted (complexity_increase hi)
      end
  end.

(** [_measure_hypothesis_improvement] *)
Definition measure_hypothesis_improvement (float_other : string → option pyfloat)
    (cycle_data : pydict) (previous_cycles : list json) : hypothesis_improvement :=
  match default (JObj []) (dict_get "hypothesis" cycle_data) with
  | JObj current_hypothesis =>
      let '(hi, current) :=
        match score_of float_other current_hypothesis with
        | Ok score =>
            ({| current_score := score; previous_score := Fin 0; score_delta := Fin 0;
                complexity_increase := 0; refinement_count := 0;
                improvement_percentage := Fin 0 |}, score)
        | Raise _ => (no_improvement, Fin 0)
        end in
      match last previous_cycles with
      | Some (JObj previous_cycle) =>
          match default (JObj []) (dict_get "hypothesis" previous_cycle) with
          | JObj previous_hypothesis =>
              compare_with float_other hi current current_hypothesis previous_hypothesis
                           (length previous_cycles)
          | _ => hi
          end
      | _ => hi
      end
  | _ => no_improvement
  end.

End Improvement.

(** ** The meta-review agent: the quality of the web data *)

Module WebQuality.

Import Text.
#[local] Open Scope Q_scope.

Record web_data_quality : Type := {
  sources_count : nat;
  data_freshness : Q;
  data_relevance : Q;
  data_diversity : Q;
  successful_extractions : nat;
  failed_extractions : nat
}.

Definition no_quality : web_data_quality :=
  {| sources_count := 0; data_freshness := 0; data_relevance := 0; data_diversity := 0;
     successful_extractions := 0; failed_extractions := 0 |}.

(** The sources the loops look at: every other element is skipped. *)
Definition dict_sources (sources : list json) : list pydict :=
  omap (λ source, match source with JObj d => Some d | _ => None end) sources.

Definition succeeded (source : pydict) : bool :=
  MetaReview.is_success (dict_get "status" source).

(** The ages in days of the sources with a timestamp that can be read;
    [age_days] stands for [datetime.fromisoformat] and the clock, and is
    [None] where they raise [ValueError] or [TypeError]. *)
Definition ages (age_days : json → option Z) (sources : list json) : list Z :=
  omap (λ source,
          match dict_get "timestamp" source with
          | Some timestamp => if truthy timestamp then age_days timestamp else None
          | None => None
          end)
       (dict_sources sources).

Definition total (l : list Z) : Z := foldr Z.add 0%Z l.

(** The body of the loop of the relevance, on the running sum and the
    number of sources with a content. *)
Definition add_relevance (query_keywords : list string) (acc : Q * nat) (source : pydict)
    : result (Q * nat) :=
  let content := default (JStr EmptyString) (dict_get "content" source) in
  if truthy content then
    content_text ← Generation.lower_of content;
    let content_keywords := split content_text in
    let overlap := Ranking.common_count query_keywords content_keywords in
    if (0 <? length (remove_dups query_keywords))%nat
    then Ok (acc.1 + qnat overlap / qnat (length (remove_dups query_keywords)),
             S acc.2)
    else Ok acc
  else Ok acc.

(** The relevance, inside its [try]. *)
Definition relevance_try (query : json) (sources : list json) : result Q :=
  query_text ← Generation.lower_of query;
  acc ← for_each (add_relevance (split query_text)) (dict_sources sources) (0, 0%nat);
  Ok (if (0 <? acc.2)%nat then acc.1 / qnat acc.2 else 0).

Definition relevance (query : json) (sources : list json) : Q :=
  if truthy query then
    match relevance_try query sources with
    | Ok r => r
    | Raise _ => 0
    end
  else 0.

(** The values a [set] can hold, up to the equality of Python: the
    numbers, among them the truth values, are compared by their value. *)
Inductive hashable : Type :=
  | HNone
  | HNum (q : Q)
  | HStr (s : string).

Definition hashable_of (v : json) : result hashable :=
  match v with
  | JNull => Ok HNone
  | JBool b => Ok (HNum (if b then 1 else 0))
  | JInt z => Ok (HNum (inject_Z z))
  | JFloat q => Ok (HNum q)
  | JStr s => Ok (HStr s)
  | JArr _ | JObj _ => Raise TypeError
  end.

Definition same (a b : hashable) : bool :=
  match a, b with
  | HNone, HNone => true
  | HNum x, HNum y => Qeq_bool x y
  | HStr s, HStr t => String.eqb s t
  | _, _ => false
  end.

(** [source_types.add(source.get("type", "unknown"))] *)
Definition add_type (source_types : list hashable) (source : pydict)
    : result (list hashable) :=
  t ← hashable_of (default (JStr "unknown") (dict_get "type" source));
  Ok (if existsb (same t) source_types then source_types
      else (source_types ++ [t])%list).

Definition diversity (sources : list json) : Q :=
  match for_each add_type (dict_sources sources) [] with
  | Ok source_types =>
      if (0 <? length sources)%nat
      then qnat (length source_types) / qnat (length sources)
      else 0
  | Raise _ => 0
  end.

(** [_evaluate_web_data_quality] *)
Definition evaluate_web_data_quality (age_days : json → option Z) (cycle_data : pydict)
    : web_data_quality :=
  match default (JObj []) (dict_get "web_data" cycle_data) with
  | JObj web_data =>
      match default (JArr []) (dict_get "sources" web_data) with
      | JArr sources =>
          let valid := ages age_days sources in
          {| sources_count := length sources;
             data_freshness :=
               if (0 <? length valid)%nat
               then inject_Z (total valid) / qnat (length valid)
               else 0;
             data_relevance :=
               relevance (default (JStr EmptyString) (dict_get "query" cycle_data)) sources;
             data_diversity := diversity sources;
             successful_extractions := length (filter (λ s, succeeded s = true)
                                                      (dict_sources sources));
             failed_extractions := length (filter (λ s, succeeded s = false)
                                                  (dict_sources sources)) |}
      | _ => no_quality
      end
  | _ => no_quality
  end.

End WebQuality.

(** * Properties *)

(** ** Results, texts and dictionaries *)

Module PyFacts.

Import Text.

Lemma lstrip_blank s : all_chars isspace s = true → lstrip s = EmptyString.
Proof.
  induction s as [|c s IH]; simpl; [done|].
  intros [Hc Hs]%andb_prop. rewrite Hc. auto.
Qed.

Lemma strip_blank s : all_chars isspace s = true → strip s = EmptyString.
Proof. intros H. unfold strip. by rewrite lstrip_blank. Qed.

Lemma qlt_spec a b : qlt a b = true ↔ (a < b)%Q.
Proof.
  unfold qlt. rewrite negb_true_iff. split.
  - intros H. apply Qnot_le_lt. intros Hle. apply Qle_bool_iff in Hle. congruence.
  - intros H. destruct (Qle_bool b a) eqn:E; [|done].
    apply Qle_bool_iff in E. exfalso. by apply (Qlt_not_le a b).
Qed.

Lemma qlt_false a b : qlt a b = false ↔ (b <= a)%Q.
Proof.
  unfold qlt. rewrite negb_false_iff. apply Qle_bool_iff.
Qed.

Lemma dict_get_set_eq k v d : dict_get k (dict_set k v d) = Some v.
Proof.
  induction d as [|[k' v'] d IH]; simpl.
  - by rewrite String.eqb_refl.
  - destruct (String.eqb k k') eqn:E; simpl; rewrite ?String.eqb_refl, ?E; done.
Qed.

Lemma dict_get_set_ne k k' v d : k ≠ k' → dict_get k (dict_set k' v d) = dict_get k d.
Proof.
  intros Hne. induction d as [|[k0 v0] d IH]; simpl.
  - destruct (String.eqb k k') eqn:E; [|done]. by apply String.eqb_eq in E.
  - destruct (String.eqb k' k0) eqn:E; simpl.
    + apply String.eqb_eq in E as ->.
      destruct (String.eqb k k0) eqn:E'; [|done]. by apply String.eqb_eq in E'.
    + by rewrite IH.
Qed.

End PyFacts.

(** ** The stable sort *)

Module SortingFacts.

Import Sorting PyFacts.
#[local] Open Scope nat_scope.
#[local] Open Scope list_scope.

Section Sort.

Context {A : Type} (key : A → Q).

(** Decreasing keys. *)
Definition descending (l : list A) : Prop :=
  StronglySorted (λ a b, (key b <= key a)%Q) l.

(** The elements of key [v], in their order. *)
Definition with_key (v : Q) (l : list A) : list A :=
  filter (λ a, Qeq_bool (key a) v = true) l.

Lemma insert_desc_perm (x : A) (l : list A) : insert_desc key x l ≡ₚ x :: l.
Proof.
  induction l as [|y l IH]; simpl; [done|].
  destruct (qlt (key x) (key y)); [|done].
  rewrite IH. apply Permutation_swap.
Qed.

Lemma sort_desc_perm (l : list A) : sort_desc key l ≡ₚ l.
Proof.
  induction l as [|x l IH]; simpl; [done|].
  by rewrite insert_desc_perm, IH.
Qed.

Lemma sort_desc_length (l : list A) : length (sort_desc key l) = length l.
Proof. apply Permutation_length, sort_desc_perm. Qed.

Lemma insert_desc_descending (x : A) (l : list A) :
  descending l → descending (insert_desc key x l).
Proof.
  unfold descending. induction l as [|y l IH]; intros Hl; simpl.
  - by repeat constructor.
  - apply StronglySorted_inv in Hl as [Hl Hy].
    destruct (qlt (key x) (key y)) eqn:E.
    + apply qlt_spec in E. constructor; [by apply IH|].
      rewrite insert_desc_perm. constructor; [by apply Qlt_le_weak | done].
    + apply qlt_false in E. constructor; [by constructor|].
      constructor; [done|].
      eapply Forall_impl; [exact Hy|]. intros b Hb. simpl in *. by eapply Qle_trans.
Qed.

Lemma sort_desc_descending (l : list A) : descending (sort_desc key l).
Proof.
  induction l as [|x l IH]; simpl; [constructor|].
  by apply insert_desc_descending.
Qed.

(** An insertion passes only elements of other keys. *)
Lemma insert_desc_with_key (v : Q) (x : A) (l : list A) :
  with_key v (insert_desc key x l) = with_key v (x :: l).
Proof.
  unfold with_key. induction l as [|y l IH]; simpl; [done|].
  destruct (qlt (key x) (key y)) eqn:E; [|done].
  apply qlt_spec in E.
  rewrite (filter_cons _ y (insert_desc key x l)), IH, !filter_cons.
  destruct (decide (Qeq_bool (key x) v = true)) as [Hx|Hx];
    destruct (decide (Qeq_bool (key y) v = true)) as [Hy|Hy]; try done.
  apply Qeq_bool_iff in Hx, Hy.
  rewrite Hx, Hy in E. by apply Qlt_irrefl in E.
Qed.

(** The sort is stable: the elements of one key keep their order. *)
Lemma sort_desc_stable (v : Q) (l : list A) :
  with_key v (sort_desc key l) = with_key v l.
Proof.
  induction l as [|x l IH]; simpl; [done|].
  rewrite insert_desc_with_key. unfold with_key in *.
  by rewrite !filter_cons, IH.
Qed.

(** A list whose keys are all equal is left as it is. *)
Lemma sort_desc_constant (v : Q) (l : list A) :
  Forall (λ a, key a = v) l → sort_desc key l = l.
Proof.
  induction 1 as [|x l Hx Hl IH]; simpl; [done|].
  rewrite IH. destruct l as [|y l]; [done|]. simpl.
  apply Forall_cons in Hl as [Hy _]. rewrite Hx, Hy.
  assert (qlt v v = false) as -> by (apply qlt_false, Qle_refl). done.
Qed.

End Sort.

End SortingFacts.

(** ** Reflection *)

Module ReflectionFacts.

Import Text Recovery Reflection PyFacts.
#[local] Open Scope nat_scope.
#[local] Open Scope list_scope.

(** A reflection that names its hypothesis. *)
Definition reflects (h : hypothesis) (r : pydict) : Prop :=
  dict_get "hypothesis_id" r = Some (JStr (id_or_unknown h)).

Lemma fill_fields_keeps (k : string) (fields : list string) (d : pydict) :
  k ∉ fields →
  dict_get k (foldl (λ acc field,
                       if dict_has field acc then acc
                       else dict_set field (field_default field) acc) d fields)
  = dict_get k d.
Proof.
  revert d. induction fields as [|f fields IH]; intros d Hk; simpl; [done|].
  apply not_elem_of_cons in Hk as [Hne Hk]. rewrite IH by done.
  destruct (dict_has f d); [done|]. by apply dict_get_set_ne.
Qed.

Lemma fill_missing_keeps_id (d : pydict) :
  dict_get "hypothesis_id" (fill_missing d) = dict_get "hypothesis_id" d.
Proof.
  apply fill_fields_keeps. unfold required_fields.
  repeat (apply not_elem_of_cons; split; [done|]). apply not_elem_of_nil.
Qed.

Lemma reflect_with_gemini_reflects W h web_data query r :
  reflect_with_gemini W h web_data query = Ok r → reflects h r.
Proof.
  unfold reflect_with_gemini, reflects.
  destruct (h_statement h); [|done].
  destruct (generate_text W h web_data query) as [response|]; [|by intros [= <-]].
  destruct (String.eqb (strip response) EmptyString); [by intros [= <-]|].
  destruct (json_loads W (clean_json_response response)) as [[| | | | | |d]|];
    try done; [|by intros [= <-]].
  intros [= <-]. rewrite fill_missing_keeps_id.
  destruct (dict_has "query" _); [|rewrite dict_get_set_ne by done];
    apply dict_get_set_eq.
Qed.

Lemma reflect_on_hypothesis_reflects W h web_data query r :
  reflect_on_hypothesis W h web_data query = Ok r → reflects h r.
Proof.
  unfold reflect_on_hypothesis, reflects.
  destruct (scan_evidence W h web_data) as [found|]; simpl; [|done].
  by intros [= <-].
Qed.

Lemma reflect_spec W web_data query results h rs :
  reflect W web_data query results h = Ok rs →
  ∃ r, rs = results ++ [r] ∧ reflects h r.
Proof.
  unfold reflect.
  destruct (reflect_with_gemini W h web_data query) as [r|e] eqn:Hg; simpl.
  - intros [= <-]. exists r. split; [done|]. by eapply reflect_with_gemini_reflects.
  - destruct (reflect_on_hypothesis W h web_data query) as [r|] eqn:Hr; simpl; [|done].
    intros [= <-]. exists r. split; [done|]. by eapply reflect_on_hypothesis_reflects.
Qed.

(** The loop appends one reflection for each hypothesis, in order. *)
Lemma reflect_loop W web_data query (hypotheses : list hypothesis) (acc rs : list pydict) :
  for_each (reflect W web_data query) hypotheses acc = Ok rs →
  ∃ rs', rs = acc ++ rs' ∧ Forall2 reflects hypotheses rs'.
Proof.
  revert acc. induction hypotheses as [|h hs IH]; intros acc; simpl.
  - intros [= <-]. exists []. by rewrite app_nil_r.
  - destruct (reflect W web_data query acc h) as [acc'|] eqn:Hh; simpl; [|done].
    apply reflect_spec in Hh as (r & -> & Hr).
    intros (rs' & -> & Hrs)%IH. exists (r :: rs').
    split; [by rewrite <- app_assoc | by constructor].
Qed.

Lemma failed_reflections (hypotheses : list hypothesis) :
  Forall2 reflects hypotheses (failed_reflection <$> hypotheses).
Proof. induction hypotheses; constructor; done. Qed.

Lemma ensure_session_hypotheses W ctx :
  c_hypotheses (ensure_session W ctx) = c_hypotheses ctx.
Proof. unfold ensure_session. by destruct (c_session_id ctx). Qed.

Lemma process_try_hypotheses W ctx :
  c_hypotheses (process_try W ctx).1 = c_hypotheses ctx.
Proof.
  unfold process_try.
  destruct (c_hypotheses ctx) as [hs|] eqn:H1; [|done].
  destruct (c_web_data ctx); [|done]. destruct (c_query ctx); [|done].
  destruct (for_each _ hs []); [|done].
  destruct (hypotheses_to_improve _); done.
Qed.

(** C5: whatever the oracle, the decoder and the rule-based fallback do,
    [process] leaves in the context exactly one reflection result for
    each hypothesis of the input, in the order of the input, each naming
    its hypothesis; when the stage failed, each is the neutral default. *)
Theorem one_result_per_hypothesis (W : world) (ctx : context) (hypotheses : list hypothesis) :
  c_hypotheses ctx = Some hypotheses →
  ∃ rs, c_reflection_results (process W ctx) = Some rs
        ∧ length rs = length hypotheses
        ∧ Forall2 reflects hypotheses rs
        ∧ (∀ e, (process_try W (ensure_session W ctx)).2 = Some e →
                rs = failed_reflection <$> hypotheses).
Proof.
  intros Hhs. unfold process.
  pose proof (process_try_hypotheses W (ensure_session W ctx)) as Hkeep.
  rewrite ensure_session_hypotheses, Hhs in Hkeep.
  destruct (process_try W (ensure_session W ctx)) as [ctx' [e|]] eqn:Htry; simpl in *.
  - rewrite Hkeep. simpl. exists (failed_reflection <$> hypotheses).
    split_and!; [done | by rewrite length_fmap | apply failed_reflections | done].
  - unfold process_try in Htry. rewrite ensure_session_hypotheses, Hhs in Htry.
    destruct (c_web_data _) as [web_data|]; [|done].
    destruct (c_query _) as [query|]; [|done].
    destruct (for_each _ hypotheses []) as [rs|] eqn:Hloop; [|done].
    destruct (hypotheses_to_improve _) as [ids|]; [|done].
    injection Htry as <-. simpl.
    apply reflect_loop in Hloop as (rs' & -> & Hrs). simpl.
    exists rs'. split_and!; [done | by apply Forall2_length in Hrs | done | done].
Qed.

(** The context of the repository's integration script: two hypotheses
    on quantum computers and cryptography. *)
Definition hyp_rsa : hypothesis :=
  {| h_id := Some "hyp_001";
     h_statement := Some "Quantum computers can break current RSA encryption methods through Shor's algorithm." |}.

Definition hyp_pqc : hypothesis :=
  {| h_id := Some "hyp_002";
     h_statement := Some "Post-quantum cryptography algorithms can resist quantum computer attacks." |}.

Definition test_context : context :=
  {| c_session_id := Some "session";
     c_hypotheses := Some [hyp_rsa; hyp_pqc];
     c_web_data := Some [];
     c_query := Some "How do quantum computers affect cryptography?";
     c_reflection_results := None;
     c_hypotheses_to_improve := None |}.

(** The oracle answers nothing and the evidence scan finds nothing. *)
Definition silent_world : world :=
  {| uuid := "0"; generate_text := λ _ _ _, None; json_loads := Json.loads;
     scan_evidence := λ _ _, Ok ([], []) |}.

(** The oracle answers prose for the first hypothesis and nothing
    usable for the second, whose rule-based reflection fails as well. *)
Definition broken_world : world :=
  {| uuid := "0";
     generate_text := λ h _ _,
       if bool_decide (h_id h = Some "hyp_001")
       then Some "The hypothesis is well supported. It is not coherent with the sources given!"
       else Some "[1, 2]";
     json_loads := Json.loads;
     scan_evidence := λ _ _, Raise AttributeError |}.

(** An empty answer of the oracle yields a record without the fields of
    a reflection; reading them fails, and every hypothesis gets the
    default. *)
Example silent_oracle :
  c_reflection_results (process silent_world test_context)
  = Some [failed_reflection hyp_rsa; failed_reflection hyp_pqc].
Proof. reflexivity. Qed.

Example double_failure :
  c_reflection_results (process broken_world test_context)
  = Some [failed_reflection hyp_rsa; failed_reflection hyp_pqc].
Proof. vm_compute. reflexivity. Qed.

Lemma one_result_per_hypothesis_witness :
  c_hypotheses test_context = Some [hyp_rsa; hyp_pqc]
  ∧ ∃ rs, c_reflection_results (process broken_world test_context) = Some rs
          ∧ length rs = length [hyp_rsa; hyp_pqc]
          ∧ Forall2 reflects [hyp_rsa; hyp_pqc] rs
          ∧ (∀ e, (process_try broken_world (ensure_session broken_world test_context)).2 = Some e →
                  rs = failed_reflection <$> [hyp_rsa; hyp_pqc]).
Proof.
  split; [reflexivity|].
  apply (one_result_per_hypothesis broken_world test_context [hyp_rsa; hyp_pqc]).
  reflexivity.
Defined.

End ReflectionFacts.

(** ** Evolution *)

Module EvolutionFacts.

Import Evolution PyFacts.
#[local] Open Scope nat_scope.
#[local] Open Scope list_scope.

Lemma has_potential_spec (hyp : hypothesis) :
  has_potential hyp = true
  ↔ (0.6 < default 0 (evidence_score hyp))%Q ∧ (default 0 (overall_score hyp) < 8.0)%Q.
Proof. unfold has_potential. by rewrite andb_true_iff, !qlt_spec. Qed.

(** The loop adds the candidates it meets, in order, until three
    identifiers are selected. *)
Lemma select_more_spec (rest : list hypothesis) (to_evolve : list string) :
  length to_evolve < 3 →
  select_more to_evolve rest
  = to_evolve ++ take (3 - length to_evolve) (id <$> filter (λ h, has_potential h = true) rest).
Proof.
  revert to_evolve. induction rest as [|hyp rest IH]; intros acc Hlen.
  - simpl. by rewrite take_nil, app_nil_r.
  - cbn [select_more]. rewrite filter_cons.
    destruct (has_potential hyp) eqn:E.
    + rewrite decide_True by done. rewrite fmap_cons.
      assert (length (acc ++ [id hyp]) = S (length acc)) as Hl
        by (rewrite length_app; simpl; lia).
      destruct (3 <=? length (acc ++ [id hyp]))%nat eqn:Hfull.
      * apply Nat.leb_le in Hfull.
        replace (3 - length acc) with 1 by lia. done.
      * apply Nat.leb_gt in Hfull. rewrite IH by lia.
        rewrite Hl, <- app_assoc.
        replace (3 - length acc) with (S (3 - S (length acc))) by lia. done.
    + rewrite decide_False by done.
      destruct (3 <=? length acc)%nat eqn:Hfull; [apply Nat.leb_le in Hfull; lia|].
      by apply IH.
Qed.

(** C6: on a non-empty ranked list the selection is the identifier of
    the first hypothesis followed by the identifiers of the first two of
    the others, in rank order, whose evidence score is above 0.6 and whose
    overall score is below 8.0; so it contains the first, and has at most
    three elements. *)
Theorem selection_rule (top : hypothesis) (rest : list hypothesis) :
  let selected := select_hypotheses_to_evolve (top :: rest) in
  selected = id top :: take 2 (id <$> filter (λ h, has_potential h = true) rest)
  ∧ (∀ h, has_potential h = true
          ↔ (0.6 < default 0 (evidence_score h))%Q ∧ (default 0 (overall_score h) < 8.0)%Q)
  ∧ id top ∈ selected
  ∧ length selected ≤ 3.
Proof.
  simpl. rewrite select_more_spec by (simpl; lia). simpl.
  split_and!; [done | apply has_potential_spec | apply list_elem_of_here |].
  rewrite length_take. lia.
Qed.

(** What [evolve] makes of a selected hypothesis [h]. *)
Definition evolved_from (cycle : Z) (h e : hypothesis) : Prop :=
  id e = id h +:+ "-evolved-" +:+ pretty cycle
  ∧ parent_id e = Some (id h)
  ∧ confidence e = Some (qmin 1 (default 0.5 (confidence h) + 0.1))%Q
  ∧ sources e = Some (default [] (sources h)).

Lemma evolve_one_spec W h reflection query cycle e d :
  evolve_one W h reflection query cycle = Ok (e, d) →
  evolved_from cycle h e ∧ original_id d = id h ∧ evolved_id d = id e.
Proof.
  unfold evolve_one.
  destruct (refine_hypothesis W h reflection query cycle) as [st|]; simpl; [|done].
  destruct (get_evolution_reason h reflection) as [reason|]; simpl; [|done].
  intros [= <- <-]. by repeat split.
Qed.

(** The output of [evolve] follows the ranked list: each hypothesis is
    passed on as it is, or replaced by the record evolved from it, with
    one detail for each record evolved. *)
Lemma evolve_pointwise W (ranked_hypotheses : list hypothesis) to_evolve m query cycle hs ds :
  evolve W ranked_hypotheses to_evolve m query cycle = Ok (hs, ds) →
  Forall2 (λ h e, e = h ∨ (id h ∈ to_evolve ∧ evolved_from cycle h e)) ranked_hypotheses hs
  ∧ Forall (λ d, ∃ h e, h ∈ ranked_hypotheses ∧ e ∈ hs ∧ original_id d = id h
                        ∧ evolved_id d = id e ∧ evolved_from cycle h e) ds.
Proof.
  revert hs ds. induction ranked_hypotheses as [|h rest IH]; intros hs ds; simpl.
  - intros [= <- <-]. by split.
  - set (step := match m !! id h with
                 | Some (_ :: _ as reflection) => _
                 | _ => _
                 end).
    destruct step as [[e od]|] eqn:Hstep; simpl; [|done].
    destruct (evolve W rest to_evolve m query cycle) as [[hs' ds']|]; simpl; [|done].
    destruct (IH hs' ds' eq_refl) as [IH1 IH2].
    assert (Forall (λ d, ∃ h0 e0, h0 ∈ h :: rest ∧ e0 ∈ e :: hs' ∧ original_id d = id h0
                                 ∧ evolved_id d = id e0 ∧ evolved_from cycle h0 e0) ds') as IH2'.
    { eapply Forall_impl; [exact IH2|]. intros d (h0 & e0 & ? & ? & ?).
      exists h0, e0. split_and!; try tauto; by apply list_elem_of_further. }
    intros [= <- <-]. subst step.
    destruct (m !! id h) as [[|kv reflection]|]; try (injection Hstep as <- <-).
    + split; [constructor; [by left | done] | done].
    + destruct (bool_decide (id h ∈ to_evolve)) eqn:Hsel.
      * apply bool_decide_eq_true in Hsel.
        destruct (evolve_one W h (kv :: reflection) query cycle) as [[e' d']|] eqn:Hone;
          simpl in Hstep; [|done].
        injection Hstep as <- <-.
        apply evolve_one_spec in Hone as (Hfrom & Ho & He).
        split; [constructor; [by right | done] |].
        constructor; [|done].
        exists h, e'. split_and!; try done; apply list_elem_of_here.
      * injection Hstep as <- <-.
        split; [constructor; [by left | done] | done].
    + split; [constructor; [by left | done] | done].
Qed.

(** C7: when [evolve] returns, every record of its output that is not a
    hypothesis of the ranked input was evolved from one: its [parent_id]
    is the identifier of a hypothesis of the input, its confidence is
    [min(1.0, c + 0.1)] for the confidence [c] of that hypothesis (0.5 when
    it has none), and its identifier is the parent's, [-evolved-] and the
    cycle; the same holds of the record each evolution detail names. *)
Theorem evolved_records W (ranked_hypotheses : list hypothesis) to_evolve m query cycle hs ds :
  evolve W ranked_hypotheses to_evolve m query cycle = Ok (hs, ds) →
  (∀ e, e ∈ hs → e ∉ ranked_hypotheses →
        ∃ h, h ∈ ranked_hypotheses ∧ id h ∈ to_evolve
             ∧ parent_id e = Some (id h)
             ∧ confidence e = Some (qmin 1 (default 0.5 (confidence h) + 0.1))%Q
             ∧ id e = id h +:+ "-evolved-" +:+ pretty cycle)
  ∧ Forall (λ d, ∃ h e, h ∈ ranked_hypotheses ∧ e ∈ hs
                        ∧ original_id d = id h ∧ evolved_id d = id e
                        ∧ parent_id e = Some (id h)
                        ∧ confidence e = Some (qmin 1 (default 0.5 (confidence h) + 0.1))%Q
                        ∧ id e = id h +:+ "-evolved-" +:+ pretty cycle) ds.
Proof.
  intros [Hpt Hds]%evolve_pointwise. split.
  - intros e He Hnew.
    destruct (proj1 (list_elem_of_lookup _ _) He) as [i Hi].
    destruct (Forall2_lookup_r _ _ _ _ _ Hpt Hi) as (h & Hh & [-> | [Hsel Hfrom]]).
    + exfalso. apply Hnew. by eapply list_elem_of_lookup_2.
    + destruct Hfrom as (? & ? & ? & ?).
      exists h. split_and!; try done. by eapply list_elem_of_lookup_2.
  - eapply Forall_impl; [exact Hds|].
    intros d (h & e & ? & ? & ? & ? & (? & ? & ? & ?)). exists h, e. by split_and!.
Qed.

(** The test cycle of the repository: two ranked hypotheses on the
    future of computing, the first without supporting evidence, the second
    incoherent and contradicted; nothing is found on the web and
    [random.choice] takes the first item. *)
Definition quiet_world : world :=
  {| clock := 0; choice := λ l, default EmptyString (head l);
     gather_additional_data := λ _, [] |}.

Definition hyp_001 : hypothesis :=
  {| id := "hyp_001"; parent_id := None;
     statement := "Quantum computers will outperform classical computers for specific optimization problems.";
     confidence := Some 0.7%Q; sources := None;
     evidence_score := Some 0.65%Q; overall_score := Some 7.5%Q;
     evolved_at := None; evolution_cycle := None |}.

Definition hyp_002 : hypothesis :=
  {| id := "hyp_002"; parent_id := None;
     statement := "Neural interfaces will become mainstream for human-computer interaction.";
     confidence := Some 0.6%Q; sources := None;
     evidence_score := Some 0.7%Q; overall_score := Some 7.0%Q;
     evolved_at := None; evolution_cycle := None |}.

Definition test_reflections : gmap string pydict :=
  <["hyp_001" := [("hypothesis_id", JStr "hyp_001"); ("is_coherent", JBool true);
                  ("has_supporting_evidence", JBool false); ("contradictions", JBool false)]]>
  (<["hyp_002" := [("hypothesis_id", JStr "hyp_002"); ("is_coherent", JBool false);
                   ("has_supporting_evidence", JBool true); ("contradictions", JBool true)]]>
   ∅).

Example test_cycle_selection :
  select_hypotheses_to_evolve [hyp_001; hyp_002] = ["hyp_001"; "hyp_002"].
Proof. reflexivity. Qed.

Example test_cycle_evolution :
  (λ r : list hypothesis * list detail,
     (id <$> r.1, parent_id <$> r.1, confidence <$> r.1))
  <$> evolve quiet_world [hyp_001; hyp_002] ["hyp_001"; "hyp_002"] test_reflections
        "future of computing" 1
  = Ok (["hyp_001-evolved-1"; "hyp_002-evolved-1"],
        [Some "hyp_001"; Some "hyp_002"],
        [Some (qmin 1 (0.7 + 0.1))%Q; Some (qmin 1 (0.6 + 0.1))%Q]).
Proof. vm_compute. reflexivity. Qed.

Lemma evolved_records_witness :
  ∃ hs ds,
    evolve quiet_world [hyp_001; hyp_002] ["hyp_001"; "hyp_002"] test_reflections
      "future of computing" 1 = Ok (hs, ds)
    ∧ (∀ e, e ∈ hs → e ∉ [hyp_001; hyp_002] →
          ∃ h, h ∈ [hyp_001; hyp_002] ∧ id h ∈ ["hyp_001"; "hyp_002"]
               ∧ parent_id e = Some (id h)
               ∧ confidence e = Some (qmin 1 (default 0.5 (confidence h) + 0.1))%Q
               ∧ id e = id h +:+ "-evolved-" +:+ pretty 1%Z)
    ∧ length ds = 2.
Proof.
  eexists _, _. split; [vm_compute; reflexivity|].
  split; [|reflexivity].
  eapply proj1, (evolved_records quiet_world [hyp_001; hyp_002] ["hyp_001"; "hyp_002"]
                   test_reflections "future of computing" 1).
  vm_compute. reflexivity.
Defined.

End EvolutionFacts.

(** ** Meta review *)

Module MetaReviewFacts.

Import MetaReview PyFacts.
#[local] Open Scope nat_scope.
#[local] Open Scope list_scope.

(** The agents whose execution time is read, with that time. *)
Definition timed (float_other : string → option pyfloat) (agent_outputs : pydict)
    : list (string * pyfloat) :=
  omap (λ entry, (λ t, (entry.1, t)) <$> execution_time float_other entry.2) agent_outputs.

Lemma set_time_fresh name t (d : list (string * pyfloat)) :
  name ∉ d.*1 → set_time name t d = d ++ [(name, t)].
Proof.
  induction d as [|[k v] d IH]; simpl; [done|].
  intros [Hne Hd]%not_elem_of_cons.
  destruct (String.eqb name k) eqn:E; [by apply String.eqb_eq in E|].
  by rewrite IH.
Qed.

Lemma record_agent_spec float_other pm name data :
  name ∉ (agent_times pm).*1 →
  let pm' := record_agent float_other pm (name, data) in
  match execution_time float_other data with
  | Some t =>
      agent_times pm' = agent_times pm ++ [(name, t)]
      ∧ total_cycle_time pm' = Float.add (total_cycle_time pm) t
  | None => agent_times pm' = agent_times pm ∧ total_cycle_time pm' = total_cycle_time pm
  end
  ∧ bottlenecks pm' = bottlenecks pm.
Proof.
  intros Hfresh. unfold record_agent.
  destruct (execution_time float_other data) as [t|]; simpl; [|done].
  by rewrite set_time_fresh.
Qed.

(** The first loop: the times are recorded in the order of the agents,
    and added up. *)
Lemma record_agents float_other (agent_outputs : pydict) (pm : performance_metrics) :
  NoDup ((agent_times pm).*1 ++ agent_outputs.*1) →
  let pm' := foldl (record_agent float_other) pm agent_outputs in
  agent_times pm' = agent_times pm ++ timed float_other agent_outputs
  ∧ total_cycle_time pm'
    = foldl Float.add (total_cycle_time pm) (timed float_other agent_outputs).*2
  ∧ bottlenecks pm' = bottlenecks pm.
Proof.
  revert pm. induction agent_outputs as [|[name data] l IH]; intros pm Hnd.
  - simpl. by rewrite app_nil_r.
  - cbn [foldl]. apply NoDup_app in Hnd as (Hnd1 & Hdisj & Hnd2).
    rewrite fmap_cons in Hdisj, Hnd2. apply NoDup_cons in Hnd2 as [Hname Hnd2].
    assert (name ∉ (agent_times pm).*1) as Hfresh.
    { intros Hin. by apply (Hdisj name Hin), list_elem_of_here. }
    pose proof (record_agent_spec float_other pm name data Hfresh) as [Hstep Hb].
    set (pm1 := record_agent float_other pm (name, data)) in *.
    unfold timed. cbn [omap list_omap]. fold (timed float_other l). cbn [fst snd].
    destruct (execution_time float_other data) as [t|] eqn:Ht; cbn [fmap option_fmap option_map].
    + destruct Hstep as [Ht1 Ht2].
      destruct (IH pm1) as (-> & -> & ->).
      { rewrite Ht1, fmap_app. cbn. rewrite <- app_assoc. cbn.
        apply NoDup_app. split_and!; [done| |by constructor].
        intros x Hx [->|Hx']%elem_of_cons; [done|].
        by apply (Hdisj x Hx), list_elem_of_further. }
      rewrite Ht1, Ht2, Hb, <- app_assoc. done.
    + destruct Hstep as [Ht1 Ht2].
      destruct (IH pm1) as (-> & -> & ->).
      { rewrite Ht1. apply NoDup_app. split_and!; [done| |done].
        intros x Hx Hx'. by apply (Hdisj x Hx), list_elem_of_further. }
      by rewrite Ht1, Ht2, Hb.
Qed.

(** Finite times, as floats. *)
Definition finite_times (qs : list (string * Q)) : list (string * pyfloat) :=
  (λ p, (p.1, Fin p.2)) <$> qs.

Lemma timed_finite float_other (agent_outputs : pydict) :
  (∀ entry t, entry ∈ agent_outputs → execution_time float_other entry.2 = Some t →
              ∃ q, t = Fin q ∧ (0 <= q)%Q) →
  ∃ qs, timed float_other agent_outputs = finite_times qs
        ∧ Forall (λ q, (0 <= q)%Q) qs.*2.
Proof.
  induction agent_outputs as [|[name data] l IH]; intros Hfin.
  - by exists [].
  - destruct IH as (qs & Hqs & Hpos).
    { intros entry t Hin. apply Hfin. by apply list_elem_of_further. }
    unfold timed in *. cbn [omap list_omap fst snd].
    destruct (execution_time float_other data) as [t|] eqn:Ht; cbn.
    + destruct (Hfin (name, data) t) as (q & -> & Hq); [apply list_elem_of_here | done |].
      exists ((name, q) :: qs). cbn. rewrite Hqs. split; [done | by constructor].
    + by exists qs.
Qed.

Lemma add_finite (a : Q) (qs : list (string * Q)) :
  foldl Float.add (Fin a) (finite_times qs).*2 = Fin (foldl Qplus a qs.*2).
Proof.
  revert a. induction qs as [|[n q] qs IH]; intros a; [done|].
  cbn. apply IH.
Qed.

Lemma sum_bounds (l : list Q) (a : Q) :
  Forall (λ q, (0 <= q)%Q) l →
  (a <= foldl Qplus a l)%Q ∧ ∀ q, q ∈ l → (a + q <= foldl Qplus a l)%Q.
Proof.
  revert a. induction l as [|x l IH]; intros a Hpos; simpl.
  - split; [apply Qle_refl | by intros q ?%elem_of_nil].
  - apply Forall_cons in Hpos as [Hx Hl].
    destruct (IH (a + x)%Q Hl) as [IH1 IH2].
    assert (a <= a + x)%Q as Hax.
    { rewrite <- (Qplus_0_r a) at 1. by apply Qplus_le_r. }
    split; [by eapply Qle_trans|].
    intros q [->|Hq]%elem_of_cons; [done|].
    eapply Qle_trans; [|by apply IH2].
    by apply Qplus_le_l.
Qed.

Lemma float_lt_fin (x y : Q) : Float.lt (Fin x) (Fin y) = qlt x y.
Proof. done. Qed.

(** The analysis of the test task of the repository: 2.5 s of generation
    and 1.2 s of ranking. *)
Definition test_cycle_data : pydict :=
  [ ("agent_outputs",
     JObj [ ("generation_agent",
             JObj [("execution_time", JFloat 2.5); ("status", JStr "success")]);
            ("ranking_agent",
             JObj [("execution_time", JFloat 1.2); ("status", JStr "success")]) ]) ].

(** C9: when the execution times are finite and not negative, the total
    cycle time is their sum, an agent is in the list of bottlenecks
    exactly when its time exceeds 0.25 times the total, and the entry of a
    bottleneck carries the agent's time divided by the total, times 100.
    With 2.5 s out of 3.7 s, the generation agent is reported with
    2500/37, about 67.6 percent. *)
Theorem bottleneck_rule (float_other : string → option pyfloat)
    (cycle_data agent_outputs : pydict) :
  dict_get "agent_outputs" cycle_data = Some (JObj agent_outputs) →
  dict_wf agent_outputs →
  (∀ entry t, entry ∈ agent_outputs → execution_time float_other entry.2 = Some t →
              ∃ q, t = Fin q ∧ (0 <= q)%Q) →
  let pm := analyze_cycle_performance float_other cycle_data in
  (∃ (qs : list (string * Q)),
      timed float_other agent_outputs = finite_times qs
      ∧ agent_times pm = finite_times qs
      ∧ total_cycle_time pm = Fin (qsum qs.*2)
      ∧ (∀ name q, (name, q) ∈ qs →
           (∃ b, b ∈ bottlenecks pm ∧ agent b = name ∧ time b = Fin q)
           ↔ (0.25 * qsum qs.*2 < q)%Q)
      ∧ (∀ b, b ∈ bottlenecks pm →
           ∃ q, (agent b, q) ∈ qs ∧ time b = Fin q
                ∧ percentage b = Fin (q / qsum qs.*2 * 100)%Q))
  ∧ (∃ b, b ∈ bottlenecks (analyze_cycle_performance float_other test_cycle_data)
          ∧ agent b = "generation_agent"
          ∧ percentage b = Fin (2.5 / (0 + 2.5 + 1.2) * 100)%Q
          ∧ (2.5 / (0 + 2.5 + 1.2) * 100 == 2500 # 37)%Q
          ∧ (67.5 < 2500 # 37 < 67.7)%Q).
Proof.
  intros Hget Hwf Hfin pm. split.
  - destruct (timed_finite float_other agent_outputs Hfin) as (qs & Hqs & Hpos).
    exists qs. subst pm. unfold analyze_cycle_performance. rewrite Hget.
    cbn [default from_option id].
    destruct (record_agents float_other agent_outputs empty_metrics) as (Ht & Htot & Hb);
      [done|].
    change (agent_times empty_metrics) with (@nil (string * pyfloat)) in Ht.
    change (total_cycle_time empty_metrics) with (Fin 0) in Htot.
    change (bottlenecks empty_metrics) with (@nil bottleneck) in Hb.
    rewrite app_nil_l in Ht. rewrite Hqs in Ht, Htot. rewrite add_finite in Htot.
    fold (qsum qs.*2) in Htot.
    set (pm0 := foldl (record_agent float_other) empty_metrics agent_outputs) in *.
    rewrite Htot, float_lt_fin.
    destruct (sum_bounds qs.*2 0%Q Hpos) as [Hsum0 Hsum].
    fold (qsum qs.*2) in Hsum0, Hsum.
    destruct (qlt 0 (qsum qs.*2)) eqn:Hpos_total; cbn.
    + rewrite Ht. split_and!; [done | done | done | |].
      * intros name q Hin. split.
        -- intros (b & Hb' & <- & Htime).
           apply list_elem_of_fmap in Hb' as ([n t] & -> & Hf).
           apply list_elem_of_filter in Hf as [Hf _]. cbn in *. subst t.
           by apply qlt_spec in Hf.
        -- intros Hlt. exists (bottleneck_entry (Fin (qsum qs.*2)) (name, Fin q)).
           split; [|done]. apply list_elem_of_fmap. exists (name, Fin q). split; [done|].
           apply list_elem_of_filter. split; [cbn; by apply qlt_spec|].
           unfold finite_times. apply list_elem_of_fmap. by exists (name, q).
      * intros b ([n t] & -> & Hf)%list_elem_of_fmap.
        apply list_elem_of_filter in Hf as [_ Hf].
        apply list_elem_of_fmap in Hf as ([n' q] & [= -> ->] & Hq).
        exists q. by split_and!.
    + apply qlt_false in Hpos_total.
      rewrite Ht, Htot, Hb. split_and!; [done | done | done | |].
      * intros name q Hin. split.
        -- by intros (b & ?%elem_of_nil & _).
        -- intros Hlt. exfalso.
           assert (q ∈ qs.*2) as Hq by (apply list_elem_of_fmap; by exists (name, q)).
           apply Hsum in Hq. rewrite Qplus_0_l in Hq.
           assert (qsum qs.*2 == 0)%Q as H0 by (by apply Qle_antisym).
           rewrite H0 in Hlt, Hq. rewrite Qmult_0_r in Hlt.
           by apply (Qlt_not_le _ _ Hlt).
      * by intros b ?%elem_of_nil.
  - eexists. split; [apply list_elem_of_here|]. done.
Qed.

Definition test_outputs : pydict :=
  [ ("generation_agent",
     JObj [("execution_time", JFloat 2.5); ("status", JStr "success")]);
    ("ranking_agent",
     JObj [("execution_time", JFloat 1.2); ("status", JStr "success")]) ].

Example test_cycle_analysis :
  let pm := analyze_cycle_performance (λ _, None) test_cycle_data in
  total_cycle_time pm = Fin (0 + 2.5 + 1.2)%Q
  ∧ agent <$> bottlenecks pm = ["generation_agent"; "ranking_agent"]
  ∧ successful_agents pm = ["generation_agent"; "ranking_agent"]
  ∧ failed_agents pm = [].
Proof. vm_compute. done. Qed.

Lemma bottleneck_rule_witness :
  dict_get "agent_outputs" test_cycle_data = Some (JObj test_outputs)
  ∧ dict_wf test_outputs
  ∧ ∃ qs : list (string * Q),
      agent_times (analyze_cycle_performance (λ _, None) test_cycle_data) = finite_times qs
      ∧ total_cycle_time (analyze_cycle_performance (λ _, None) test_cycle_data)
        = Fin (qsum qs.*2).
Proof.
  assert (dict_wf test_outputs) as Hwf.
  { unfold dict_wf. apply (bool_decide_unpack _). vm_compute. reflexivity. }
  split; [reflexivity|]. split; [exact Hwf|].
  destruct (bottleneck_rule (λ _, None) test_cycle_data test_outputs) as [(qs & _ & H1 & H2 & _) _].
  - reflexivity.
  - exact Hwf.
  - intros entry t Hin Ht.
    apply elem_of_cons in Hin as [-> | Hin].
    + injection Ht as <-. exists 2.5%Q. split; [reflexivity | done].
    + apply elem_of_cons in Hin as [-> | Hin]; [|by apply elem_of_nil in Hin].
      injection Ht as <-. exists 1.2%Q. split; [reflexivity | done].
  - exists qs. by split.
Defined.

End MetaReviewFacts.

(** ** Ranking *)

Module RankingFacts.

Import Sorting Ranking PyFacts SortingFacts.
#[local] Open Scope nat_scope.
#[local] Open Scope list_scope.

(** The hypothesis and its score, without the rank. *)
Definition scored_as (r : ranked) : hypothesis * Q := (base r, overall_score r).

(** [rs] ranks the scored hypotheses [scored]: the ranks are 1, 2, ... up
    to their number, the hypotheses and scores are the same, the scores
    decrease, and the hypotheses of one score keep their order. *)
Definition is_ranking (scored rs : list ranked) : Prop :=
  rank <$> rs = Some <$> seq 1 (length scored)
  ∧ scored_as <$> rs ≡ₚ scored_as <$> scored
  ∧ descending overall_score rs
  ∧ ∀ v, base <$> with_key overall_score v rs = base <$> with_key overall_score v scored.

Section Renumbering.

(** A numbering that touches neither the hypothesis nor the score. *)
Context (g : nat → ranked → ranked).
Context (g_keeps : ∀ i r, scored_as (g i r) = scored_as r).

Lemma renumber_scored (l : list ranked) :
  scored_as <$> imap g l = scored_as <$> l.
Proof.
  apply list_eq. intros i. rewrite !list_lookup_fmap, list_lookup_imap.
  destruct (l !! i); simpl; [|done]. by rewrite g_keeps.
Qed.

Lemma descending_scored (l l' : list ranked) :
  scored_as <$> l = scored_as <$> l' →
  descending overall_score l → descending overall_score l'.
Proof.
  unfold descending. revert l'.
  induction l as [|r l IH]; intros [|r' l'] Heq Hl; try done.
  injection Heq as Hbase Ho Heq.
  apply StronglySorted_inv in Hl as [Hl Hr'].
  constructor; [by apply IH|].
  rewrite <- Ho.
  apply Forall_forall. intros b Hb.
  assert (scored_as b ∈ scored_as <$> l) as Hb'.
  { replace (scored_as <$> l) with (scored_as <$> l') by (symmetry; exact Heq).
    apply list_elem_of_fmap. by exists b. }
  apply list_elem_of_fmap in Hb' as (b' & Hbb & Hb').
  assert (overall_score b = overall_score b') as ->
    by (unfold scored_as in Hbb; congruence).
  by apply (proj1 (Forall_forall _ _) Hr').
Qed.

Lemma with_key_scored (v : Q) (l l' : list ranked) :
  scored_as <$> l = scored_as <$> l' →
  base <$> with_key overall_score v l = base <$> with_key overall_score v l'.
Proof.
  unfold with_key. revert l'. induction l as [|r l IH]; intros [|r' l'] Heq; try done.
  injection Heq as Hb Ho Heq.
  rewrite !filter_cons, Ho.
  destruct (decide _); cbn; rewrite (IH l') by done; congruence.
Qed.

End Renumbering.

Lemma with_rank_keeps i r : scored_as (with_rank i r) = scored_as r.
Proof. done. Qed.

Lemma ranks_from (l : list ranked) :
  rank <$> imap with_rank l = Some <$> seq 1 (length l).
Proof.
  apply list_eq. intros i. rewrite !list_lookup_fmap, list_lookup_imap.
  destruct (l !! i) as [r|] eqn:E; simpl.
  - apply lookup_lt_Some in E. rewrite lookup_seq_lt by done. simpl.
    do 2 f_equal. lia.
  - apply lookup_ge_None in E. by rewrite lookup_seq_ge.
Qed.

(** The sort and the numbering of [process] and [rank] give a ranking. *)
Lemma sort_and_rank_is_ranking (scored : list ranked) :
  is_ranking scored (sort_and_rank scored).
Proof.
  unfold is_ranking, sort_and_rank.
  pose proof (renumber_scored with_rank with_rank_keeps
                (sort_desc overall_score scored)) as Hsame.
  split_and!.
  - by rewrite ranks_from, sort_desc_length.
  - rewrite Hsame. apply fmap_Permutation, sort_desc_perm.
  - eapply descending_scored; [symmetry; exact Hsame|]. apply sort_desc_descending.
  - intros v. rewrite (with_key_scored v _ _ Hsame). by rewrite sort_desc_stable.
Qed.

Lemma rank_hypothesis_base W web_data query h reflection r :
  rank_hypothesis W web_data query h reflection = Ok r → base r = h.
Proof.
  unfold rank_hypothesis.
  destruct (calculate_scores W h reflection web_data query) as [s|]; simpl; [|done].
  destruct (generate_explanation s reflection) as [x|]; simpl; [|done].
  by intros [= <-].
Qed.

Lemma score_all_bases W m web_data query (hypotheses : list hypothesis) (acc rs : list ranked) :
  for_each (score_step W m web_data query) hypotheses acc = Ok rs →
  base <$> rs = (base <$> acc) ++ hypotheses.
Proof.
  revert acc. induction hypotheses as [|h hs IH]; intros acc; simpl.
  - intros [= <-]. by rewrite app_nil_r.
  - unfold score_step at 1.
    destruct (rank_hypothesis W web_data query h _) as [r|] eqn:Hr; simpl; [|done].
    apply rank_hypothesis_base in Hr.
    intros Hrs%IH. rewrite Hrs, fmap_app, <- app_assoc. simpl. by rewrite Hr.
Qed.

Lemma score_reflected_bases (W : world) (m : gmap (option string) pydict) web_data query
    (hypotheses : list hypothesis) (acc rs : list ranked) :
  for_each (score_reflected_step W m web_data query) hypotheses acc = Ok rs →
  base <$> rs = (base <$> acc) ++ filter (λ h, is_Some (m !! h_id h)) hypotheses.
Proof.
  revert acc. induction hypotheses as [|h hs IH]; intros acc; simpl.
  - intros [= <-]. by rewrite app_nil_r.
  - rewrite filter_cons. unfold score_reflected_step at 1.
    destruct (h_id h) as [hid|]; simpl; [|done].
    destruct (m !! Some hid) as [reflection|] eqn:Hm.
    + rewrite decide_True by done.
      destruct (rank_hypothesis W web_data query h reflection) as [r|] eqn:Hr; simpl; [|done].
      apply rank_hypothesis_base in Hr.
      intros Hrs%IH. rewrite Hrs, fmap_app, <- app_assoc. simpl. by rewrite Hr.
    + rewrite decide_False by (by intros [? ?]). apply IH.
Qed.

Lemma ensure_session_fields W ctx :
  c_hypotheses (ensure_session W ctx) = c_hypotheses ctx
  ∧ c_ranked_hypotheses (ensure_session W ctx) = c_ranked_hypotheses ctx.
Proof.
  unfold ensure_session. destruct (c_session_id ctx) as [s|]; [|done].
  by destruct (String.eqb s EmptyString).
Qed.

Lemma process_try_ranks W ctx ctx' :
  process_try W ctx = Ok ctx' →
  ∃ scored, base <$> scored = default [] (c_hypotheses ctx)
            ∧ c_ranked_hypotheses ctx' = Some (sort_and_rank scored).
Proof.
  unfold process_try. destruct (validate_context W ctx).1; simpl; [|done].
  destruct (reflection_map _) as [m|]; simpl; [|done].
  destruct (score_all W m _ _ _) as [scored|] eqn:Hs; simpl; [|done].
  intros [= <-]. exists scored. split; [|done].
  unfold score_all in Hs. by apply score_all_bases in Hs.
Qed.

(** The hypotheses with the scores of the fallback, before they are
    numbered. *)
Definition fallback_scored (hypotheses : list hypothesis) : list ranked :=
  (λ h, {| base := h; r_scores := neutral_scores; overall_score := 5.0;
           rank_explanation := fallback_explanation; rank := None |})
  <$> hypotheses.

(** The fallback is the ranking of hypotheses that all score 5.0: they
    keep the order of the input. *)
Lemma fallback_sorted (hypotheses : list hypothesis) :
  fallback_ranking hypotheses = sort_and_rank (fallback_scored hypotheses).
Proof.
  unfold sort_and_rank.
  rewrite (sort_desc_constant overall_score 5.0%Q).
  - unfold fallback_scored. by rewrite imap_fmap.
  - unfold fallback_scored. apply Forall_fmap, Forall_forall.
    intros h _. reflexivity.
Qed.

Lemma process_except_spec ctx :
  c_ranked_hypotheses (process_except ctx)
  = match c_ranked_hypotheses ctx, c_hypotheses ctx with
    | None, Some hypotheses => Some (fallback_ranking hypotheses)
    | stale, _ => stale
    end.
Proof.
  unfold process_except.
  destruct (c_ranked_hypotheses ctx) eqn:Er, (c_hypotheses ctx) eqn:Eh;
    simpl; congruence.
Qed.

(** C2 as it holds: [process] ranks all the hypotheses of the context,
    provided the context holds no earlier ranking or the scoring
    completes; [rank] ranks the hypotheses that have a reflection.  In
    both, the ranks are 1, 2, ... without gap, the scores decrease with
    the rank, and hypotheses of equal score keep the order of the input. *)
Theorem ranking_is_dense_and_stable (W : world) (ctx : context) :
  (∀ hypotheses, c_hypotheses ctx = Some hypotheses →
     c_ranked_hypotheses ctx = None ∨ returns (process_try W (ensure_session W ctx)) →
     ∃ scored, base <$> scored = hypotheses
       ∧ c_ranked_hypotheses (process W ctx) = Some (sort_and_rank scored)
       ∧ is_ranking scored (sort_and_rank scored))
  ∧ (∀ rs, rank_hypotheses W ctx = Ok rs →
     ∃ hypotheses reflections m scored,
       c_hypotheses ctx = Some hypotheses
       ∧ c_reflection_results ctx = Some reflections
       ∧ reflection_map reflections = Ok m
       ∧ base <$> scored = filter (λ h, is_Some (m !! h_id h)) hypotheses
       ∧ rs = sort_and_rank scored
       ∧ is_ranking scored rs).
Proof.
  split.
  - intros hypotheses Hhs Hguard. unfold process.
    destruct (ensure_session_fields W ctx) as [Eh Er].
    destruct (process_try W (ensure_session W ctx)) as [ctx'|e] eqn:Htry.
    + apply process_try_ranks in Htry as (scored & Hb & Hr).
      rewrite Eh, Hhs in Hb. exists scored.
      split_and!; [done | done | apply sort_and_rank_is_ranking].
    + destruct Hguard as [Hnone | [? ?]]; [|done].
      exists (fallback_scored hypotheses). split_and!.
      * unfold fallback_scored. rewrite <- list_fmap_compose. apply list_fmap_id.
      * by rewrite process_except_spec, Er, Hnone, Eh, Hhs, fallback_sorted.
      * apply sort_and_rank_is_ranking.
  - intros rs. unfold rank_hypotheses.
    destruct (c_hypotheses ctx) as [hypotheses|]; [|done].
    destruct (c_reflection_results ctx) as [reflections|]; [|done].
    destruct (c_web_data ctx) as [web_data|]; [|done].
    destruct (c_query ctx) as [query|]; [|done].
    cbn [mbind result_bind Py.bind].
    destruct (reflection_map reflections) as [m|] eqn:Hm; [|done].
    cbn [mbind result_bind Py.bind].
    destruct (score_reflected W m web_data query hypotheses) as [scored|] eqn:Hs; [|done].
    intros [= <-]. exists hypotheses, reflections, m, scored.
    do 3 (split; [done|]).
    split; [unfold score_reflected in Hs; by apply score_reflected_bases in Hs|].
    split; [done | apply sort_and_rank_is_ranking].
Qed.

(** C4 as it holds: when the [try] block of [process] raises and the
    context holds hypotheses and no ranking yet, the context gets the
    fallback ranking, in which the hypothesis at position [i] of the input
    has the overall score 5.0, the score 0.5 for each of the six criteria,
    the rank [i + 1] and the explanation of a fallback; a context that
    holds a ranking already, or no hypotheses, keeps what it has. *)
Theorem fallback_on_exception (W : world) (ctx : context) (e : exn) :
  process_try W (ensure_session W ctx) = Raise e →
  (∀ hypotheses, c_ranked_hypotheses ctx = None → c_hypotheses ctx = Some hypotheses →
     c_ranked_hypotheses (process W ctx) = Some (fallback_ranking hypotheses)
     ∧ length (fallback_ranking hypotheses) = length hypotheses
     ∧ ∀ i h, hypotheses !! i = Some h →
         fallback_ranking hypotheses !! i
         = Some {| base := h;
                   r_scores := {| coherence := 0.5; evidence := 0.5; relevance := 0.5;
                                  specificity := 0.5; novelty := 0.5;
                                  llm_credibility := 0.5 |};
                   overall_score := 5.0;
                   rank_explanation := "Fallback ranking due to processing error";
                   rank := Some (i + 1) |})
  ∧ (is_Some (c_ranked_hypotheses ctx) ∨ c_hypotheses ctx = None →
     c_ranked_hypotheses (process W ctx) = c_ranked_hypotheses ctx).
Proof.
  intros Htry. unfold process. rewrite Htry.
  destruct (ensure_session_fields W ctx) as [Eh Er].
  rewrite process_except_spec, Er, Eh. split.
  - intros hypotheses -> ->. split_and!; [done | apply length_imap |].
    intros i h Hi. unfold fallback_ranking. by rewrite list_lookup_imap, Hi.
  - intros [[rs ->] | ->]; [done|]. by destruct (c_ranked_hypotheses ctx).
Qed.

(** The context of the repository's integration script: three
    hypotheses on quantum computing with their reflections. *)
Definition quantum_hypotheses : list hypothesis :=
  [ {| h_id := Some "hyp_001";
       h_statement := Some "Quantum computers have achieved quantum supremacy by solving problems no classical computer can solve." |};
    {| h_id := Some "hyp_002";
       h_statement := Some "Error correction remains the biggest challenge in quantum computing." |};
    {| h_id := Some "hyp_003";
       h_statement := Some "Quantum machine learning is showing promise for certain optimization problems." |} ].

Definition reflection_of (hid : string) (coherence : Q) (facts contradictions : list string)
    : pydict :=
  [ ("hypothesis_id", JStr hid);
    ("coherence_score", JFloat coherence);
    ("supporting_facts", JArr (JStr <$> facts));
    ("contradictions", JArr (JStr <$> contradictions)) ].

Definition quantum_reflections : list pydict :=
  [ reflection_of "hyp_001" 0.8
      ["Google's Sycamore processor completed a task in 200 seconds that would take a classical computer 10,000 years"]
      ["Classical algorithms have been improved to reduce the gap in some cases"];
    reflection_of "hyp_002" 0.9
      ["Quantum error correction requires many physical qubits for one logical qubit";
       "Noise limits current quantum computers to short coherence times"]
      [];
    reflection_of "hyp_003" 0.7
      ["Quantum neural networks show faster training for certain problems"]
      ["Classical ML still outperforms in most practical applications"] ].

Definition quantum_web_data : list web_item :=
  [ {| Generation.wi_source := "https://example.com/quantum-supremacy";
       Generation.wi_title := "Quantum Supremacy Using a Programmable Superconducting Processor";
       Generation.wi_content := "Google AI Quantum and collaborators have achieved quantum supremacy with Sycamore processor, completing a task in 200 seconds that would take classical supercomputers 10,000 years." |};
    {| Generation.wi_source := "https://example.com/quantum-error-correction";
       Generation.wi_title := "Quantum Error Correction Challenges";
       Generation.wi_content := "Quantum error correction remains a significant challenge, with current approaches requiring many physical qubits for each logical qubit protected from noise." |} ].

Definition quantum_context : context :=
  {| c_session_id := None;
     c_query := Some "What are the latest advancements in quantum computing?";
     c_hypotheses := Some quantum_hypotheses;
     c_reflection_results := Some quantum_reflections;
     c_web_data := Some quantum_web_data;
     c_ranked_hypotheses := None;
     c_top_hypothesis := None |}.

(** The four keys are required, and the oracle finds every statement
    credible at 0.8. *)
Definition steady_world : world :=
  {| uuid_hex8 := "00000000";
     validate_context := λ ctx,
       (bool_decide (is_Some (c_query ctx)) && bool_decide (is_Some (c_hypotheses ctx))
        && bool_decide (is_Some (c_reflection_results ctx))
        && bool_decide (is_Some (c_web_data ctx)), EmptyString);
     generate_text := λ _ _ _, Some "0.8";
     float_other := λ _, None |}.

Example quantum_ranking :
  (λ r, (h_id (base r), overall_score r, rank r))
  <$> default [] (c_ranked_hypotheses (process steady_world quantum_context))
  = [ (Some "hyp_002", 6.7%Q, Some 1); (Some "hyp_001", 5.8%Q, Some 2);
      (Some "hyp_003", 5.5%Q, Some 3) ].
Proof. vm_compute. reflexivity. Qed.

(** The second reflection is missing. *)
Definition unreflected_context : context :=
  {| c_session_id := None;
     c_query := c_query quantum_context;
     c_hypotheses := Some quantum_hypotheses;
     c_reflection_results :=
       Some [ reflection_of "hyp_001" 0.8 ["a fact"] []; reflection_of "hyp_003" 0.7 [] [] ];
     c_web_data := Some quantum_web_data;
     c_ranked_hypotheses := None;
     c_top_hypothesis := None |}.

Example unreflected_ranks :
  (λ rs : list ranked, (λ r, (h_id (base r), rank r)) <$> rs)
  <$> rank_hypotheses steady_world unreflected_context
  = Ok [ (Some "hyp_001", Some 1); (Some "hyp_003", Some 2) ].
Proof. vm_compute. reflexivity. Qed.

(** C2 as the specification words it, for the entry point [rank]: the
    ranks are 1 to the number of input hypotheses. *)
Definition ranks_all_inputs (W : world) (ctx : context) : Prop :=
  ∀ hypotheses rs,
    c_hypotheses ctx = Some hypotheses →
    rank_hypotheses W ctx = Ok rs →
    rank <$> rs = Some <$> seq 1 (length hypotheses).

(** With three hypotheses and the reflection of the second missing, [rank]
    answers two ranked hypotheses, numbered 1 and 2. *)
Lemma rank_skips_unreflected : ¬ ranks_all_inputs steady_world unreflected_context.
Proof.
  intros H.
  destruct (rank_hypotheses steady_world unreflected_context) as [rs|] eqn:E;
    [|by vm_compute in E].
  specialize (H quantum_hypotheses rs eq_refl E).
  apply (f_equal length) in H. rewrite !length_fmap, length_seq in H.
  assert (length rs = 2) as Hl.
  { assert (length <$> rank_hypotheses steady_world unreflected_context = Ok 2) as E'
      by (vm_compute; reflexivity).
    rewrite E in E'. by injection E'. }
  rewrite Hl in H. discriminate H.
Qed.

Lemma ranking_is_dense_and_stable_witness :
  c_hypotheses quantum_context = Some quantum_hypotheses
  ∧ c_ranked_hypotheses quantum_context = None
  ∧ ∃ scored, base <$> scored = quantum_hypotheses
      ∧ c_ranked_hypotheses (process steady_world quantum_context)
        = Some (sort_and_rank scored)
      ∧ is_ranking scored (sort_and_rank scored).
Proof.
  split; [reflexivity|]. split; [reflexivity|].
  apply (proj1 (ranking_is_dense_and_stable steady_world quantum_context)
           quantum_hypotheses); [reflexivity | left; reflexivity].
Defined.

(** A reflection whose contradictions are a truth value, as in the test
    data of the evolution agent: taking their length raises. *)
Definition ill_typed_reflections : list pydict :=
  [ [ ("hypothesis_id", JStr "hyp_001"); ("coherence_score", JFloat 0.8);
      ("supporting_facts", JArr []); ("contradictions", JBool false) ] ].

Definition failing_context : context :=
  {| c_session_id := Some "session";
     c_query := c_query quantum_context;
     c_hypotheses := Some quantum_hypotheses;
     c_reflection_results := Some ill_typed_reflections;
     c_web_data := Some quantum_web_data;
     c_ranked_hypotheses := None;
     c_top_hypothesis := None |}.

(** The same context in a later cycle, still holding the ranking of an
    earlier one. *)
Definition earlier_ranking : list ranked :=
  [ {| base := {| h_id := Some "hyp_000"; h_statement := Some "An earlier hypothesis." |};
       r_scores := neutral_scores; overall_score := 7.1;
       rank_explanation := "The hypothesis is somewhat coherent."; rank := Some 1 |} ].

Definition later_context : context :=
  {| c_session_id := Some "session";
     c_query := c_query quantum_context;
     c_hypotheses := Some quantum_hypotheses;
     c_reflection_results := Some ill_typed_reflections;
     c_web_data := Some quantum_web_data;
     c_ranked_hypotheses := Some earlier_ranking;
     c_top_hypothesis := None |}.

Example failing_context_raises :
  process_try steady_world (ensure_session steady_world failing_context) = Raise TypeError.
Proof. vm_compute. reflexivity. Qed.

Example failing_context_fallback :
  (λ r, (h_id (base r), overall_score r, rank r, rank_explanation r))
  <$> default [] (c_ranked_hypotheses (process steady_world failing_context))
  = [ (Some "hyp_001", 5.0%Q, Some 1, "Fallback ranking due to processing error");
      (Some "hyp_002", 5.0%Q, Some 2, "Fallback ranking due to processing error");
      (Some "hyp_003", 5.0%Q, Some 3, "Fallback ranking due to processing error") ].
Proof. vm_compute. reflexivity. Qed.

(** C4 as the specification words it: any exception in the stage gives
    every input hypothesis its place in the fallback ranking. *)
Definition always_falls_back (W : world) (ctx : context) : Prop :=
  ∀ hypotheses,
    c_hypotheses ctx = Some hypotheses →
    raises (process_try W (ensure_session W ctx)) →
    c_ranked_hypotheses (process W ctx) = Some (fallback_ranking hypotheses).

(** In the later cycle the exception leaves the earlier ranking in the
    context: none of the three input hypotheses is ranked. *)
Lemma stale_ranking_survives : ¬ always_falls_back steady_world later_context.
Proof.
  intros H. specialize (H quantum_hypotheses eq_refl).
  assert (raises (process_try steady_world (ensure_session steady_world later_context)))
    as Hr by (exists TypeError; vm_compute; reflexivity).
  specialize (H Hr).
  assert (c_ranked_hypotheses (process steady_world later_context) = Some earlier_ranking)
    as Hstale by (vm_compute; reflexivity).
  rewrite Hstale in H. apply (f_equal (fmap length)) in H. discriminate H.
Qed.

Lemma fallback_on_exception_witness :
  process_try steady_world (ensure_session steady_world failing_context) = Raise TypeError
  ∧ c_ranked_hypotheses (process steady_world failing_context)
    = Some (fallback_ranking quantum_hypotheses)
  ∧ c_ranked_hypotheses (process steady_world later_context)
    = c_ranked_hypotheses later_context.
Proof.
  assert (process_try steady_world (ensure_session steady_world failing_context)
          = Raise TypeError) as H1 by (vm_compute; reflexivity).
  assert (process_try steady_world (ensure_session steady_world later_context)
          = Raise TypeError) as H2 by (vm_compute; reflexivity).
  split; [exact H1|]. split.
  - apply (proj1 (fallback_on_exception steady_world failing_context TypeError H1)
             quantum_hypotheses); reflexivity.
  - apply (proj2 (fallback_on_exception steady_world later_context TypeError H2)).
    left. by eexists.
Defined.

End RankingFacts.

(** ** Generation *)

Module GenerationFacts.

Import Text Recovery Generation PyFacts.
#[local] Open Scope nat_scope.
#[local] Open Scope list_scope.

(** An entry of the decoded list that the loop does not skip. *)
Definition is_valid_entry (h : json) : bool :=
  match h with
  | JObj d => dict_has "statement" d && dict_has "confidence" d
  | _ => false
  end.

Lemma hypothesis_of_entry_valid W web_data i h o :
  hypothesis_of_entry W web_data i h = Ok o →
  match o with
  | Some hyp => is_valid_entry h = true
  | None => is_valid_entry h = false
  end.
Proof.
  unfold hypothesis_of_entry, is_valid_entry, dict_has.
  destruct h as [| | | | | |d]; try by intros [= <-].
  destruct (dict_get "statement" d) as [st|]; [|by intros [= <-]].
  destruct (dict_get "confidence" d) as [c|]; [|by intros [= <-]].
  destruct (match web_data with [] => _ | _ => _ end) as [found|]; simpl; [|done].
  destruct (Float.of_json (float_other W) c); simpl; [|done].
  by intros [= <-].
Qed.

(** The loop keeps one hypothesis for each entry it does not skip. *)
Lemma hypotheses_of_entries_length W web_data i (parsed : list json) hs :
  hypotheses_of_entries W web_data i parsed = Ok hs →
  length hs = length (filter (λ h, is_valid_entry h = true) parsed).
Proof.
  revert i hs. induction parsed as [|h l IH]; intros i hs; simpl.
  - by intros [= <-].
  - destruct (hypothesis_of_entry W web_data i h) as [o|] eqn:Ho; simpl; [|done].
    apply hypothesis_of_entry_valid in Ho.
    destruct (hypotheses_of_entries W web_data (S i) l) as [rest|] eqn:Hl; simpl; [|done].
    apply IH in Hl. intros [= <-]. rewrite filter_cons.
    destruct o as [hyp|]; rewrite Ho; simpl; by rewrite Hl.
Qed.

Lemma concepts_nonempty W web_data : extract_key_concepts W web_data ≠ [].
Proof.
  unfold extract_key_concepts. destruct web_data; [done|].
  by destruct (mined_concepts W _).
Qed.

Lemma indexed_length {A B} (f : nat → A → B) (l : list A) (n k : nat) :
  length (omap (λ i, f i <$> l !! i) (seq k n)) = Nat.min n (length l - k).
Proof.
  revert k. induction n as [|n IH]; intros k; [done|].
  cbn -[Nat.min Nat.sub]. destruct (l !! k) as [x|] eqn:E; cbn -[Nat.min Nat.sub].
  - apply lookup_lt_Some in E. rewrite IH. lia.
  - apply lookup_ge_None in E. rewrite IH. lia.
Qed.

(** The number of hypotheses of the fallback. *)
Lemma fallback_length W query web_data :
  let concepts := extract_key_concepts W web_data in
  let wanted := Nat.min (length concepts) (randint_3_5 W) in
  length (generate_hypotheses_fallback W query web_data)
  = Nat.min (if wanted <? 3 then 3 else wanted) (length concepts).
Proof.
  intros concepts wanted. unfold generate_hypotheses_fallback.
  fold concepts. fold wanted.
  pose proof (concepts_nonempty W web_data) as Hne. fold concepts in Hne.
  destruct concepts as [|c cs] eqn:E; [done|].
  rewrite indexed_length. lia.
Qed.

Lemma fallback_nonempty W query web_data :
  generate_hypotheses_fallback W query web_data ≠ [].
Proof.
  intros H. apply (f_equal length) in H. rewrite fallback_length in H.
  pose proof (concepts_nonempty W web_data) as Hne.
  destruct (extract_key_concepts W web_data) as [|c cs]; [done|].
  cbn [length] in H.
  destruct (Nat.min (S (length cs)) (randint_3_5 W) <? 3) eqn:E.
  - lia.
  - apply Nat.ltb_ge in E. lia.
Qed.

Lemma extract_with_regex_nonempty W sanitized hs :
  extract_with_regex W sanitized = Some hs → hs ≠ [].
Proof.
  unfold extract_with_regex.
  destruct (mapM _ _) as [confidences|]; [|done].
  destruct (_ && _); [|done].
  destruct (imap _ _); [done|]. by intros [= <-].
Qed.

Lemma generator_nonempty W query web_data hs :
  generate_hypotheses_with_gemini W query web_data = Ok hs → hs ≠ [].
Proof.
  unfold generate_hypotheses_with_gemini.
  pose proof (fallback_nonempty W query web_data) as Hfb.
  destruct (generate_text W query web_data) as [response|]; [|by intros [= <-]].
  destruct (String.eqb (strip response) EmptyString); [by intros [= <-]|].
  destruct (json_loads W _) as [[| | | | |parsed|]|]; try by intros [= <-].
  - destruct (hypotheses_of_entries W web_data 0 parsed) as [[|h hs']|]; simpl;
      [by intros [= <-] | by intros [= <-] | done].
  - destruct (extract_with_regex W _) as [hs'|] eqn:E; [|by intros [= <-]].
    intros [= <-]. by eapply extract_with_regex_nonempty.
Qed.

(** What [process] returns comes from the generator: an exception in the
    [try] block leaves the variable [hypotheses] unbound, and the summary
    that reads it raises. *)
Lemma process_returns W ctx gd sid :
  process W ctx = Ok (gd, sid) →
  ∃ query web_data hs,
    ctx_query ctx = Some query
    ∧ gather_web_data W query = Ok web_data
    ∧ generate_hypotheses_with_gemini W query web_data = Ok hs
    ∧ gd_hypotheses gd = store_hypothesis W sid <$> hs.
Proof.
  unfold process.
  set (session := match ctx_session_id ctx with Some s => _ | None => _ end).
  set (gd0 := {| gd_web_data := []; gd_hypotheses := []; gd_cycle := _ |}).
  unfold process_try.
  destruct (validate_context W ctx).1; simpl; [|done].
  destruct (ctx_query ctx) as [query|]; simpl; [|done].
  destruct (gather_web_data W query) as [web_data|] eqn:Hw; simpl; [|done].
  destruct (generate_hypotheses_with_gemini W query web_data) as [hs|] eqn:Hg; simpl; [|done].
  intros [= <- <-]. by exists query, web_data, hs.
Qed.

(** C10: an argument that is not a text, or a text of blanks only, makes
    [generate] return the empty result with the empty session, without
    raising. *)
Theorem generate_rejects_invalid_query (W : world) (query : json) :
  (is_str query = false ∨ ∃ s, query = JStr s ∧ all_chars isspace s = true) →
  generate W query = Ok {| results := []; session_id := EmptyString |}.
Proof.
  intros [Hns | (s & -> & Hs)].
  - by destruct query.
  - simpl. by rewrite strip_blank.
Qed.

Definition forensic_query : string :=
  "How are AI technologies being used in forensic investigations?".

(** A world without web data, where the oracle gives [answer]. *)
Definition world_answering (answer : option string) : world :=
  {| clock := 1700000000; uuid_hex := "00000000";
     validate_context := λ ctx, (bool_decide (is_Some (ctx_query ctx)), EmptyString);
     gather_web_data := λ _, Ok [];
     generate_text := λ _ _, answer;
     json_loads := Json.loads;
     float_other := λ _, None;
     randint_3_5 := 4;
     uniform_draw := λ _, 0.7%Q;
     mined_concepts := λ _, [];
     store_context_item := λ _ _, EmptyString |}.

(** The oracle answers a list of one hypothesis. *)
Definition terse_answer : string :=
  quoted "[{'statement': 'AI speeds up the triage of digital evidence', 'confidence': 0.9, 'rationale': 'It automates the review'}]".

Definition forensic_context : context :=
  {| ctx_query := Some forensic_query; ctx_session_id := Some "gen_1"; ctx_cycle := None |}.

Example terse_generation :
  (λ r, (statement <$> results r, confidence <$> results r))
  <$> generate (world_answering (Some terse_answer)) (JStr forensic_query)
  = Ok ([JStr "AI speeds up the triage of digital evidence"], [Fin 0.9%Q]).
Proof. vm_compute. reflexivity. Qed.

(** The oracle is silent and there is no web data: the three default
    concepts give three hypotheses. *)
Example silent_generation :
  (λ r, length (results r)) <$> generate (world_answering None) (JStr forensic_query) = Ok 3.
Proof. vm_compute. reflexivity. Qed.

(** The confidence is not a number: [float] raises inside [process], the
    summary after the handler reads the unbound [hypotheses], and
    [generate] answers the empty list. *)
Example unbound_hypotheses :
  process (world_answering (Some (quoted "[{'statement': 'S', 'confidence': 'high'}]")))
    forensic_context = Raise UnboundLocalError
  ∧ generate (world_answering (Some (quoted "[{'statement': 'S', 'confidence': 'high'}]")))
      (JStr forensic_query)
    = Ok {| results := []; session_id := "error_session" |}.
Proof. split; vm_compute; reflexivity. Qed.

(** The search service is down: the handler of [process] prepares its
    single fallback hypothesis, and the summary raises all the same. *)
Example search_down :
  process
    {| clock := 0; uuid_hex := "0";
       validate_context := λ _, (true, EmptyString);
       gather_web_data := λ _, Raise ConnectionError;
       generate_text := λ _ _, None; json_loads := Json.loads;
       float_other := λ _, None; randint_3_5 := 3; uniform_draw := λ _, 0.5%Q;
       mined_concepts := λ _, []; store_context_item := λ _ _, EmptyString |}
    forensic_context
  = Raise UnboundLocalError.
Proof. reflexivity. Qed.

(** The session [process] works in, and the data it starts from. *)
Definition session_of (W : world) (ctx : context) : string :=
  match ctx_session_id ctx with
  | Some s => if String.eqb s EmptyString then "session_" +:+ uuid_hex W else s
  | None => "session_" +:+ uuid_hex W
  end.

Definition fresh_data (ctx : context) : generated_data :=
  {| gd_web_data := []; gd_hypotheses := [];
     gd_cycle := (default 0 (ctx_cycle ctx) + 1)%Z |}.

(** What the [try] block of [process] ends with. *)
Definition attempt (W : world) (ctx : context) : locals * generated_data * option exn :=
  process_try W ctx (session_of W ctx) (fresh_data ctx).

(** The context [generate] hands to [process]. *)
Definition request (W : world) (q : string) : context :=
  {| ctx_query := Some q; ctx_session_id := Some ("gen_" +:+ uuid_hex W);
     ctx_cycle := None |}.

(** An exception in the [try] block leaves [hypotheses] unbound, whatever
    the handler prepares: the summary raises. *)
Lemma process_outcome (W : world) (ctx : context) :
  process W ctx
  = match attempt W ctx with
    | (_, gd, None) => Ok (gd, session_of W ctx)
    | (_, _, Some _) => Raise UnboundLocalError
    end.
Proof.
  unfold process, attempt. fold (session_of W ctx). fold (fresh_data ctx).
  unfold process_try.
  destruct (validate_context W ctx).1; simpl; [|done].
  destruct (ctx_query ctx) as [query|]; simpl; [|done].
  destruct (gather_web_data W query) as [web_data|]; simpl; [|done].
  by destruct (generate_hypotheses_with_gemini W query web_data) as [hs|].
Qed.

(** The oracle answers a list whose confidence is a word. *)
Definition vague_answer : string :=
  quoted "[{'statement': 'AI speeds up the triage of digital evidence', 'confidence': 'high', 'rationale': 'It automates the review'}]".

(** The search finds one page, of which only the title is read; the
    oracle is silent; the title gives one concept. *)
Definition single_page_world : world :=
  {| clock := 1700000000; uuid_hex := "00000000";
     validate_context := λ ctx, (bool_decide (is_Some (ctx_query ctx)), EmptyString);
     gather_web_data := λ _,
       Ok [ {| wi_source := "https://example.org/forensics"; wi_title := "Forensics";
               wi_content := EmptyString |} ];
     generate_text := λ _ _, None;
     json_loads := Json.loads;
     float_other := λ _, None;
     randint_3_5 := 4;
     uniform_draw := λ _, 0.7%Q;
     mined_concepts := λ _, ["Forensics"];
     store_context_item := λ _ _, EmptyString |}.

(** C1, where the code falls short of it.  Whatever raises inside the
    [try] block of [process], the fallback hypothesis its handler prepares
    is lost: the summary written after the handler reads the variable
    [hypotheses], which the block has not bound, [process] raises
    [UnboundLocalError], and [generate] answers the empty list with the
    session of errors.  It happens when the oracle gives a word for a
    confidence: [float] raises.  The count is not kept either where
    nothing raises: a decoded list of one valid entry gives one
    hypothesis, and the fallback gives as many hypotheses as it has
    concepts when these are fewer than three, though it sets its count to
    three. *)
Theorem generation_falls_short :
  (∀ W ctx,
     process W ctx
     = match attempt W ctx with
       | (_, gd, None) => Ok (gd, session_of W ctx)
       | (_, _, Some _) => Raise UnboundLocalError
       end)
  ∧ (∀ W q,
       generate W (JStr q)
       = if String.eqb (strip q) EmptyString
         then Ok {| results := []; session_id := EmptyString |}
         else match attempt W (request W q) with
              | (_, gd, None) =>
                  Ok {| results := gd_hypotheses gd; session_id := "gen_" +:+ uuid_hex W |}
              | (_, _, Some _) => Ok {| results := []; session_id := "error_session" |}
              end)
  ∧ (∀ W query web_data,
       length (generate_hypotheses_fallback W query web_data)
       = Nat.min (Nat.max 3 (Nat.min (length (extract_key_concepts W web_data))
                                     (randint_3_5 W)))
                 (length (extract_key_concepts W web_data)))
  ∧ (attempt (world_answering (Some vague_answer))
       (request (world_answering (Some vague_answer)) forensic_query)).2
    = Some ValueError
  ∧ process (world_answering (Some vague_answer))
      (request (world_answering (Some vague_answer)) forensic_query)
    = Raise UnboundLocalError
  ∧ generate (world_answering (Some vague_answer)) (JStr forensic_query)
    = Ok {| results := []; session_id := "error_session" |}
  ∧ (λ r, length (results r))
    <$> generate (world_answering (Some terse_answer)) (JStr forensic_query)
    = Ok 1
  ∧ (λ r, length (results r)) <$> generate single_page_world (JStr forensic_query)
    = Ok 1.
Proof.
  split_and!.
  - apply process_outcome.
  - intros W q. cbn [generate].
    destruct (String.eqb (strip q) EmptyString); [done|].
    fold (request W q). rewrite process_outcome.
    assert (session_of W (request W q) = "gen_" +:+ uuid_hex W) as Hs by done.
    by destruct (attempt W (request W q)) as [[vars gd] [e|]].
  - intros W query web_data. rewrite fallback_length.
    destruct (Nat.min _ _ <? 3) eqn:E; [apply Nat.ltb_lt in E | apply Nat.ltb_ge in E]; lia.
  - vm_compute. reflexivity.
  - vm_compute. reflexivity.
  - vm_compute. reflexivity.
  - vm_compute. reflexivity.
  - vm_compute. reflexivity.
Qed.

Lemma generate_rejects_invalid_query_witness :
  (is_str (JInt 7) = false ∨ ∃ s, JInt 7 = JStr s ∧ all_chars isspace s = true)
  ∧ generate (world_answering None) (JInt 7)
    = Ok {| results := []; session_id := EmptyString |}
  ∧ generate (world_answering None) (JStr "   ")
    = Ok {| results := []; session_id := EmptyString |}.
Proof.
  split; [left; reflexivity|]. split.
  - apply (generate_rejects_invalid_query (world_answering None) (JInt 7)).
    left. reflexivity.
  - apply (generate_rejects_invalid_query (world_answering None) (JStr "   ")).
    right. exists "   ". split; reflexivity.
Defined.

End GenerationFacts.

(** ** The recovery of JSON *)

Module RecoveryFacts.

Import Text Recovery PyFacts.
#[local] Open Scope nat_scope.
#[local] Open Scope list_scope.

(** The sanitizer of the generation agent tries the text as it is first:
    a text that decodes and holds no fenced block comes back unchanged. *)
Lemma sanitize_keeps_valid (loads : string → option json) (response : string) (v : json) :
  response ≠ EmptyString →
  search_code_block response = None →
  loads response = Some v →
  sanitize_json_response loads response = response.
Proof.
  intros Hne Hfence Hv. unfold sanitize_json_response.
  destruct (String.eqb response EmptyString) eqn:E.
  - by apply String.eqb_eq in E.
  - by rewrite Hfence, Hv.
Qed.

(** A reflection the oracle could give: well-formed JSON, with a
    quotation inside a comment. *)
Definition quoting_answer : string :=
  quoted "{'is_coherent': true, 'coherence_score': 0.9, 'has_supporting_evidence': true, 'supporting_facts': [], 'contradictions': [], 'comments': ['The source says "
  +:+ backslash +:+ quote +:+ "secure" +:+ backslash +:+ quote
  +:+ quoted " of this scheme']}".

Definition quoting_value : json :=
  JObj [ ("is_coherent", JBool true); ("coherence_score", JFloat 0.9);
         ("has_supporting_evidence", JBool true); ("supporting_facts", JArr []);
         ("contradictions", JArr []);
         ("comments", JArr [JStr ("The source says " +:+ quote +:+ "secure" +:+ quote
                                  +:+ " of this scheme")]) ].

Definition quoting_world : Reflection.world :=
  {| Reflection.uuid := "0";
     Reflection.generate_text := λ _ _ _, Some quoting_answer;
     Reflection.json_loads := Json.loads;
     Reflection.scan_evidence := λ _ _, Ok ([], []) |}.

Example fenced_answer_sanitized :
  sanitize_json_response Json.loads
    (fence +:+ "json" +:+ newline +:+ quoting_answer +:+ newline +:+ fence)
  = quoting_answer.
Proof. vm_compute. reflexivity. Qed.

Example garbled_answer_falls_back :
  Json.loads (clean_json_response "I could not evaluate this hypothesis, sorry") = None
  ∧ (λ hs, length hs)
    <$> Generation.generate_hypotheses_with_gemini
          (GenerationFacts.world_answering (Some "I could not evaluate this hypothesis, sorry"))
          GenerationFacts.forensic_query []
    = Ok 3.
Proof. split; vm_compute; reflexivity. Qed.

(** C8, at the failing input: the answer decodes as it is, and the
    sanitizer of the generation agent returns it unchanged, bare or
    fenced; the cleaner of the reflection agent removes the backslashes of
    its escaped quotes, what it returns does not decode, and the
    reflection is rebuilt from the prose with the neutral score 0.5 in
    place of the 0.9 of the answer. *)
Theorem clean_json_response_breaks_valid_json :
  Json.loads quoting_answer = Some quoting_value
  ∧ sanitize_json_response Json.loads quoting_answer = quoting_answer
  ∧ Json.loads (sanitize_json_response Json.loads
                  (fence +:+ "json" +:+ newline +:+ quoting_answer +:+ newline +:+ fence))
    = Some quoting_value
  ∧ Json.loads (clean_json_response quoting_answer) = None
  ∧ (λ r, dict_get "coherence_score" r)
    <$> Reflection.reflect_with_gemini quoting_world ReflectionFacts.hyp_rsa [] "q"
    = Ok (Some (JFloat 0.5)).
Proof. split_and!; vm_compute; reflexivity. Qed.

End RecoveryFacts.

(** ** The range of the scores *)

Module ClampingFacts.

Import Text PyFacts.
#[local] Open Scope nat_scope.
#[local] Open Scope list_scope.

(** The credibility score is clamped where it is read: whatever the
    oracle answers, it lies between 0 and 1. *)
Lemma credibility_in_unit (W : Ranking.world) statement query web_data :
  (0 <= Ranking.calculate_llm_credibility W statement query web_data <= 1)%Q.
Proof.
  unfold Ranking.calculate_llm_credibility.
  destruct (Ranking.generate_text W statement query web_data) as [response|]; [|done].
  destruct (String.eqb response EmptyString); [done|].
  destruct (Float.of_text _ _) as [[q| | |]|]; try done.
  unfold Float.max, Float.min. rewrite !MetaReviewFacts.float_lt_fin.
  destruct (qlt q 1) eqn:E1; rewrite ?MetaReviewFacts.float_lt_fin.
  - destruct (qlt 0 q) eqn:E0.
    + apply qlt_spec in E0, E1. split; by apply Qlt_le_weak.
    + done.
  - done.
Qed.

(** The oracle gives the confidence in percent. *)
Definition percent_answer : string :=
  quoted "[{'statement': 'AI speeds up the triage of digital evidence', 'confidence': 85, 'rationale': 'It automates the review'}]".

(** The oracle gives the coherence on a scale of ten. *)
Definition tenscale_answer : string :=
  quoted "{'is_coherent': true, 'coherence_score': 8.5, 'has_supporting_evidence': true, 'supporting_facts': [], 'contradictions': [], 'comments': []}".

Definition tenscale_world : Reflection.world :=
  {| Reflection.uuid := "0";
     Reflection.generate_text := λ _ _ _, Some tenscale_answer;
     Reflection.json_loads := Json.loads;
     Reflection.scan_evidence := λ _ _, Ok ([], []) |}.

(** C3, at the failing inputs: a confidence of 85 decoded from the
    oracle's list is stored as 85 by the generation stage, and a coherence
    score of 8.5 decoded from the oracle's object is stored as 8.5 by the
    reflection stage; neither is brought back into the range from 0 to 1.
    The credibility score of the ranking stage is clamped, whatever the
    oracle answers. *)
Theorem oracle_scores_stored_unclamped :
  (λ r, Generation.confidence <$> Generation.results r)
  <$> Generation.generate (GenerationFacts.world_answering (Some percent_answer))
        (JStr GenerationFacts.forensic_query)
  = Ok [Fin 85]
  ∧ ¬ Float.in_unit (Fin 85)
  ∧ dict_get "coherence_score"
    <$> default [] (Reflection.c_reflection_results
                      (Reflection.process tenscale_world ReflectionFacts.test_context))
    = [Some (JFloat 8.5); Some (JFloat 8.5)]
  ∧ ∀ W statement query web_data,
      (0 <= Ranking.calculate_llm_credibility W statement query web_data <= 1)%Q.
Proof.
  split_and!.
  - vm_compute. reflexivity.
  - simpl. intros [_ H]. by apply Qle_bool_iff in H.
  - vm_compute. reflexivity.
  - apply credibility_in_unit.
Qed.

End ClampingFacts.

(** ** The scores of the ranking agent *)

Module ScoreFacts.

Import Text Sorting Ranking PyFacts SortingFacts.
#[local] Open Scope nat_scope.
#[local] Open Scope list_scope.

Lemma qmin_cases a b : (qmin a b = a ∧ (a <= b)%Q) ∨ (qmin a b = b ∧ (b < a)%Q).
Proof.
  unfold qmin. destruct (qlt b a) eqn:E.
  - right. by apply qlt_spec in E.
  - left. by apply qlt_false in E.
Qed.

Lemma qmax_cases a b : (qmax a b = a ∧ (b <= a)%Q) ∨ (qmax a b = b ∧ (a < b)%Q).
Proof.
  unfold qmax. destruct (qlt a b) eqn:E.
  - right. by apply qlt_spec in E.
  - left. by apply qlt_false in E.
Qed.

Lemma qnat_nonneg n : (0 <= qnat n)%Q.
Proof. unfold qnat. change 0%Q with (inject_Z 0). rewrite <- Zle_Qle. lia. Qed.

Lemma qnat_le n m : n ≤ m → (qnat n <= qnat m)%Q.
Proof. intros H. unfold qnat. rewrite <- Zle_Qle. lia. Qed.

Lemma qnat_pos n : 0 < n → (0 < qnat n)%Q.
Proof. intros H. unfold qnat. change 0%Q with (inject_Z 0). rewrite <- Zlt_Qlt. lia. Qed.

Lemma ratio_unit n m : n ≤ m → 0 < m → (0 <= qnat n / qnat m <= 1)%Q.
Proof.
  intros Hle Hpos. pose proof (qnat_pos m Hpos) as Hm.
  pose proof (qnat_nonneg n) as Hn. pose proof (qnat_le n m Hle) as Hnm.
  split.
  - apply Qle_shift_div_l; [done|]. lra.
  - apply Qle_shift_div_r; [done|]. lra.
Qed.


Lemma common_count_le_r (a b : list string) : common_count a b ≤ length (remove_dups b).
Proof.
  unfold common_count. apply submseteq_length, NoDup_submseteq.
  - apply NoDup_filter, NoDup_remove_dups.
  - intros x [Hx _]%list_elem_of_filter. by apply elem_of_remove_dups.
Qed.

Lemma common_count_le_union (a b : list string) : common_count a b ≤ union_count a b.
Proof.
  unfold common_count, union_count. apply submseteq_length, NoDup_submseteq.
  - apply NoDup_filter, NoDup_remove_dups.
  - intros x [Hx _]%list_elem_of_filter. apply elem_of_remove_dups, elem_of_app. by right.
Qed.

Lemma relevance_in_unit statement query web_data :
  (0 <= calculate_relevance statement query web_data <= 1)%Q.
Proof.
  unfold calculate_relevance.
  set (overlap := (qnat _ / qnat _)%Q).
  set (coverage := match filter _ _ with [] => 0%Q | _ => _ end).
  assert (0 <= overlap)%Q as Ho.
  { subst overlap. apply Qle_shift_div_l; [apply qnat_pos; lia|].
    pose proof (qnat_nonneg (common_count (split (lower statement)) (split (lower query)))).
    lra. }
  assert (0 <= coverage)%Q as Hc.
  { subst coverage. destruct (filter _ _) as [|t ts] eqn:E; [lra|].
    apply Qle_shift_div_l; [apply qnat_pos; simpl; lia|].
    match goal with |- (_ <= qnat ?n)%Q => pose proof (qnat_nonneg n) end. lra. }
  destruct (qmin_cases 1 (0.4 * overlap + 0.6 * coverage)) as [[-> ?]|[-> ?]]; lra.
Qed.

Lemma specificity_bounds statement : (0 <= calculate_specificity statement <= 0.72)%Q.
Proof.
  unfold calculate_specificity.
  set (ratio := (qnat (String.length statement) / 100)%Q).
  set (number_factor := if negb _ then 0.2%Q else 0%Q).
  set (count := length (filter _ specificity_indicators)).
  assert (0 <= ratio)%Q as Hr.
  { subst ratio. apply Qle_shift_div_l; [lra|].
    pose proof (qnat_nonneg (String.length statement)). lra. }
  assert (0 <= number_factor <= 0.2)%Q as Hn.
  { subst number_factor. destruct (negb _); lra. }
  assert (0 <= qnat count <= 8)%Q as Hc.
  { split; [apply qnat_nonneg|]. change 8%Q with (qnat 8). apply qnat_le.
    subst count. etrans; [apply length_filter|]. done. }
  destruct (qmin_cases 1 ratio) as [[-> ?]|[-> ?]];
    destruct (qmin_cases 1 (0.1 * qnat count)) as [[-> ?]|[-> ?]];
    match goal with |- (_ <= qmin 1 ?x <= _)%Q =>
      destruct (qmin_cases 1 x) as [[-> ?]|[-> ?]] end; lra.
Qed.


Lemma qnat_S n : (qnat (S n) == qnat n + 1)%Q.
Proof. unfold qnat. rewrite Nat2Z.inj_succ, <- Z.add_1_r, inject_Z_plus. reflexivity. Qed.

Lemma sum_in_unit (l : list Q) (a : Q) :
  Forall (λ q, (0 <= q <= 1)%Q) l →
  (a <= foldl Qplus a l <= a + qnat (length l))%Q.
Proof.
  revert a. induction l as [|x l IH]; intros a Hl; simpl.
  - change (qnat 0) with 0%Q. lra.
  - apply Forall_cons in Hl as [Hx Hl]. specialize (IH (a + x)%Q Hl).
    pose proof (qnat_S (length l)). lra.
Qed.

Lemma novelty_in_unit statement web_data :
  (0 <= calculate_novelty statement web_data <= 1)%Q.
Proof.
  unfold calculate_novelty. destruct web_data as [|data web_data]; [lra|].
  set (similarities := _ <$> data :: web_data).
  assert (Forall (λ q, (0 <= q <= 1)%Q) similarities) as Hs.
  { subst similarities. apply Forall_fmap, Forall_forall. intros d _. simpl.
    apply ratio_unit; [|lia].
    etrans; [apply common_count_le_union|]. lia. }
  pose proof (sum_in_unit similarities 0 Hs) as Hsum. fold (qsum similarities) in Hsum.
  assert (0 < qnat (length similarities))%Q as Hpos
    by (apply qnat_pos; subst similarities; rewrite length_fmap; simpl; lia).
  assert (0 <= qsum similarities / qnat (length similarities) <= 1)%Q as [? ?].
  { split.
    - apply Qle_shift_div_l; [done|]. lra.
    - apply Qle_shift_div_r; [done|]. lra. }
  lra.
Qed.

Lemma evidence_bounds (n c : nat) :
  (0.1 <= qmax 0.1 (qmin 1 (qnat n * 0.2) - qmin 0.5 (qnat c * 0.2)) <= 1)%Q.
Proof.
  pose proof (qnat_nonneg n). pose proof (qnat_nonneg c).
  destruct (qmin_cases 1 (qnat n * 0.2)) as [[-> ?]|[-> ?]];
    destruct (qmin_cases 0.5 (qnat c * 0.2)) as [[-> ?]|[-> ?]];
    match goal with |- (_ <= qmax _ ?x <= _)%Q =>
      destruct (qmax_cases 0.1 x) as [[-> ?]|[-> ?]] end; lra.
Qed.

(** X1: every criterion the ranking agent computes itself lies in its
    range, whatever the statement, the query, the web data and the
    oracle: the evidence score between 0.1 and 1, the relevance, the
    novelty and the credibility between 0 and 1, and the specificity
    between 0 and 0.72, so that its last [min(1.0, ...)] never cuts.  The
    coherence is the number the reflection holds, as it is. *)
Theorem score_ranges (W : world) (h : hypothesis) (reflection : pydict)
    (web_data : list web_item) (query : string) (s : scores) :
  calculate_scores W h reflection web_data query = Ok s →
  as_number (default (JFloat 0.5) (dict_get "coherence_score" reflection)) = Ok (coherence s)
  ∧ (0.1 <= evidence s <= 1)%Q
  ∧ (0 <= relevance s <= 1)%Q
  ∧ (0 <= specificity s <= 0.72)%Q
  ∧ (0 <= novelty s <= 1)%Q
  ∧ (0 <= llm_credibility s <= 1)%Q.
Proof.
  unfold calculate_scores.
  destruct (py_len (default (JArr []) (dict_get "supporting_facts" reflection)))
    as [n|]; [|done].
  destruct (py_len (default (JArr []) (dict_get "contradictions" reflection)))
    as [c|]; [|done].
  cbn [mbind result_bind Py.bind].
  destruct (as_number _) as [x|]; [|done].
  cbn [mbind result_bind Py.bind]. intros [= <-]. cbn [coherence evidence relevance
    specificity novelty llm_credibility].
  split; [done|]. split; [apply evidence_bounds|]. split; [apply relevance_in_unit|].
  split; [apply specificity_bounds|]. split; [apply novelty_in_unit|].
  apply ClampingFacts.credibility_in_unit.
Qed.


Lemma round_half_even_floor (q : Q) :
  (Qfloor q <= round_half_even q <= Qfloor q + 1)%Z.
Proof.
  unfold round_half_even. destruct (_ ?= _)%Q; [destruct (Z.even _)| |]; lia.
Qed.

Lemma round_half_even_ge (q : Q) (n : Z) :
  (inject_Z n <= q)%Q → (n <= round_half_even q)%Z.
Proof.
  intros H. apply Qfloor_resp_le in H. rewrite Qfloor_Z in H.
  pose proof (round_half_even_floor q). lia.
Qed.

Lemma round_half_even_le (q : Q) (n : Z) :
  (q < inject_Z n + (1 # 2))%Q → (round_half_even q <= n)%Z.
Proof.
  intros H. pose proof (Qfloor_le q) as Hf. pose proof (round_half_even_floor q) as Hr.
  assert (Qfloor q <= n)%Z as Hn.
  { apply Z.lt_succ_r. rewrite Zlt_Qlt. unfold Z.succ. rewrite inject_Z_plus.
    change (inject_Z 1) with 1%Q. lra. }
  destruct (decide (Qfloor q = n)) as [Heq|Hne]; [|lia].
  unfold round_half_even. rewrite Heq.
  destruct (_ ?= _)%Q eqn:E; [exfalso| lia |exfalso].
  - apply Qeq_alt in E. lra.
  - apply Qgt_alt in E. lra.
Qed.

(** X2: a hypothesis whose coherence score lies between 0 and 1 gets an
    overall score between 0.2 and 9.7: the floor of the evidence score
    keeps it above zero, and the specificity, which cannot pass 0.72,
    keeps it below ten. *)
Theorem overall_score_bounds (W : world) (web_data : list web_item) (query : string)
    (h : hypothesis) (reflection : pydict) (r : ranked) :
  rank_hypothesis W web_data query h reflection = Ok r →
  (0 <= coherence (r_scores r) <= 1)%Q →
  (0.2 <= overall_score r <= 9.7)%Q.
Proof.
  unfold rank_hypothesis.
  destruct (calculate_scores W h reflection web_data query) as [s|] eqn:Hs; [|done].
  cbn [mbind result_bind Py.bind].
  destruct (generate_explanation s reflection) as [x|]; [|done].
  cbn [mbind result_bind Py.bind]. intros [= <-]. cbn [r_scores overall_score].
  intros Hc. apply score_ranges in Hs as (_ & He & Hr & Hsp & Hn & Hl).
  assert (0.025 <= weighted_sum s <= 0.972)%Q as Hw.
  { unfold weighted_sum, weights.
    cbn [coherence evidence relevance specificity novelty llm_credibility]. lra. }
  unfold round1.
  pose proof (round_half_even_ge (weighted_sum s * 10 * 10) 2) as Hlo.
  pose proof (round_half_even_le (weighted_sum s * 10 * 10) 97) as Hhi.
  assert (2 <= round_half_even (weighted_sum s * 10 * 10))%Z as H2
    by (apply Hlo; change (inject_Z 2) with 2%Q; lra).
  assert (round_half_even (weighted_sum s * 10 * 10) <= 97)%Z as H97
    by (apply Hhi; change (inject_Z 97) with 97%Q; lra).
  unfold Qle. simpl. lia.
Qed.


Lemma ensure_session_data W ctx :
  c_query (ensure_session W ctx) = c_query ctx
  ∧ c_hypotheses (ensure_session W ctx) = c_hypotheses ctx
  ∧ c_reflection_results (ensure_session W ctx) = c_reflection_results ctx
  ∧ c_web_data (ensure_session W ctx) = c_web_data ctx
  ∧ c_ranked_hypotheses (ensure_session W ctx) = c_ranked_hypotheses ctx
  ∧ c_top_hypothesis (ensure_session W ctx) = c_top_hypothesis ctx.
Proof.
  unfold ensure_session. destruct (c_session_id ctx) as [s|]; [|done].
  by destruct (String.eqb s EmptyString).
Qed.

(** X3: when the scoring completes, the top hypothesis of the context is
    the head of the ranking: it has the rank 1 and no ranked hypothesis
    scores higher.  When the scoring raises, the fallback ranking is
    written without a top hypothesis: the context keeps the one it had,
    or none. *)
Theorem top_hypothesis_is_best (W : world) (ctx : context) :
  (∀ top rest,
     returns (process_try W (ensure_session W ctx)) →
     c_ranked_hypotheses (process W ctx) = Some (top :: rest) →
     c_top_hypothesis (process W ctx) = Some top
     ∧ rank top = Some 1
     ∧ Forall (λ r, (overall_score r <= overall_score top)%Q) rest)
  ∧ (raises (process_try W (ensure_session W ctx)) →
     c_top_hypothesis (process W ctx) = c_top_hypothesis ctx).
Proof.
  unfold process. split.
  - intros top rest [ctx' Htry]. rewrite Htry.
    pose proof Htry as Hranks. apply RankingFacts.process_try_ranks in Hranks
      as (scored & _ & Hranked).
    rewrite Hranked. intros [= Hsorted].
    destruct (RankingFacts.sort_and_rank_is_ranking scored) as (Hrank & _ & Hdesc & _).
    rewrite Hsorted in Hrank, Hdesc.
    assert (c_top_hypothesis ctx' = Some top) as Htop.
    { unfold process_try in Htry.
      destruct (validate_context W _).1; simpl in Htry; [|done].
      destruct (reflection_map _) as [m|]; simpl in Htry; [|done].
      destruct (score_all W m _ _ _) as [scored'|]; simpl in Htry; [|done].
      injection Htry as <-. simpl in *. injection Hranked as Heq.
      by rewrite Heq, Hsorted. }
    split; [done|]. split.
    + destruct scored as [|s0 scored]; [done|]. simpl in Hrank. by injection Hrank.
    + by apply StronglySorted_inv in Hdesc as [_ Hdesc].
  - intros [e Htry]. rewrite Htry. unfold process_except.
    destruct (ensure_session_data W ctx) as (_ & _ & _ & _ & _ & Htop).
    destruct (c_ranked_hypotheses (ensure_session W ctx));
      destruct (c_hypotheses (ensure_session W ctx)); simpl; done.
Qed.

Lemma top_hypothesis_is_best_witness :
  ∃ top rest,
    c_ranked_hypotheses (process RankingFacts.steady_world RankingFacts.quantum_context)
    = Some (top :: rest)
    ∧ c_top_hypothesis (process RankingFacts.steady_world RankingFacts.quantum_context)
      = Some top
    ∧ rank top = Some 1
    ∧ Forall (λ r, (overall_score r <= overall_score top)%Q) rest.
Proof.
  destruct (c_ranked_hypotheses
              (process RankingFacts.steady_world RankingFacts.quantum_context))
    as [[|top rest]|] eqn:E; [by vm_compute in E | | by vm_compute in E].
  exists top, rest. split; [done|].
  apply (proj1 (top_hypothesis_is_best RankingFacts.steady_world
                  RankingFacts.quantum_context) top rest); [|exact E].
  eexists. vm_compute. reflexivity.
Defined.



Definition map_step (m : gmap (option string) pydict) (r : pydict)
    : result (gmap (option string) pydict) :=
  k ← reflection_key r;
  Ok (match k with Some k => <[k := r]> m | None => m end).






(** The first hypothesis of the integration script, with its reflection. *)
Definition supremacy : hypothesis :=
  {| h_id := Some "hyp_001";
     h_statement := Some "Quantum computers have achieved quantum supremacy by solving problems no classical computer can solve." |}.

Definition supremacy_reflection : pydict :=
  RankingFacts.reflection_of "hyp_001" 0.8
    ["Google's Sycamore processor completed a task in 200 seconds that would take a classical computer 10,000 years"]
    ["Classical algorithms have been improved to reduce the gap in some cases"].

Definition quantum_query : string :=
  "What are the latest advancements in quantum computing?".

Lemma score_ranges_witness :
  ∃ s, calculate_scores RankingFacts.steady_world supremacy supremacy_reflection
         RankingFacts.quantum_web_data quantum_query = Ok s
       ∧ (0.1 <= evidence s <= 1)%Q
       ∧ (0 <= specificity s <= 0.72)%Q.
Proof.
  destruct (calculate_scores RankingFacts.steady_world supremacy supremacy_reflection
              RankingFacts.quantum_web_data quantum_query) as [s|] eqn:E;
    [|by vm_compute in E].
  exists s. split; [done|].
  destruct (score_ranges RankingFacts.steady_world supremacy supremacy_reflection
              RankingFacts.quantum_web_data quantum_query s E) as (_ & He & _ & Hs & _).
  by split.
Defined.

Lemma overall_score_bounds_witness :
  ∃ r, rank_hypothesis RankingFacts.steady_world RankingFacts.quantum_web_data quantum_query
         supremacy supremacy_reflection = Ok r
       ∧ (0.2 <= overall_score r <= 9.7)%Q.
Proof.
  destruct (rank_hypothesis RankingFacts.steady_world RankingFacts.quantum_web_data
              quantum_query supremacy supremacy_reflection) as [r|] eqn:E;
    [|by vm_compute in E].
  exists r. split; [done|].
  apply (overall_score_bounds RankingFacts.steady_world RankingFacts.quantum_web_data
           quantum_query supremacy supremacy_reflection r E).
  assert ((λ r, coherence (r_scores r))
          <$> rank_hypothesis RankingFacts.steady_world RankingFacts.quantum_web_data
                quantum_query supremacy supremacy_reflection = Ok 0.8%Q) as H
    by (vm_compute; reflexivity).
  rewrite E in H. injection H as ->. split; by apply Qle_bool_iff.
Defined.

End ScoreFacts.

(** ** The stage of the reflection agent *)

Module StageFacts.

Import Text Recovery Reflection PyFacts.
#[local] Open Scope nat_scope.
#[local] Open Scope list_scope.

(** The reflection the loop of [process] computes for a hypothesis. *)
Definition reflection_for (W : world) (web_data : list web_item) (query : string)
    (h : hypothesis) : result pydict :=
  try_except (reflect_with_gemini W h web_data query)
             (λ _, reflect_on_hypothesis W h web_data query).

Lemma reflect_loop_results W web_data query (hypotheses : list hypothesis)
    (acc rs : list pydict) :
  for_each (reflect W web_data query) hypotheses acc = Ok rs →
  ∃ rs', rs = acc ++ rs'
         ∧ Forall2 (λ h r, reflection_for W web_data query h = Ok r) hypotheses rs'.
Proof.
  revert acc. induction hypotheses as [|h hs IH]; intros acc; cbn [for_each].
  - intros [= <-]. exists []. by rewrite app_nil_r.
  - unfold reflect at 1. fold (reflection_for W web_data query h).
    destruct (reflection_for W web_data query h) as [r|] eqn:Hr; simpl; [|done].
    intros (rs' & -> & Hrs)%IH. exists (r :: rs').
    split; [by rewrite <- app_assoc | by constructor].
Qed.

Lemma to_improve_raises (l : list (hypothesis * pydict)) (h : hypothesis) (r : pydict) :
  (h, r) ∈ l → raises (needs_improvement r) → raises (hypotheses_to_improve l).
Proof.
  induction l as [|[h' r'] l IH]; [by intros ?%elem_of_nil|].
  intros [[= <- <-]|Hin]%elem_of_cons Hr; cbn [hypotheses_to_improve].
  - destruct Hr as [e ->]. by exists e.
  - destruct (needs_improvement r') as [b|e]; [|by exists e].
    destruct (IH Hin Hr) as [e ->]. by exists e.
Qed.

(** The answer of the oracle is missing or blank. *)
Definition silent (answer : option string) : Prop :=
  match answer with
  | None => True
  | Some s => strip s = EmptyString
  end.

(** X5: one empty answer of the oracle voids the stage.  When the
    oracle gives no text, or a blank one, for one hypothesis that has a
    statement, the record kept for it has no field [is_coherent]; reading
    it raises after the loop, and every hypothesis of the input, also
    those the oracle answered, gets the default result of a failed
    reflection.  The hypotheses to improve are left as they were. *)
Theorem silent_oracle_voids_stage (W : world) (ctx : context)
    (hypotheses : list hypothesis) (h : hypothesis) :
  c_hypotheses ctx = Some hypotheses →
  h ∈ hypotheses →
  is_Some (h_statement h) →
  (∀ web_data query, c_web_data ctx = Some web_data → c_query ctx = Some query →
     silent (generate_text W h web_data query)) →
  c_reflection_results (process W ctx) = Some (failed_reflection <$> hypotheses)
  ∧ c_hypotheses_to_improve (process W ctx) = c_hypotheses_to_improve ctx.
Proof.
  intros Hhs Hin [st Hst] Hsilent. unfold process.
  assert (c_hypotheses_to_improve (ensure_session W ctx) = c_hypotheses_to_improve ctx
          ∧ c_web_data (ensure_session W ctx) = c_web_data ctx
          ∧ c_query (ensure_session W ctx) = c_query ctx) as (Himp & Hw & Hq)
    by (unfold ensure_session; by destruct (c_session_id ctx)).
  pose proof (ReflectionFacts.process_try_hypotheses W (ensure_session W ctx)) as Hkeep.
  rewrite ReflectionFacts.ensure_session_hypotheses, Hhs in Hkeep.
  assert (∃ ctx' e, process_try W (ensure_session W ctx) = (ctx', Some e)
                    ∧ c_hypotheses_to_improve ctx' = c_hypotheses_to_improve ctx)
    as (ctx' & e & Htry & Hsame).
  { unfold process_try.
    rewrite ReflectionFacts.ensure_session_hypotheses, Hhs, Hw, Hq.
    destruct (c_web_data ctx) as [web_data|] eqn:Ew; [|by eexists _, _].
    destruct (c_query ctx) as [query|] eqn:Eq; [|by eexists _, _].
    destruct (for_each _ hypotheses []) as [rs|] eqn:Hloop; [|by eexists _, _].
    apply reflect_loop_results in Hloop as (rs' & -> & Hrs). simpl.
    apply list_elem_of_lookup in Hin as [i Hi].
    destruct (Forall2_lookup_l _ _ _ _ _ Hrs Hi) as (r & Hr & Hrefl).
    assert (raises (needs_improvement r)) as Hraise.
    { specialize (Hsilent web_data query eq_refl eq_refl).
      unfold reflection_for, reflect_with_gemini in Hrefl. rewrite Hst in Hrefl.
      destruct (generate_text W h web_data query) as [answer|]; simpl in Hsilent.
      - rewrite Hsilent in Hrefl. simpl in Hrefl. injection Hrefl as <-. by eexists.
      - simpl in Hrefl. injection Hrefl as <-. by eexists. }
    destruct (to_improve_raises (zip hypotheses rs') h r) as [e He]; [|done|].
    { apply list_elem_of_lookup. exists i. rewrite lookup_zip_with, Hi. simpl.
      by rewrite Hr. }
    rewrite He. by eexists _, _. }
  rewrite Htry in Hkeep |- *. simpl in *. by rewrite Hkeep.
Qed.

Lemma silent_oracle_voids_stage_witness :
  c_reflection_results (process ReflectionFacts.silent_world ReflectionFacts.test_context)
  = Some (failed_reflection <$> [ReflectionFacts.hyp_rsa; ReflectionFacts.hyp_pqc])
  ∧ c_hypotheses_to_improve (process ReflectionFacts.silent_world ReflectionFacts.test_context)
    = c_hypotheses_to_improve ReflectionFacts.test_context.
Proof.
  apply (silent_oracle_voids_stage ReflectionFacts.silent_world ReflectionFacts.test_context
           [ReflectionFacts.hyp_rsa; ReflectionFacts.hyp_pqc] ReflectionFacts.hyp_rsa).
  - reflexivity.
  - apply list_elem_of_here.
  - by eexists.
  - intros web_data query _ _. exact I.
Defined.


(** A record with the identifier and the six fields of a reflection. *)
Definition complete (r : pydict) : Prop :=
  Forall (λ field, dict_has field r = true) ("hypothesis_id" :: required_fields).

Lemma dict_has_set (k k' : string) (v : json) (d : pydict) :
  dict_has k (dict_set k' v d) = true ↔ k = k' ∨ dict_has k d = true.
Proof.
  unfold dict_has. destruct (decide (k = k')) as [->|Hne].
  - rewrite dict_get_set_eq. split; [by left | done].
  - rewrite dict_get_set_ne by done. split; [by right | by intros [?|?]].
Qed.

Lemma fill_has (fields : list string) (d : pydict) (k : string) :
  dict_has k d = true ∨ k ∈ fields →
  dict_has k (foldl (λ acc field,
                       if dict_has field acc then acc
                       else dict_set field (field_default field) acc) d fields) = true.
Proof.
  revert d. induction fields as [|f fields IH]; intros d; simpl.
  - intros [H|H%elem_of_nil]; done.
  - intros [H|[->|H]%elem_of_cons]; apply IH.
    + left. destruct (dict_has f d); [done|]. apply dict_has_set. by right.
    + left. destruct (dict_has f d) eqn:E; [done|]. apply dict_has_set. by left.
    + by right.
Qed.

Lemma fill_missing_complete (d : pydict) :
  dict_has "hypothesis_id" d = true → complete (fill_missing d).
Proof.
  intros Hid. unfold complete. apply Forall_forall. intros f Hf.
  apply fill_has. apply elem_of_cons in Hf as [->|Hf]; [by left | by right].
Qed.

Lemma listed_complete (r : pydict) :
  forallb (λ field, dict_has field r) ("hypothesis_id" :: required_fields) = true →
  complete r.
Proof.
  intros H. unfold complete. apply Forall_forall. intros f Hf.
  rewrite forallb_forall in H. apply H. by apply list_elem_of_In.
Qed.

Lemma reflection_complete W web_data query h r :
  reflection_for W web_data query h = Ok r →
  complete r ∨ raises (needs_improvement r).
Proof.
  assert (∀ r', reflect_on_hypothesis W h web_data query = Ok r' → complete r') as Hrule.
  { intros r'. unfold reflect_on_hypothesis.
    destruct (scan_evidence W h web_data) as [found|]; simpl; [|done].
    intros [= <-]. by apply listed_complete. }
  unfold reflection_for, reflect_with_gemini.
  destruct (h_statement h); simpl; [|by left; apply Hrule].
  destruct (generate_text W h web_data query) as [response|]; simpl;
    [|intros [= <-]; right; by eexists].
  destruct (String.eqb (strip response) EmptyString); simpl;
    [intros [= <-]; right; by eexists|].
  destruct (json_loads W (clean_json_response response)) as [[| | | | | |d]|]; simpl;
    try (by left; apply Hrule).
  - intros [= <-]. left. apply fill_missing_complete.
    destruct (dict_has "query" _) eqn:E.
    + apply dict_has_set. by left.
    + apply dict_has_set. right. apply dict_has_set. by left.
  - intros [= <-]. left. by apply listed_complete.
Qed.

(** X6: every reflection result the stage leaves in the context holds the
    identifier of a hypothesis and the six fields the later stages read
    ([is_coherent], [coherence_score], [has_supporting_evidence],
    [supporting_facts], [contradictions], [comments]), whether the oracle
    answered an object with fields missing, prose, or nothing, and whether
    the stage completed or failed. *)
Theorem results_are_complete (W : world) (ctx : context) :
  ∃ rs, c_reflection_results (process W ctx) = Some rs ∧ Forall complete rs.
Proof.
  unfold process.
  destruct (process_try W (ensure_session W ctx)) as [ctx' [e|]] eqn:Htry.
  - eexists. split; [done|]. apply Forall_fmap, Forall_forall. intros h _.
    by apply listed_complete.
  - unfold process_try in Htry.
    destruct (c_hypotheses _) as [hypotheses|]; [|done].
    destruct (c_web_data _) as [web_data|]; [|done].
    destruct (c_query _) as [query|]; [|done].
    destruct (for_each _ hypotheses []) as [rs|] eqn:Hloop; [|done].
    destruct (hypotheses_to_improve _) as [ids|] eqn:Hids; [|done].
    injection Htry as <-. simpl. exists rs. split; [done|].
    apply reflect_loop_results in Hloop as (rs' & -> & Hrs). simpl in *.
    apply Forall_forall. intros r Hr.
    apply list_elem_of_lookup in Hr as [i Hi].
    destruct (Forall2_lookup_r _ _ _ _ _ Hrs Hi) as (h & Hh & Hrefl).
    destruct (reflection_complete _ _ _ _ _ Hrefl) as [Hc|Hraise]; [done|].
    destruct (to_improve_raises (zip hypotheses rs') h r) as [e He]; [|done|].
    + apply list_elem_of_lookup. exists i. rewrite lookup_zip_with, Hh. simpl.
      by rewrite Hi.
    + by rewrite He in Hids.
Qed.


Definition well_supported : string := "The hypothesis is well-supported by the web data.".

(** X7: the rule-based reflection keeps at most five supporting facts
    and three contradictions, says that there is supporting evidence
    exactly when it kept a fact, scores the coherence 0.8 or 0.4, and
    always comments: it gives between one and three comments, and the
    comment of a well-supported hypothesis exactly when the statement is
    coherent, a fact was found and no contradiction was.  The hypothesis
    is then marked for improvement exactly when it is not coherent or no
    fact was found. *)
Theorem rule_based_reflection (W : world) (h : hypothesis) (web_data : list web_item)
    (query : string) (r : pydict) :
  reflect_on_hypothesis W h web_data query = Ok r →
  ∃ (facts contradictions : list json) (comments : list string) (coherent : bool),
    dict_get "supporting_facts" r = Some (JArr facts) ∧ length facts ≤ 5
    ∧ dict_get "contradictions" r = Some (JArr contradictions)
    ∧ length contradictions ≤ 3
    ∧ dict_get "is_coherent" r = Some (JBool coherent)
    ∧ dict_get "coherence_score" r = Some (JFloat (if coherent then 0.8 else 0.4))
    ∧ dict_get "has_supporting_evidence" r = Some (JBool (negb (is_nil facts)))
    ∧ dict_get "comments" r = Some (json_strings comments)
    ∧ 1 ≤ length comments ≤ 3
    ∧ (well_supported ∈ comments
       ↔ coherent = true ∧ facts ≠ [] ∧ contradictions = [])
    ∧ needs_improvement r = Ok (negb coherent || is_nil facts).
Proof.
  unfold reflect_on_hypothesis.
  destruct (scan_evidence W h web_data) as [[found_facts found_contradictions]|];
    simpl; [|done].
  intros [= <-].
  exists (take 5 found_facts), (take 3 found_contradictions).
  eexists _, (check_coherence (default EmptyString (h_statement h))).
  split; [reflexivity|]. split; [rewrite length_take; lia|].
  split; [reflexivity|]. split; [rewrite length_take; lia|].
  split; [reflexivity|]. split; [reflexivity|]. split; [reflexivity|].
  split; [reflexivity|].
  destruct (check_coherence _), (take 5 found_facts) as [|f fs],
    (take 3 found_contradictions) as [|c cs]; cbn;
    (split; [lia|]); (split; [|done]); unfold well_supported;
    rewrite ?elem_of_cons, ?elem_of_nil; intuition (try done; try congruence).
Qed.

Lemma rule_based_reflection_witness :
  ∃ r (comments : list string),
    reflect_on_hypothesis ReflectionFacts.silent_world ReflectionFacts.hyp_rsa [] "q" = Ok r
    ∧ dict_get "comments" r = Some (json_strings comments)
    ∧ 1 ≤ length comments ≤ 3
    ∧ needs_improvement r = Ok true.
Proof.
  destruct (reflect_on_hypothesis ReflectionFacts.silent_world ReflectionFacts.hyp_rsa [] "q")
    as [r|] eqn:E; [|by vm_compute in E].
  destruct (rule_based_reflection ReflectionFacts.silent_world ReflectionFacts.hyp_rsa
              [] "q" r E)
    as (facts & contradictions & comments & coherent & Hf & _ & _ & _ & _ & _ & _
        & Hc & Hn & _ & Himp).
  exists r, comments. split; [done|]. split; [done|]. split; [done|].
  rewrite Himp. f_equal.
  assert (dict_get "supporting_facts" r = Some (JArr [])) as Hnone.
  { injection E as <-. reflexivity. }
  rewrite Hf in Hnone. injection Hnone as ->. by destruct coherent.
Defined.

End StageFacts.

(** ** The stage of the evolution agent *)

Module EvolutionStageFacts.

Import Text Evolution EvolutionStage PyFacts.
#[local] Open Scope nat_scope.
#[local] Open Scope list_scope.

(** The hypothesis is selected and has a reflection that is not empty:
    [evolve] replaces it. *)
Definition is_evolved (to_evolve : list string) (m : gmap string pydict)
    (h : hypothesis) : bool :=
  match m !! id h with
  | Some (_ :: _) => bool_decide (id h ∈ to_evolve)
  | _ => false
  end.

(** The body of the loop of [evolve]. *)
Definition evolve_step (W : Evolution.world) (to_evolve : list string)
    (m : gmap string pydict) (query : string) (cycle : Z) (h : hypothesis)
    : result (hypothesis * option detail) :=
  match m !! id h with
  | None | Some [] => Ok (h, None)
  | Some reflection =>
      if bool_decide (id h ∈ to_evolve)
      then '(evolved, d) ← evolve_one W h reflection query cycle;
           Ok (evolved, Some d)
      else Ok (h, None)
  end.

Lemma evolve_step_spec W to_evolve m query cycle h e od :
  evolve_step W to_evolve m query cycle h = Ok (e, od) →
  if is_evolved to_evolve m h
  then ∃ d, od = Some d ∧ original_id d = id h
  else e = h ∧ od = None.
Proof.
  unfold evolve_step, is_evolved.
  destruct (m !! id h) as [[|kv reflection]|]; try by intros [= <- <-].
  destruct (bool_decide (id h ∈ to_evolve)); [|by intros [= <- <-]].
  destruct (evolve_one W h (kv :: reflection) query cycle) as [[e' d]|] eqn:Hone;
    simpl; [|done].
  intros [= <- <-]. exists d. split; [done|].
  by apply EvolutionFacts.evolve_one_spec in Hone as (_ & Ho & _).
Qed.

(** X8: [evolve] loses nothing and invents nothing.  Its output has one
    record for each ranked hypothesis, in the order of the ranking; a
    hypothesis that is not selected, or has no reflection, is passed on
    as it is; and the details name, in order, the hypotheses that are
    selected and have a reflection, one detail for each. *)
Theorem evolve_passes_on (W : Evolution.world) (ranked_hypotheses : list hypothesis)
    (to_evolve : list string) (m : gmap string pydict) (query : string) (cycle : Z)
    (hs : list hypothesis) (ds : list detail) :
  evolve W ranked_hypotheses to_evolve m query cycle = Ok (hs, ds) →
  length hs = length ranked_hypotheses
  ∧ (∀ i h, ranked_hypotheses !! i = Some h → is_evolved to_evolve m h = false →
            hs !! i = Some h)
  ∧ original_id <$> ds
    = id <$> filter (λ h, is_evolved to_evolve m h = true) ranked_hypotheses.
Proof.
  revert hs ds. induction ranked_hypotheses as [|h rest IH]; intros hs ds; cbn [evolve].
  - intros [= <- <-]. split; [done|]. split; [|done].
    intros i h Hi. by rewrite lookup_nil in Hi.
  - fold (evolve_step W to_evolve m query cycle h).
    destruct (evolve_step W to_evolve m query cycle h) as [[e od]|] eqn:Hstep; [|done].
    cbn [mbind result_bind Py.bind].
    destruct (evolve W rest to_evolve m query cycle) as [[hs' ds']|]; [|done].
    destruct (IH hs' ds' eq_refl) as (IH1 & IH2 & IH3).
    cbn [mbind result_bind Py.bind fst snd]. intros [= <- <-].
    apply evolve_step_spec in Hstep.
    rewrite filter_cons.
    destruct (is_evolved to_evolve m h) eqn:Hev.
    + destruct Hstep as (d & -> & Ho). rewrite decide_True by done.
      split; [simpl; lia|]. split; [|by rewrite !fmap_cons, Ho, IH3].
      intros [|i] h'; simpl; [|apply IH2]. intros [= <-]. by rewrite Hev.
    + destruct Hstep as [-> ->]. rewrite decide_False by done.
      split; [simpl; lia|]. split; [|done].
      intros [|i] h'; simpl; [by intros [= <-] | apply IH2].
Qed.

Lemma evolve_passes_on_witness :
  ∃ hs ds,
    evolve EvolutionFacts.quiet_world [EvolutionFacts.hyp_001; EvolutionFacts.hyp_002]
      ["hyp_002"] EvolutionFacts.test_reflections "future of computing" 1 = Ok (hs, ds)
    ∧ length hs = 2
    ∧ hs !! 0 = Some EvolutionFacts.hyp_001
    ∧ original_id <$> ds = ["hyp_002"].
Proof.
  destruct (evolve EvolutionFacts.quiet_world
              [EvolutionFacts.hyp_001; EvolutionFacts.hyp_002]
              ["hyp_002"] EvolutionFacts.test_reflections "future of computing" 1)
    as [[hs ds]|] eqn:E; [|by vm_compute in E].
  exists hs, ds. split; [done|].
  destruct (evolve_passes_on _ _ _ _ _ _ hs ds E) as (Hlen & Hpass & Hds).
  split; [done|]. split; [by apply Hpass|]. rewrite Hds. by vm_compute.
Defined.








Definition map_step (m : gmap string pydict) (r : pydict) : result (gmap string pydict) :=
  k ← reflection_key r;
  Ok (match k with Some k => <[k := r]> m | None => m end).




(** The reflections of the test cycle of the repository, as the context
    holds them, and its context with a query of blanks. *)
Definition test_reflection_results : list pydict :=
  [ [("hypothesis_id", JStr "hyp_001"); ("is_coherent", JBool true);
     ("has_supporting_evidence", JBool false); ("contradictions", JBool false)];
    [("hypothesis_id", JStr "hyp_002"); ("is_coherent", JBool false);
     ("has_supporting_evidence", JBool true); ("contradictions", JBool true)] ].

Definition test_cycle (query : string) : context :=
  {| c_query := Some query;
     c_ranked_hypotheses := Some [EvolutionFacts.hyp_001; EvolutionFacts.hyp_002];
     c_reflection_results := Some test_reflection_results;
     c_cycle := Some 1%Z;
     c_session_id := Some "test_session";
     c_evolved_hypotheses := None;
     c_evolution_details := None |}.

Definition test_world : world :=
  {| outside := EvolutionFacts.quiet_world; validate_context := λ _, (true, EmptyString) |}.


Lemma evolve_length W (ranked_hypotheses : list hypothesis) to_evolve m query cycle hs ds :
  evolve W ranked_hypotheses to_evolve m query cycle = Ok (hs, ds) →
  length hs = length ranked_hypotheses.
Proof.
  intros [H _]%EvolutionFacts.evolve_pointwise. symmetry. by eapply Forall2_length.
Qed.

(** X10: the stage keeps every hypothesis.  When the context holds a
    ranking and no evolved hypotheses yet, it holds after the stage as
    many evolved hypotheses as ranked ones, whether the evolution
    completed or raised; when it raised they are the ranked hypotheses
    themselves.  Evolved hypotheses that the context held before survive
    a failure of the stage as they were. *)
Theorem stage_keeps_every_hypothesis (W : world) (ctx : context)
    (ranked_hypotheses : list hypothesis) :
  c_ranked_hypotheses ctx = Some ranked_hypotheses →
  (c_evolved_hypotheses ctx = None →
     ∃ hs, c_evolved_hypotheses (process W ctx) = Some hs
           ∧ length hs = length ranked_hypotheses
           ∧ (raises (process_try W ctx) → hs = ranked_hypotheses))
  ∧ (∀ earlier, c_evolved_hypotheses ctx = Some earlier → raises (process_try W ctx) →
       c_evolved_hypotheses (process W ctx) = Some earlier).
Proof.
  intros Hranked. unfold process. split.
  - intros Hnone. destruct (process_try W ctx) as [[hs ds]|e] eqn:Htry.
    + exists hs. split; [done|]. split; [|by intros [? ?]].
      unfold process_try in Htry.
      destruct (validate_context W ctx).1; [|done]. rewrite Hranked in Htry.
      cbn [negb item mbind result_bind Py.bind] in Htry.
      destruct (c_reflection_results ctx); [|done].
      destruct (c_query ctx); [|done].
      destruct (c_cycle ctx); [|done].
      destruct (c_session_id ctx); [|done].
      cbn [item mbind result_bind Py.bind] in Htry.
      destruct (reflection_map _); [|done].
      cbn [mbind result_bind Py.bind] in Htry. by eapply evolve_length.
    + rewrite Hnone, Hranked. by exists ranked_hypotheses.
  - intros earlier Hearlier [e ->]. by rewrite Hearlier.
Qed.

Lemma stage_keeps_every_hypothesis_witness :
  ∃ hs, c_evolved_hypotheses (process test_world (test_cycle "future of computing"))
        = Some hs
        ∧ length hs = 2.
Proof.
  destruct (proj1 (stage_keeps_every_hypothesis test_world
                     (test_cycle "future of computing")
                     [EvolutionFacts.hyp_001; EvolutionFacts.hyp_002] eq_refl) eq_refl)
    as (hs & Hhs & Hlen & _).
  by exists hs.
Defined.

End EvolutionStageFacts.

(** ** The bottlenecks of a cycle *)

Module CycleFacts.

Import MetaReview PyFacts MetaReviewFacts.
#[local] Open Scope nat_scope.
#[local] Open Scope list_scope.

(** What the analysis computes when the times are finite and not
    negative. *)
Lemma analysis_shape (float_other : string → option pyfloat)
    (cycle_data agent_outputs : pydict) :
  dict_get "agent_outputs" cycle_data = Some (JObj agent_outputs) →
  dict_wf agent_outputs →
  (∀ entry t, entry ∈ agent_outputs → execution_time float_other entry.2 = Some t →
              ∃ q, t = Fin q ∧ (0 <= q)%Q) →
  ∃ qs : list (string * Q),
    Forall (λ q, (0 <= q)%Q) qs.*2
    ∧ bottlenecks (analyze_cycle_performance float_other cycle_data)
      = if qlt 0 (qsum qs.*2)
        then bottleneck_entry (Fin (qsum qs.*2))
             <$> filter (λ entry, is_bottleneck (Fin (qsum qs.*2)) entry.2 = true)
                        (finite_times qs)
        else [].
Proof.
  intros Hget Hwf Hfin.
  destruct (timed_finite float_other agent_outputs Hfin) as (qs & Hqs & Hpos).
  exists qs. split; [done|]. unfold analyze_cycle_performance. rewrite Hget.
  cbn [default from_option id].
  destruct (record_agents float_other agent_outputs empty_metrics) as (Ht & Htot & Hb);
    [done|].
  change (agent_times empty_metrics) with (@nil (string * pyfloat)) in Ht.
  change (total_cycle_time empty_metrics) with (Fin 0) in Htot.
  change (bottlenecks empty_metrics) with (@nil bottleneck) in Hb.
  rewrite app_nil_l in Ht. rewrite Hqs in Ht, Htot. rewrite add_finite in Htot.
  fold (qsum qs.*2) in Htot.
  set (pm0 := foldl (record_agent float_other) empty_metrics agent_outputs) in *.
  rewrite Htot, float_lt_fin.
  destruct (qlt 0 (qsum qs.*2)); cbn; [by rewrite Ht | done].
Qed.

Lemma qsum_from (a : Q) (l : list Q) : (foldl Qplus a l == a + qsum l)%Q.
Proof.
  unfold qsum. revert a. induction l as [|x l IH]; intros a; simpl; [lra|].
  rewrite (IH (a + x)%Q), (IH (0 + x)%Q). lra.
Qed.

Lemma qsum_cons (x : Q) (l : list Q) : (qsum (x :: l) == x + qsum l)%Q.
Proof. unfold qsum at 1. simpl. rewrite qsum_from. lra. Qed.

(** The values above a threshold weigh more than their number times the
    threshold. *)
Lemma heavy_weight (c : Q) (l : list Q) :
  (0 <= c)%Q → Forall (λ q, (0 <= q)%Q) l →
  (qnat (length (filter (λ q, qlt c q = true) l)) * c <= qsum l)%Q
  ∧ (0 < length (filter (λ q, qlt c q = true) l) →
     (qnat (length (filter (λ q, qlt c q = true) l)) * c < qsum l)%Q).
Proof.
  intros Hc. induction 1 as [|x l Hx Hl IH].
  - rewrite filter_nil. cbn [length]. change (qnat 0) with 0%Q. change (qsum []) with 0%Q.
    split; [lra | lia].
  - destruct IH as (IH1 & IH2). rewrite filter_cons, qsum_cons.
    destruct (decide (qlt c x = true)) as [Hlt|Hge].
    + apply qlt_spec in Hlt. cbn [length]. rewrite ScoreFacts.qnat_S.
      split; [lra | intros _; lra].
    + split; [lra|]. intros Hn. specialize (IH2 Hn). lra.
Qed.

Lemma heavy_count (l : list Q) :
  Forall (λ q, (0 <= q)%Q) l → (0 < qsum l)%Q →
  length (filter (λ q, qlt (0.25 * qsum l) q = true) l) ≤ 3.
Proof.
  intros Hl Hpos.
  destruct (heavy_weight (0.25 * qsum l) l) as [_ Hstrict]; [lra | done |].
  destruct (decide (length (filter (λ q, qlt (0.25 * qsum l) q = true) l) ≤ 3))
    as [|Hmany]; [done|].
  exfalso. assert (4 ≤ length (filter (λ q, qlt (0.25 * qsum l) q = true) l)) as H4 by lia.
  specialize (Hstrict ltac:(lia)). apply ScoreFacts.qnat_le in H4.
  change (qnat 4) with 4%Q in H4. nra.
Qed.

Lemma heavy_entries (T : Q) (qs : list (string * Q)) :
  length (filter (λ entry : string * pyfloat, is_bottleneck (Fin T) entry.2 = true)
                 (finite_times qs))
  = length (filter (λ q, qlt (0.25 * T) q = true) qs.*2).
Proof.
  induction qs as [|[name q] qs IH]; [done|].
  cbn [finite_times fmap list_fmap fst snd]. rewrite !filter_cons. cbn [fst snd].
  change (is_bottleneck (Fin T) (Fin q)) with (qlt (0.25 * T) q).
  destruct (decide (qlt (0.25 * T) q = true)); cbn [length]; unfold finite_times in IH;
    by rewrite IH.
Qed.

(** X11: whatever the agents and their times, finite and not negative,
    the analysis reports at most three bottlenecks, and the percentage of
    each lies above 25 and at most at 100: four agents cannot each take
    more than a quarter of the total. *)
Theorem at_most_three_bottlenecks (float_other : string → option pyfloat)
    (cycle_data agent_outputs : pydict) :
  dict_get "agent_outputs" cycle_data = Some (JObj agent_outputs) →
  dict_wf agent_outputs →
  (∀ entry t, entry ∈ agent_outputs → execution_time float_other entry.2 = Some t →
              ∃ q, t = Fin q ∧ (0 <= q)%Q) →
  length (bottlenecks (analyze_cycle_performance float_other cycle_data)) ≤ 3
  ∧ Forall (λ b, ∃ p, percentage b = Fin p ∧ (25 < p <= 100)%Q)
           (bottlenecks (analyze_cycle_performance float_other cycle_data)).
Proof.
  intros Hget Hwf Hfin.
  destruct (analysis_shape float_other cycle_data agent_outputs Hget Hwf Hfin)
    as (qs & Hpos & ->).
  destruct (qlt 0 (qsum qs.*2)) eqn:Htotal; [|split; [simpl; lia | constructor]].
  apply qlt_spec in Htotal. split.
  - rewrite length_fmap, heavy_entries. by apply heavy_count.
  - apply Forall_fmap, Forall_forall. intros [name t] [Hheavy Hin]%list_elem_of_filter.
    apply list_elem_of_fmap in Hin as ([name' q] & [= -> ->] & Hq).
    cbn in Hheavy. apply qlt_spec in Hheavy.
    exists (q / qsum qs.*2 * 100)%Q. split; [done|].
    assert (q <= qsum qs.*2)%Q as Hle.
    { destruct (sum_bounds qs.*2 0%Q Hpos) as [_ Hsum]. fold (qsum qs.*2) in Hsum.
      specialize (Hsum q). rewrite Qplus_0_l in Hsum. apply Hsum.
      apply list_elem_of_fmap. by exists (name', q). }
    assert (0.25 < q / qsum qs.*2)%Q by (apply Qlt_shift_div_l; [done | lra]).
    assert (q / qsum qs.*2 <= 1)%Q by (apply Qle_shift_div_r; [done | lra]).
    lra.
Qed.

Lemma at_most_three_bottlenecks_witness :
  length (bottlenecks (analyze_cycle_performance (λ _, None) test_cycle_data)) ≤ 3.
Proof.
  apply (at_most_three_bottlenecks (λ _, None) test_cycle_data test_outputs).
  - reflexivity.
  - unfold dict_wf. apply (bool_decide_unpack _). vm_compute. reflexivity.
  - intros entry t Hin Ht.
    apply elem_of_cons in Hin as [-> | Hin].
    + injection Ht as <-. exists 2.5%Q. split; [reflexivity | done].
    + apply elem_of_cons in Hin as [-> | Hin]; [|by apply elem_of_nil in Hin].
      injection Ht as <-. exists 1.2%Q. split; [reflexivity | done].
Defined.

End CycleFacts.

(** ** The insights of the oracle *)

Module InsightsFacts.

Import Text Recovery Insights PyFacts.
#[local] Open Scope nat_scope.
#[local] Open Scope list_scope.

(** The character occurs nowhere in the text. *)
Definition free_of (c : ascii) (s : string) : Prop :=
  all_chars (λ x, negb (Ascii.eqb x c)) s = true.

Lemma append_cons (c : ascii) (a b : string) : String c a +:+ b = String c (a +:+ b).
Proof. done. Qed.

Lemma append_nil (b : string) : EmptyString +:+ b = b.
Proof. done. Qed.

Lemma append_assoc (a b c : string) : (a +:+ b) +:+ c = a +:+ (b +:+ c).
Proof. induction a as [|x a IH]; [done|]. by rewrite !append_cons, IH. Qed.

Lemma split_at_first_brace (pre rest : string) :
  free_of "{" pre →
  split_at "{" (pre +:+ String "{" rest) = Some (pre, rest).
Proof.
  unfold free_of. induction pre as [|c pre IH]; [done|]. cbn [all_chars].
  intros [Hc Hpre]%andb_prop. rewrite append_cons. cbn [split_at startswith].
  rewrite Ascii.eqb_sym. apply negb_true_iff in Hc. rewrite Hc. cbn [andb].
  by rewrite IH.
Qed.

Lemma no_last_brace (post : string) : free_of "}" post → upto_last_brace post = None.
Proof.
  unfold free_of. induction post as [|c post IH]; [done|]. cbn [all_chars].
  intros [Hc Hpost]%andb_prop. cbn [upto_last_brace]. rewrite IH by done.
  apply negb_true_iff in Hc. by rewrite Hc.
Qed.

Lemma upto_last_brace_closing (inner post : string) :
  free_of "}" post →
  upto_last_brace (inner +:+ String "}" post) = Some (inner +:+ "}").
Proof.
  intros Hpost. induction inner as [|c inner IH].
  - rewrite append_nil. cbn [upto_last_brace]. by rewrite no_last_brace.
  - rewrite !append_cons. cbn [upto_last_brace]. by rewrite IH.
Qed.

Lemma lstrip_backticks_open (x : string) :
  lstrip_backticks (String "{" x) = String "{" x.
Proof. done. Qed.

Lemma rstrip_backticks_closed (x : string) :
  rstrip_backticks (x +:+ "}") = x +:+ "}".
Proof.
  induction x as [|c x IH]; [done|]. rewrite append_cons. cbn [rstrip_backticks].
  rewrite IH. by destruct x.
Qed.

Lemma replace_absent (c : ascii) (r s : string) :
  free_of c s → replace (String c EmptyString) r s = s.
Proof.
  unfold free_of, replace. induction s as [|x s IH]; [done|]. cbn [all_chars].
  intros [Hx Hs]%andb_prop. cbn [replace_from startswith].
  rewrite Ascii.eqb_sym. apply negb_true_iff in Hx. rewrite Hx. cbn [andb].
  by rewrite IH.
Qed.

(** X12: an object in the answer of the oracle comes back decoded.
    When the answer holds, between its first opening brace and its last
    closing brace, a text without backslash that decodes to an object
    with the keys [insights], [recommendations] and [bottlenecks], the
    result is that object, whatever surrounds the braces (a code fence,
    a sentence). *)
Theorem object_comes_back (pre inner post : string) (d : pydict) :
  free_of "{" pre →
  free_of "}" post →
  free_of bslash ("{" +:+ inner +:+ "}") →
  Json.loads ("{" +:+ inner +:+ "}") = Some (JObj d) →
  dict_has "insights" d && dict_has "recommendations" d && dict_has "bottlenecks" d = true →
  parse_llm_response (Some (pre +:+ ("{" +:+ inner +:+ "}") +:+ post)) = JObj d.
Proof.
  intros Hpre Hpost Hfree Hloads Hkeys.
  apply andb_prop in Hkeys as [[Hi Hr]%andb_prop Hb].
  assert (pre +:+ ("{" +:+ inner +:+ "}") +:+ post
          = pre +:+ String "{" (inner +:+ String "}" post)) as ->.
  { f_equal. rewrite !append_cons, !append_nil. f_equal. apply append_assoc. }
  unfold parse_llm_response.
  assert (String.eqb (pre +:+ String "{" (inner +:+ String "}" post)) EmptyString = false)
    as -> by (by destruct pre).
  unfold braces_slice. rewrite split_at_first_brace by done.
  rewrite upto_last_brace_closing by done.
  rewrite (append_cons "{" EmptyString), append_nil in Hfree, Hloads |- *.
  unfold parse_braces, strip_backticks. rewrite lstrip_backticks_open.
  rewrite <- (append_cons "{" inner "}"), rstrip_backticks_closed, append_cons.
  unfold backslash at 1. rewrite replace_absent by done. rewrite Hloads.
  cbn [has_all required_keys py_in mbind result_bind Py.bind].
  by rewrite Hi, Hr, Hb.
Qed.

(** An answer in a code fence. *)
Definition fenced_inner : string :=
  quoted "'insights': ['The search dominates the cycle'], 'recommendations': ['Cache the search results'], 'bottlenecks': ['generation_agent']".

Lemma object_comes_back_witness :
  parse_llm_response
    (Some ((fence +:+ "json" +:+ newline) +:+ ("{" +:+ fenced_inner +:+ "}")
           +:+ (newline +:+ fence)))
  = JObj [ ("insights", JArr [JStr "The search dominates the cycle"]);
           ("recommendations", JArr [JStr "Cache the search results"]);
           ("bottlenecks", JArr [JStr "generation_agent"]) ].
Proof.
  apply (object_comes_back (fence +:+ "json" +:+ newline) fenced_inner (newline +:+ fence));
    vm_compute; reflexivity.
Defined.

Lemma or_default_nonempty (l : list string) (placeholder : string) :
  or_default l placeholder ≠ [].
Proof. by destruct l. Qed.

Lemma parse_lines_lists (response : string) :
  ∃ i r b, parse_lines response = insights_of i r b ∧ i ≠ [] ∧ r ≠ [] ∧ b ≠ [].
Proof.
  unfold parse_lines. destruct (_ && _).
  - by eexists _, _, _.
  - eexists _, _, _. split; [done|]. split_and!; apply or_default_nonempty.
Qed.

(** X13: an answer that is not JSON still gives the three lists.  When
    the oracle failed, or the text between the braces of its answer does
    not decode (or there are no braces), the result has the keys
    [insights], [recommendations] and [bottlenecks], each with a list of
    texts that is not empty: the items of the bulleted lines under each
    heading, a placeholder where a section has none, or the default
    result where there is no item at all. *)
Theorem lines_give_three_lists (llm_response : option string) :
  (∀ response json_str, llm_response = Some response →
     braces_slice response = Some json_str → parse_braces json_str = Ok None) →
  ∃ i r b, parse_llm_response llm_response = insights_of i r b
           ∧ i ≠ [] ∧ r ≠ [] ∧ b ≠ [].
Proof.
  intros Hplain. unfold parse_llm_response.
  destruct llm_response as [response|]; [|by eexists _, _, _].
  destruct (String.eqb response EmptyString); [by eexists _, _, _|].
  destruct (braces_slice response) as [json_str|] eqn:Hslice.
  - rewrite (Hplain response json_str eq_refl Hslice). cbn. apply parse_lines_lists.
  - cbn. apply parse_lines_lists.
Qed.

Definition bulleted_answer : string :=
  "Insights:" +:+ newline +:+ "- The cycle was slow" +:+ newline
  +:+ "Recommendations:" +:+ newline +:+ "* Cache the search results".

Lemma lines_give_three_lists_witness :
  parse_llm_response (Some bulleted_answer)
  = insights_of ["The cycle was slow"] ["Cache the search results"]
                ["No bottlenecks identified"]
  ∧ ∃ i r b, parse_llm_response (Some bulleted_answer) = insights_of i r b
             ∧ i ≠ [] ∧ r ≠ [] ∧ b ≠ [].
Proof.
  split; [vm_compute; reflexivity|].
  apply (lines_give_three_lists (Some bulleted_answer)).
  intros response json_str [= <-] Hslice. by vm_compute in Hslice.
Defined.

End InsightsFacts.

(** ** The final review *)

Module ProximityFacts.

Import Proximity PyFacts.
#[local] Open Scope nat_scope.
#[local] Open Scope list_scope.

(** The inner loop of the model is the lookup of the key [item]. *)
Lemma evaluate_nested (float_other : string → option pyfloat) (d : pydict) :
  evaluate_proximity_score float_other (JObj d)
  = match first_score float_other possible_keys d with
    | Some score => score
    | None =>
        match dict_get "item" d with
        | Some (JObj inner) => evaluate_proximity_score float_other (JObj inner)
        | _ => Fin 0
        end
    end.
Proof.
  cbn [evaluate_proximity_score].
  destruct (first_score float_other possible_keys d); [done|].
  induction d as [|[k x] d IH]; [done|]. cbn [dict_get].
  destruct (String.eqb "item" k); [by destruct x | done].
Qed.

(** X14: the final review answers every proximity result.  For a
    [dict] of data the list of results is never empty: it has one entry
    for each element of [proximity_results], in order, which carries the
    element and its score when the element is a [dict] and the default
    entry otherwise, and it is the two default entries when there is no
    element.  The score of an element is the number under its key
    [proximity_score], whatever its other keys hold, and an element
    without a score has the score of the [dict] under its key [item]. *)
Theorem review_answers_every_result (float_other : string → option pyfloat)
    (post : list review_entry → option string) (d : pydict) :
  let rs := meta_review_results (review float_other post (JObj d)) in
  rs ≠ []
  ∧ (∀ l, dict_get "proximity_results" d = Some (JArr l) → l ≠ [] →
       rs = review_item float_other <$> l
       ∧ ∀ i x, l !! i = Some x →
           rs !! i
           = Some (match x with
                   | JObj _ =>
                       {| item := x;
                          review_score := evaluate_proximity_score float_other x |}
                   | _ => default_entry
                   end))
  ∧ ((∀ l, dict_get "proximity_results" d = Some (JArr l) → l = []) →
     rs = [default_entry; default_entry])
  ∧ (∀ e q, dict_get "proximity_score" e = Some (JFloat q) →
       evaluate_proximity_score float_other (JObj e) = Fin q)
  ∧ (∀ e inner, first_score float_other possible_keys e = None →
       dict_get "item" e = Some (JObj inner) →
       evaluate_proximity_score float_other (JObj e)
       = evaluate_proximity_score float_other (JObj inner)).
Proof.
  cbn zeta. cbn [review meta_review_results]. split_and!.
  - destruct (dict_get "proximity_results" d) as [[| | | | |[|x l]|]|]; done.
  - intros l -> Hl.
    assert (match review_item float_other <$> l with
            | [] => [default_entry; default_entry]
            | _ => review_item float_other <$> l
            end = review_item float_other <$> l) as ->
      by (by destruct l).
    split; [done|].
    intros i y Hi. rewrite list_lookup_fmap, Hi. by destruct y.
  - intros Hnone. destruct (dict_get "proximity_results" d) as [[| | | | |l|]|]; try done.
    by rewrite (Hnone l eq_refl).
  - intros e q He. rewrite evaluate_nested. cbn [first_score possible_keys].
    by rewrite He.
  - intros e inner Hnone Hitem. by rewrite evaluate_nested, Hnone, Hitem.
Qed.

(** The data of the integration script. *)
Definition test_review_data : pydict :=
  [ ("proximity_results",
     JArr [ JObj [("item", JArr [JStr "concept_1"; JStr "concept_2"]);
                  ("proximity_score", JFloat 0.85)];
            JObj [("item", JArr [JStr "concept_3"; JStr "concept_4"]);
                  ("proximity_score", JFloat 0.72)] ]) ].

Lemma review_answers_every_result_witness :
  review_score
  <$> meta_review_results (review (λ _, None) (λ _, None) (JObj test_review_data))
  = [Fin 0.85; Fin 0.72].
Proof.
  destruct (review_answers_every_result (λ _, None) (λ _, None) test_review_data)
    as (_ & Hl & _).
  destruct (Hl _ eq_refl) as [-> _]; [done|]. reflexivity.
Defined.

End ProximityFacts.

(** ** The improvement of the hypothesis *)

Module ImprovementFacts.

Import Improvement.
#[local] Open Scope list_scope.
#[local] Open Scope Q_scope.

Lemma compare_with_count (float_other : string → option pyfloat)
    (hi : hypothesis_improvement) (current : pyfloat) (ch ph : pydict) (cycles : nat) :
  let r := compare_with float_other hi current ch ph cycles in
  current_score r = current_score hi
  ∧ (refinement_count r = refinement_count hi ∨ refinement_count r = (cycles + 1)%nat)
  ∧ (-100 <= complexity_increase hi → -100 <= complexity_increase r).
Proof.
  cbn zeta. unfold compare_with.
  destruct (score_of float_other ph) as [previous|]; [|by auto].
  destruct (Ranking.py_len (text_of ph)) as [lp|]; [|by auto].
  destruct (0 <? lp)%nat eqn:Hlp; [|by auto].
  destruct (Ranking.py_len (text_of ch)) as [lc|]; [|by auto].
  cbn. split_and!; [done | by right |]. intros _.
  apply Nat.ltb_lt in Hlp.
  assert (0 < inject_Z (Z.of_nat lp)) as Hpos by (unfold Qlt; cbn; lia).
  assert (-1 <= inject_Z (Z.of_nat lc - Z.of_nat lp) / inject_Z (Z.of_nat lp)) as Hq.
  { apply Qle_shift_div_l; [done|]. unfold Qle; cbn. lia. }
  lra.
Qed.

Lemma first_cycle_shape (float_other : string → option pyfloat) (ch : pydict) :
  let hi := match score_of float_other ch with
            | Ok score =>
                ({| current_score := score; previous_score := Fin 0; score_delta := Fin 0;
                    complexity_increase := 0; refinement_count := 0;
                    improvement_percentage := Fin 0 |}, score)
            | Raise _ => (no_improvement, Fin 0)
            end in
  previous_score hi.1 = Fin 0 ∧ score_delta hi.1 = Fin 0
  ∧ improvement_percentage hi.1 = Fin 0 ∧ complexity_increase hi.1 = 0
  ∧ refinement_count hi.1 = 0%nat.
Proof. cbn zeta. by destruct (score_of float_other ch). Qed.

(** The data of two cycles: the hypothesis went from 0.6 to 0.9 and its
    text from four characters to six. *)
Definition test_cycle_data : pydict :=
  [("hypothesis", JObj [("text", JStr "abcdef"); ("score", JFloat 0.9)])].

Definition test_previous_cycle : pydict :=
  [("hypothesis", JObj [("text", JStr "abcd"); ("score", JFloat 0.6)])].

(** X15: the improvement of the hypothesis is measured against the
    last earlier cycle only.  The refinement count is 0 or the number of
    earlier cycles plus one, and the complexity increase is never below
    -100 percent.  Without an earlier cycle everything but the current
    score is 0.  Earlier cycles other than the last one count, but their
    content does not matter.  When both hypotheses have a number for
    their score and a text, the delta is the difference of the scores,
    the percentage is the delta relative to a positive previous score
    (and 0 otherwise), so that it has the sign of the delta, the
    complexity increase is the relative growth of the text in percent
    (0 for an empty previous text), and the refinement count is the
    number of earlier cycles plus one. *)
Theorem improvement_against_last_cycle (float_other : string → option pyfloat)
    (cycle_data : pydict) (previous_cycles : list json) :
  let r := measure_hypothesis_improvement float_other cycle_data previous_cycles in
  (refinement_count r = 0%nat ∨ refinement_count r = (length previous_cycles + 1)%nat)
  ∧ -100 <= complexity_increase r
  ∧ (previous_cycles = [] →
     previous_score r = Fin 0 ∧ score_delta r = Fin 0 ∧ improvement_percentage r = Fin 0
     ∧ complexity_increase r = 0 ∧ refinement_count r = 0%nat)
  ∧ (∀ earlier earlier' last_cycle,
       previous_cycles = earlier ++ [last_cycle] → length earlier' = length earlier →
       measure_hypothesis_improvement float_other cycle_data (earlier' ++ [last_cycle]) = r)
  ∧ (∀ earlier pc ch ph c p s t,
       previous_cycles = earlier ++ [JObj pc] →
       dict_get "hypothesis" cycle_data = Some (JObj ch) →
       dict_get "hypothesis" pc = Some (JObj ph) →
       dict_get "score" ch = Some (JFloat c) → dict_get "text" ch = Some (JStr s) →
       dict_get "score" ph = Some (JFloat p) → dict_get "text" ph = Some (JStr t) →
       current_score r = Fin c ∧ previous_score r = Fin p
       ∧ (∃ d, score_delta r = Fin d ∧ d == c - p)
       ∧ (∃ q, improvement_percentage r = Fin q
            ∧ (0 < p → q == (c - p) / p * 100 ∧ (0 < q ↔ p < c))
            ∧ (p <= 0 → q == 0))
       ∧ (t ≠ EmptyString →
          complexity_increase r
          == (inject_Z (Z.of_nat (String.length s)) - inject_Z (Z.of_nat (String.length t)))
             / inject_Z (Z.of_nat (String.length t)) * 100)
       ∧ (t = EmptyString → complexity_increase r == 0)
       ∧ refinement_count r = (length earlier + 2)%nat).
Proof.
  cbn zeta. unfold measure_hypothesis_improvement. split_and!.
  - destruct (default (JObj []) (dict_get "hypothesis" cycle_data)) as [| | | | | |ch];
      try by left.
    pose proof (first_cycle_shape float_other ch) as Hfirst. cbn zeta in Hfirst.
    destruct (match score_of float_other ch with Ok _ => _ | Raise _ => _ end)
      as [hi current].
    cbn [fst] in Hfirst. destruct Hfirst as (_ & _ & _ & _ & Hcount).
    destruct (last previous_cycles) as [[| | | | | |pc]|]; try by left.
    destruct (default (JObj []) (dict_get "hypothesis" pc)) as [| | | | | |ph];
      try by left.
    destruct (compare_with_count float_other hi current ch ph (length previous_cycles))
      as (_ & [Hc|Hc] & _); rewrite Hc; [by left | by right].
  - destruct (default (JObj []) (dict_get "hypothesis" cycle_data)) as [| | | | | |ch];
      try done.
    pose proof (first_cycle_shape float_other ch) as Hfirst. cbn zeta in Hfirst.
    destruct (match score_of float_other ch with Ok _ => _ | Raise _ => _ end)
      as [hi current].
    cbn [fst] in Hfirst. destruct Hfirst as (_ & _ & _ & Hcomplexity & _).
    assert (-100 <= complexity_increase hi) as Hhi by (by rewrite Hcomplexity).
    destruct (last previous_cycles) as [[| | | | | |pc]|]; try done.
    destruct (default (JObj []) (dict_get "hypothesis" pc)) as [| | | | | |ph];
      try done.
    by apply compare_with_count.
  - intros ->.
    destruct (default (JObj []) (dict_get "hypothesis" cycle_data)) as [| | | | | |ch];
      try done.
    pose proof (first_cycle_shape float_other ch) as Hfirst. cbn zeta in Hfirst.
    by destruct (match score_of float_other ch with Ok _ => _ | Raise _ => _ end).
  - intros earlier earlier' last_cycle -> Hlen.
    rewrite !last_snoc, !length_app, Hlen. done.
  - intros earlier pc ch ph c p s t -> Hch Hph Hc Hs Hp Ht.
    unfold compare_with, score_of, text_of.
    rewrite Hch, last_snoc, length_app. cbn [default from_option id length].
    rewrite Hc. cbn [default from_option id Float.of_json].
    rewrite Hph. cbn [default from_option id].
    rewrite Hp, Hs, Ht. cbn [default from_option id Float.of_json Ranking.py_len].
    assert (∃ q, (if Float.lt (Fin 0) (Fin p)
                  then Float.mul (Float.div (sub (Fin c) (Fin p)) (Fin p)) (Fin 100)
                  else Fin 0) = Fin q
                 ∧ (0 < p → q == (c - p) / p * 100 ∧ (0 < q ↔ p < c))
                 ∧ (p <= 0 → q == 0)) as Hpercentage.
    { cbn [Float.lt Float.mul Float.div sub Float.add].
      destruct (Qle_bool p 0) eqn:Hsign; cbn [negb].
      - apply Qle_bool_iff in Hsign. exists 0. split; [done|].
        split; [intros Hpos; lra | done].
      - assert (0 < p) as Hpos.
        { apply Qnot_le_lt. intros Hle. apply Qle_bool_iff in Hle. congruence. }
        eexists. split; [done|]. split; [|intros Hle; lra].
        intros _. split; [by field_simplify_eq; [|lra]|].
        assert ((c + -1 * p) / p * 100 == (c - p) * (100 / p)) as ->
          by (field; lra).
        assert (0 < 100 / p) as Hfactor by (apply Qlt_shift_div_l; lra).
        split; intros Hlt; nra. }
    destruct Hpercentage as (q & Hq & Hpos & Hneg).
    destruct t as [|a t].
    + cbn [String.length Nat.ltb Nat.leb]. cbn.
      split_and!; try done; try lia.
      * eexists. split; [done|]. cbn [sub Float.add Float.mul]. lra.
      * exists q. by rewrite <- Hq.
    + cbn [String.length]. change (0 <? S (String.length t))%nat with true. cbn.
      split_and!; try done; try lia.
      * eexists. split; [done|]. lra.
      * exists q. cbn [Float.lt Float.mul Float.div sub Float.add] in Hq |- *.
        by rewrite <- Hq.
      * intros _. unfold Z.sub. rewrite inject_Z_plus, inject_Z_opp. reflexivity.
Qed.

Lemma improvement_against_last_cycle_witness :
  let r := measure_hypothesis_improvement (λ _, None) test_cycle_data
             [JObj []; JObj test_previous_cycle] in
  current_score r = Fin 0.9 ∧ previous_score r = Fin 0.6
  ∧ complexity_increase r == 50 ∧ refinement_count r = 3%nat.
Proof.
  cbn zeta.
  destruct (improvement_against_last_cycle (λ _, None) test_cycle_data
              [JObj []; JObj test_previous_cycle]) as (_ & _ & _ & _ & Hlast).
  destruct (Hlast [JObj []] test_previous_cycle
              [("text", JStr "abcdef"); ("score", JFloat 0.9)]
              [("text", JStr "abcd"); ("score", JFloat 0.6)]
              0.9 0.6 "abcdef"%string "abcd"%string
              eq_refl eq_refl eq_refl eq_refl eq_refl eq_refl eq_refl)
    as (Hc & Hp & _ & _ & Hcomplexity & _ & Hcount).
  split_and!; [done | done | | done].
  rewrite Hcomplexity; [reflexivity | done].
Defined.

End ImprovementFacts.

(** ** The quality of the web data *)

Module WebQualityFacts.

Import Text WebQuality PyFacts.
#[local] Open Scope nat_scope.
#[local] Open Scope list_scope.

Lemma dict_sources_length (sources : list json) :
  length (dict_sources sources) ≤ length sources.
Proof.
  unfold dict_sources.
  induction sources as [|source sources IH]; [done|].
  csimpl. destruct source; cbn [length]; lia.
Qed.

Lemma dict_sources_all (sources : list json) :
  Forall (λ source, ∃ d, source = JObj d) sources →
  length (dict_sources sources) = length sources.
Proof.
  unfold dict_sources.
  induction 1 as [|source sources [d ->] _ IH]; [done|]. csimpl. cbn [length]. by rewrite IH.
Qed.

Lemma split_by_status (l : list pydict) :
  length (filter (λ s, succeeded s = true) l) + length (filter (λ s, succeeded s = false) l)
  = length l.
Proof.
  induction l as [|s l IH]; [done|].
  rewrite !filter_cons. destruct (succeeded s) eqn:Hs.
  - rewrite decide_True by done. rewrite decide_False by done. cbn. lia.
  - rewrite decide_False by done. rewrite decide_True by done. cbn. lia.
Qed.

Lemma add_relevance_bounds (query_keywords : list string) (ds : list pydict) :
  ∀ acc acc', for_each (add_relevance query_keywords) ds acc = Ok acc' →
    (0 <= acc.1 <= qnat acc.2)%Q → (0 <= acc'.1 <= qnat acc'.2)%Q.
Proof.
  induction ds as [|d ds IH]; intros acc acc' Hrun Hacc.
  - by injection Hrun as <-.
  - cbn [for_each] in Hrun. unfold add_relevance at 1 in Hrun.
    destruct (truthy (default (JStr EmptyString) (dict_get "content" d))).
    + destruct (Generation.lower_of _) as [content_text|]; [|done].
      cbn [mbind result_bind Py.bind] in Hrun.
      destruct (0 <? length (remove_dups query_keywords)) eqn:Hlen.
      * cbn [Py.bind] in Hrun. apply (IH _ _ Hrun). cbn [fst snd].
        apply Nat.ltb_lt in Hlen.
        pose proof (ScoreFacts.ratio_unit
                      (Ranking.common_count query_keywords (split content_text))
                      (length (remove_dups query_keywords))) as Hratio.
        destruct Hratio as [Hlo Hhi]; [|done|].
        { unfold Ranking.common_count. apply length_filter. }
        rewrite ScoreFacts.qnat_S. destruct Hacc as [Ha Hb]. split; lra.
      * cbn [Py.bind] in Hrun. by apply (IH _ _ Hrun).
    + cbn [Py.bind] in Hrun. by apply (IH _ _ Hrun).
Qed.

Lemma relevance_unit (query : json) (sources : list json) :
  (0 <= relevance query sources <= 1)%Q.
Proof.
  unfold relevance. destruct (truthy query); [|lra].
  unfold relevance_try.
  destruct (Generation.lower_of query) as [query_text|]; [|cbn; lra].
  cbn [mbind result_bind Py.bind].
  destruct (for_each _ _ _) as [[sum n]|] eqn:Hrun; [|cbn; lra].
  cbn [mbind result_bind Py.bind fst snd].
  apply add_relevance_bounds in Hrun; [|cbn [fst snd]; change (qnat 0) with 0%Q; lra].
  cbn [fst snd] in Hrun. destruct (0 <? n) eqn:Hn; [|lra].
  apply Nat.ltb_lt in Hn. pose proof (ScoreFacts.qnat_pos n Hn) as Hpos.
  destruct Hrun as [Ha Hb]. split.
  - apply Qle_shift_div_l; [done|]. lra.
  - apply Qle_shift_div_r; [done|]. lra.
Qed.

Lemma add_type_length (ds : list pydict) :
  ∀ acc acc', for_each add_type ds acc = Ok acc' → length acc' ≤ length acc + length ds.
Proof.
  induction ds as [|d ds IH]; intros acc acc' Hrun.
  - injection Hrun as <-. cbn. lia.
  - cbn [for_each] in Hrun. unfold add_type at 1 in Hrun.
    destruct (hashable_of _) as [t|]; [|done].
    cbn [mbind result_bind Py.bind] in Hrun.
    apply IH in Hrun. destruct (existsb (same t) acc).
    + cbn [length]. lia.
    + rewrite length_app in Hrun. cbn [length] in *. lia.
Qed.

Lemma diversity_unit (sources : list json) : (0 <= diversity sources <= 1)%Q.
Proof.
  unfold diversity.
  destruct (for_each add_type (dict_sources sources) []) as [source_types|] eqn:Hrun;
    [|lra].
  destruct (0 <? length sources) eqn:Hn; [|lra].
  apply Nat.ltb_lt in Hn. apply add_type_length in Hrun. cbn [length] in Hrun.
  pose proof (dict_sources_length sources).
  apply ScoreFacts.ratio_unit; lia.
Qed.

Lemma ages_within (age_days : json → option Z) (lo hi : Z) (sources : list json) :
  (∀ t a, age_days t = Some a → (lo ≤ a ≤ hi)%Z) →
  Forall (λ a, (lo ≤ a ≤ hi)%Z) (ages age_days sources).
Proof.
  intros Hage. unfold ages. apply Forall_forall. intros a Ha.
  apply list_elem_of_omap in Ha as (d & _ & Hd).
  destruct (dict_get "timestamp" d) as [t|]; [|done].
  destruct (truthy t); [|done]. by apply (Hage t).
Qed.

Lemma total_within (lo hi : Z) (l : list Z) :
  Forall (λ a, (lo ≤ a ≤ hi)%Z) l →
  (lo * Z.of_nat (length l) ≤ total l ≤ hi * Z.of_nat (length l))%Z.
Proof.
  induction 1 as [|a l Ha _ IH]; [cbn; lia|].
  cbn [total foldr length]. fold (total l). lia.
Qed.

(** Three sources: a page that was read, one that failed and a bare link. *)
Definition test_web_cycle : pydict :=
  [ ("query", JStr "quantum computing");
    ("web_data",
     JObj [("sources",
            JArr [ JObj [("status", JStr "success"); ("type", JStr "article");
                         ("content", JStr "Quantum error correction")];
                   JObj [("status", JStr "error"); ("type", JStr "article")];
                   JStr "https://example.org" ])]) ].

(** X16: the quality of the web data stays within its ranges.  The
    sources counted as successful and as failed are at most the sources,
    and exactly the sources when each of them is a [dict]; the relevance
    and the diversity are between 0 and 1; and the freshness, the mean
    age of the sources with a readable timestamp, lies between the bounds
    of the ages (and is 0 without such a source). *)
Theorem web_quality_in_range (age_days : json → option Z) (cycle_data : pydict) :
  let r := evaluate_web_data_quality age_days cycle_data in
  successful_extractions r + failed_extractions r ≤ sources_count r
  ∧ (∀ web_data sources,
       dict_get "web_data" cycle_data = Some (JObj web_data) →
       dict_get "sources" web_data = Some (JArr sources) →
       Forall (λ source, ∃ d, source = JObj d) sources →
       successful_extractions r + failed_extractions r = length sources
       ∧ sources_count r = length sources)
  ∧ (0 <= data_relevance r <= 1)%Q
  ∧ (0 <= data_diversity r <= 1)%Q
  ∧ (∀ lo hi, (lo ≤ 0 ≤ hi)%Z →
       (∀ t a, age_days t = Some a → (lo ≤ a ≤ hi)%Z) →
       (inject_Z lo <= data_freshness r <= inject_Z hi)%Q).
Proof.
  cbn zeta. unfold evaluate_web_data_quality.
  split; [|split; [|split; [|split]]].
  - destruct (default (JObj []) (dict_get "web_data" cycle_data)) as [| | | | | |web_data];
      try done.
    destruct (default (JArr []) (dict_get "sources" web_data)) as [| | | | |sources|];
      try done.
    cbn [successful_extractions failed_extractions sources_count].
    rewrite split_by_status. apply dict_sources_length.
  - intros web_data sources -> Hsources Hall. cbn [default from_option id].
    rewrite Hsources. cbn [default from_option id].
    cbn [successful_extractions failed_extractions sources_count].
    by rewrite split_by_status, dict_sources_all.
  - destruct (default (JObj []) (dict_get "web_data" cycle_data)) as [| | | | | |web_data];
      try (cbn; lra).
    destruct (default (JArr []) (dict_get "sources" web_data)) as [| | | | |sources|];
      try (cbn; lra).
    apply relevance_unit.
  - destruct (default (JObj []) (dict_get "web_data" cycle_data)) as [| | | | | |web_data];
      try (cbn; lra).
    destruct (default (JArr []) (dict_get "sources" web_data)) as [| | | | |sources|];
      try (cbn; lra).
    apply diversity_unit.
  - intros lo hi [Hlo Hhi] Hage.
    assert (inject_Z lo <= 0 <= inject_Z hi)%Q as Hzero.
    { split; unfold Qle; cbn; lia. }
    destruct (default (JObj []) (dict_get "web_data" cycle_data)) as [| | | | | |web_data];
      try done.
    destruct (default (JArr []) (dict_get "sources" web_data)) as [| | | | |sources|];
      try done.
    cbn [data_freshness].
    destruct (0 <? length (ages age_days sources)) eqn:Hn; [|done].
    apply Nat.ltb_lt in Hn.
    pose proof (total_within lo hi _ (ages_within age_days lo hi sources Hage)) as [Ha Hb].
    pose proof (ScoreFacts.qnat_pos _ Hn) as Hpos.
    split.
    + apply Qle_shift_div_l; [done|]. unfold qnat. rewrite <- inject_Z_mult.
      by rewrite <- Zle_Qle.
    + apply Qle_shift_div_r; [done|]. unfold qnat. rewrite <- inject_Z_mult.
      by rewrite <- Zle_Qle.
Qed.

Lemma web_quality_in_range_witness :
  let r := evaluate_web_data_quality (λ _, Some 3%Z) test_web_cycle in
  (successful_extractions r, failed_extractions r, sources_count r) = (1, 1, 3)
  ∧ (0 <= data_freshness r <= 3)%Q.
Proof.
  cbn zeta.
  destruct (web_quality_in_range (λ _, Some 3%Z) test_web_cycle)
    as (_ & _ & _ & _ & Hfresh).
  split; [reflexivity|].
  apply (Hfresh 0%Z 3%Z); [lia|]. intros t a [= <-]. lia.
Defined.

End WebQualityFacts.

(** ** The cleaning of the oracle's answer *)

Module CleaningFacts.

Import Text Recovery InsightsFacts.
#[local] Open Scope nat_scope.
#[local] Open Scope list_scope.

Lemma append_empty (a : string) : a +:+ EmptyString = a.
Proof. induction a as [|x a IH]; [done|]. by rewrite append_cons, IH. Qed.

Lemma concat_cons (x : string) (l : list string) :
  String.concat EmptyString (x :: l) = x +:+ String.concat EmptyString l.
Proof. destruct l; cbn [String.concat]; [by rewrite append_empty | done]. Qed.

Lemma free_of_app (c : ascii) (a b : string) :
  free_of c (a +:+ b) ↔ free_of c a ∧ free_of c b.
Proof.
  unfold free_of. induction a as [|x a IH]; [rewrite append_nil; cbn; tauto|].
  rewrite append_cons. cbn [all_chars]. rewrite !andb_true_iff, IH. tauto.
Qed.

(** A pattern that can only match at the character [c] leaves a text
    without [c] as it is, and the scan goes on after it. *)
Lemma scan_free (m : option ascii → string → option (string * nat)) (c : ascii) :
  (∀ prev x s, x ≠ c → m prev (String x s) = None) →
  ∀ body rest prev, free_of c body →
    ∃ prev',
      String.concat EmptyString
        (scan_matches m (λ x, [String x EmptyString]) prev 0 (body +:+ rest))
      = body +:+ String.concat EmptyString
                   (scan_matches m (λ x, [String x EmptyString]) prev' 0 rest).
Proof.
  intros Hm body rest. induction body as [|x body IH]; intros prev Hfree.
  - exists prev. by rewrite !append_nil.
  - unfold free_of in Hfree. cbn [all_chars] in Hfree.
    apply andb_prop in Hfree as [Hx Hbody].
    apply negb_true_iff, Ascii.eqb_neq in Hx.
    destruct (IH (Some x) Hbody) as [prev' Hrest]. exists prev'.
    rewrite !append_cons. cbn [scan_matches]. rewrite (Hm prev x _ Hx).
    cbn [app]. by rewrite concat_cons, Hrest.
Qed.

Lemma sub_matches_free (m : option ascii → string → option (string * nat)) (c : ascii)
    (s : string) :
  (∀ prev x s, x ≠ c → m prev (String x s) = None) →
  free_of c s → sub_matches m s = s.
Proof.
  intros Hm Hfree. unfold sub_matches.
  destruct (scan_free m c Hm s EmptyString None Hfree) as [prev' Hscan].
  rewrite append_empty in Hscan. rewrite Hscan. cbn. by rewrite append_empty.
Qed.

Lemma fence_at_backtick (marker : string) (prev : option ascii) (x : ascii) (s : string) :
  x ≠ "`"%char → fence_and_blanks (String "`" marker) prev (String x s) = None.
Proof.
  intros Hx. unfold fence_and_blanks. cbn [startswith].
  apply Ascii.eqb_neq in Hx. rewrite Ascii.eqb_sym in Hx. by rewrite Hx.
Qed.

Lemma stray_at_backslash (prev : option ascii) (x : ascii) (s : string) :
  x ≠ bslash → stray_backslash prev (String x s) = None.
Proof.
  intros Hx. unfold stray_backslash. apply Ascii.eqb_neq in Hx. by rewrite Hx.
Qed.

Lemma replace_free (c : ascii) (p r s : string) :
  free_of c s → replace (String c p) r s = s.
Proof.
  unfold free_of, replace. induction s as [|x s IH]; [done|]. cbn [all_chars].
  intros [Hx Hs]%andb_prop. cbn [replace_from startswith].
  rewrite Ascii.eqb_sym. apply negb_true_iff in Hx. rewrite Hx. cbn [andb].
  by rewrite IH.
Qed.

Lemma search_first_brace (pre rest : string) :
  free_of "{" pre →
  search_braces (pre +:+ String "{" rest)
  = match upto_last_brace rest with
    | Some r => Some (String "{" r)
    | None => search_braces rest
    end.
Proof.
  unfold free_of. induction pre as [|x pre IH].
  { intros _. rewrite append_nil. cbn [search_braces]. by rewrite Ascii.eqb_refl. }
  cbn [all_chars].
  intros [Hx Hpre]%andb_prop. rewrite append_cons. cbn [search_braces].
  apply negb_true_iff in Hx. rewrite Hx. by apply IH.
Qed.

(** After the fences are gone, the escapes of a text without backslash
    are left alone. *)
Lemma escapes_untouched (pre inner post : string) :
  free_of "{" pre → free_of "}" post →
  free_of bslash (String "{" (inner +:+ "}")) →
  let response := pre +:+ String "{" (inner +:+ String "}" post) in
  sub_matches stray_backslash
    (replace (backslash +:+ backslash +:+ quote) (backslash +:+ quote)
       (replace backslash (backslash +:+ backslash)
          (replace (backslash +:+ quote) quote
             (match search_braces response with
              | Some found => found
              | None => response
              end))))
  = String "{" (inner +:+ "}").
Proof.
  intros Hpre Hpost Hfree. cbn zeta.
  rewrite search_first_brace, upto_last_brace_closing by done.
  unfold backslash. rewrite !append_cons, !append_nil.
  rewrite (replace_free bslash quote quote _ Hfree).
  rewrite (replace_free bslash EmptyString _ _ Hfree).
  rewrite (replace_free bslash (String bslash quote) _ _ Hfree).
  apply (sub_matches_free _ bslash); [|done].
  intros prev x s. apply stray_at_backslash.
Qed.

Lemma marker_fits (marker pre rest : string) :
  free_of "{" marker → startswith marker (pre +:+ String "{" rest) = true →
  String.length marker ≤ String.length pre.
Proof.
  unfold free_of. revert pre. induction marker as [|a marker IH]; intros pre Hfree Hstarts.
  - cbn. lia.
  - cbn [all_chars] in Hfree. apply andb_prop in Hfree as [Ha Hfree].
    destruct pre as [|x pre].
    + rewrite append_nil in Hstarts. cbn [startswith] in Hstarts.
      apply andb_prop in Hstarts as [Heq _]. apply negb_true_iff in Ha. congruence.
    + rewrite append_cons in Hstarts. cbn [startswith] in Hstarts.
      apply andb_prop in Hstarts as [_ Hstarts]. cbn [String.length].
      specialize (IH pre Hfree Hstarts). lia.
Qed.

Lemma blanks_fit (pre rest : string) :
  count_space (pre +:+ String "{" rest) ≤ String.length pre.
Proof.
  induction pre as [|x pre IH]; [done|].
  rewrite append_cons. cbn [count_space String.length]. destruct (isspace x); lia.
Qed.

Lemma drop_app (k : nat) (pre rest : string) :
  k ≤ String.length pre → drop k (pre +:+ rest) = drop k pre +:+ rest.
Proof.
  revert pre. induction k as [|k IH]; intros pre Hk; [by destruct pre|].
  destruct pre as [|x pre]; [cbn in Hk; lia|].
  rewrite append_cons. cbn [drop]. apply IH. cbn in Hk. lia.
Qed.

Lemma drop_length (k : nat) (s : string) :
  String.length (drop k s) = String.length s - k.
Proof.
  revert s. induction k as [|k IH]; intros [|x s]; cbn [drop String.length]; try lia.
  by rewrite IH.
Qed.

(** The removal of a fence marker before the object: the matches end
    before the opening brace, and no brace appears. *)
Lemma fence_pass_before (marker rest : string) :
  free_of "{" (String "`" marker) →
  ∀ pre prev skip, skip ≤ String.length pre → free_of "{" pre →
    ∃ pre' prev',
      free_of "{" pre'
      ∧ String.concat EmptyString
          (scan_matches (fence_and_blanks (String "`" marker))
             (λ x, [String x EmptyString]) prev skip (pre +:+ String "{" rest))
        = pre' +:+ String.concat EmptyString
                     (scan_matches (fence_and_blanks (String "`" marker))
                        (λ x, [String x EmptyString]) prev' 0 (String "{" rest)).
Proof.
  intros Hmarker pre. remember (String "{" rest) as tail eqn:Htail.
  induction pre as [|x pre IH]; intros prev skip Hskip Hpre.
  - cbn in Hskip. assert (skip = 0) as -> by lia.
    exists EmptyString, prev. by rewrite !append_nil.
  - unfold free_of in Hpre. cbn [all_chars] in Hpre.
    apply andb_prop in Hpre as [Hx Hpre]. cbn [String.length] in Hskip.
    rewrite append_cons. destruct skip as [|k]; cbn [scan_matches].
    + destruct (fence_and_blanks _ prev _) as [[a n]|] eqn:Hmatch.
      * unfold fence_and_blanks in Hmatch.
        destruct (startswith _ _) eqn:Hstarts; [|done]. injection Hmatch as <- <-.
        assert (String.length (String "`" marker) ≤ String.length (String x pre)) as Hfit.
        { apply (marker_fits _ _ rest); [done|]. by rewrite append_cons, <- Htail. }
        cbn [String.length drop] in Hfit |- *.
        rewrite drop_app by lia.
        pose proof (blanks_fit (drop (String.length marker) pre) rest) as Hblanks.
        rewrite drop_length, <- Htail in Hblanks.
        destruct (IH (Some x)
                    (S (String.length marker
                        + count_space (drop (String.length marker) pre +:+ tail)) - 1))
          as (pre' & prev' & Hfree & Hscan); [lia|done|].
        exists pre', prev'. split; [done|].
        by rewrite concat_cons, append_nil, Hscan.
      * destruct (IH (Some x) 0) as (pre' & prev' & Hfree & Hscan); [lia|done|].
        exists (String x pre'), prev'. split.
        { unfold free_of. cbn [all_chars]. by rewrite Hx. }
        cbn [app]. by rewrite concat_cons, Hscan.
    + destruct (IH (Some x) k) as (pre' & prev' & Hfree & Hscan); [lia|done|].
      by exists pre', prev'.
Qed.

(** What a removal leaves of a text has only characters of the text. *)
Lemma removal_free (m : option ascii → string → option (string * nat)) (c : ascii) :
  (∀ prev s a n, m prev s = Some (a, n) → a = EmptyString) →
  ∀ post prev skip, free_of c post →
    free_of c (String.concat EmptyString
                 (scan_matches m (λ x, [String x EmptyString]) prev skip post)).
Proof.
  intros Hm post. induction post as [|x post IH]; intros prev skip Hpost; [done|].
  unfold free_of in Hpost. cbn [all_chars] in Hpost.
  apply andb_prop in Hpost as [Hx Hpost].
  destruct skip as [|k]; cbn [scan_matches]; [|by apply IH].
  destruct (m prev (String x post)) as [[a n]|] eqn:Hmatch.
  - rewrite (Hm _ _ _ _ Hmatch), concat_cons, append_nil. by apply IH.
  - cbn [app]. rewrite concat_cons, append_cons, append_nil.
    unfold free_of. cbn [all_chars]. rewrite Hx. by apply IH.
Qed.

(** One removal of fence markers around an object without backtick:
    the object stays, no brace appears before it or after it. *)
Lemma fence_pass (marker pre inner post : string) :
  free_of "{" (String "`" marker) →
  free_of "`" (String "{" (inner +:+ "}")) →
  free_of "{" pre → free_of "}" post →
  ∃ pre' post',
    free_of "{" pre' ∧ free_of "}" post'
    ∧ sub_matches (fence_and_blanks (String "`" marker))
        (pre +:+ String "{" (inner +:+ String "}" post))
      = pre' +:+ String "{" (inner +:+ String "}" post').
Proof.
  intros Hmarker Hbody Hpre Hpost. unfold sub_matches.
  destruct (fence_pass_before marker (inner +:+ String "}" post) Hmarker pre None 0)
    as (pre' & prev' & Hfree & Hscan); [lia|done|].
  assert (String "{" (inner +:+ String "}" post)
          = String "{" (inner +:+ "}") +:+ post) as Hsplit.
  { by rewrite append_cons, append_assoc, append_cons, append_nil. }
  rewrite Hscan, Hsplit.
  destruct (scan_free (fence_and_blanks (String "`" marker)) "`"
              (λ prev x s, fence_at_backtick marker prev x s)
              (String "{" (inner +:+ "}")) post prev' Hbody) as [prev'' Hrest].
  rewrite Hrest.
  exists pre', (String.concat EmptyString
                  (scan_matches (fence_and_blanks (String "`" marker))
                     (λ x, [String x EmptyString]) prev'' 0 post)).
  split; [done|].
  split; [|by rewrite append_cons, append_assoc, append_cons, append_nil].
  apply removal_free; [|done].
  intros prev s a n. unfold fence_and_blanks. destruct (startswith _ _); congruence.
Qed.

(** A reflection in the form the prompt asks for, and the same inside a
    code fence with a sentence before it. *)
Definition plain_object : string :=
  quoted "{'coherence_score': 0.8, 'strengths': ['clear']}".

Definition fenced_answer : string :=
  "Here is the analysis:" +:+ newline +:+ fence +:+ "json" +:+ newline
  +:+ plain_object +:+ newline +:+ fence.

(** X17: an object without backslash and backtick passes through the
    cleaning unchanged, whatever surrounds it: when no opening brace
    comes before it and no closing brace after it, the cleaned text is
    the object itself, so it decodes to the same value.  The code fences
    and the sentences around the object are gone. *)
Theorem clean_object_passes_through (pre inner post : string) :
  free_of "{" pre → free_of "}" post →
  free_of "`" ("{" +:+ inner +:+ "}") →
  free_of bslash ("{" +:+ inner +:+ "}") →
  clean_json_response (pre +:+ ("{" +:+ inner +:+ "}") +:+ post)
  = "{" +:+ inner +:+ "}"
  ∧ Json.loads (clean_json_response (pre +:+ ("{" +:+ inner +:+ "}") +:+ post))
    = Json.loads ("{" +:+ inner +:+ "}").
Proof.
  intros Hpre Hpost Htick Hslash.
  assert (clean_json_response (pre +:+ ("{" +:+ inner +:+ "}") +:+ post)
          = "{" +:+ inner +:+ "}") as Hclean; [|by rewrite Hclean].
  rewrite !append_cons, !append_nil in *.
  rewrite (append_assoc inner), append_cons, append_nil.
  unfold clean_json_response.
  change (fence +:+ "json") with "```json". unfold fence.
  destruct (fence_pass "``json" pre inner post) as (pre1 & post1 & Hpre1 & Hpost1 & ->);
    [done..|].
  destruct (fence_pass "``" pre1 inner post1) as (pre2 & post2 & Hpre2 & Hpost2 & ->);
    [done..|].
  by apply escapes_untouched.
Qed.

Lemma clean_object_passes_through_witness :
  clean_json_response fenced_answer = plain_object.
Proof.
  apply (clean_object_passes_through
           ("Here is the analysis:" +:+ newline +:+ fence +:+ "json" +:+ newline)
           (quoted "'coherence_score': 0.8, 'strengths': ['clear']")
           (newline +:+ fence));
    reflexivity.
Defined.

End CleaningFacts.

(** ** The sanitizer of the generation agent *)

Module SanitizerFacts.

Import Text Recovery InsightsFacts.
#[local] Open Scope nat_scope.
#[local] Open Scope list_scope.

Lemma fence_open_backtick (x : ascii) (s : string) :
  x ≠ "`"%char → fence_open (String x s) = None.
Proof.
  intros Hx. apply Ascii.eqb_neq in Hx. rewrite Ascii.eqb_sym in Hx.
  unfold fence_open.
  change (fence +:+ "json" +:+ newline) with (String "`" ("``json" +:+ newline)).
  change (fence +:+ newline) with (String "`" ("``" +:+ newline)).
  cbn [startswith]. by rewrite Hx.
Qed.

(** The search of a fenced block passes over a text without backtick. *)
Lemma search_after_prose (pre rest : string) :
  free_of "`" pre → search_code_block (pre +:+ rest) = search_code_block rest.
Proof.
  unfold free_of. induction pre as [|x pre IH]; [done|]. cbn [all_chars].
  intros [Hx Hpre]%andb_prop. rewrite append_cons. cbn [search_code_block].
  unfold code_block_at. rewrite fence_open_backtick; [by apply IH|].
  by apply negb_true_iff, Ascii.eqb_neq in Hx.
Qed.

(** The closing fence of a block without backtick is the first one. *)
Lemma split_at_closing_fence (inner post : string) :
  free_of "`" inner →
  split_at (newline +:+ fence) (inner +:+ (newline +:+ fence) +:+ post) = Some (inner, post).
Proof.
  change (newline +:+ fence) with (String "010" "```").
  unfold free_of. induction inner as [|x inner IH].
  - intros _. rewrite append_nil. reflexivity.
  - cbn [all_chars]. intros [Hx Hinner]%andb_prop. rewrite append_cons.
    cbn [split_at]. rewrite IH by done.
    assert (startswith (String "010" "```")
              (String x (inner +:+ String "010" "```" +:+ post)) = false) as ->; [|done].
    cbn [startswith]. destruct (Ascii.eqb "010" x); [|done]. cbn [andb].
    destruct inner as [|c inner]; [done|].
    rewrite append_cons. cbn [all_chars] in Hinner.
    apply andb_prop in Hinner as [Hc _]. apply negb_true_iff in Hc.
    rewrite Ascii.eqb_sym in Hc. by rewrite Hc.
Qed.

Lemma search_code_block_eq (s : string) :
  search_code_block s
  = match code_block_at s with
    | Some inner => Some inner
    | None =>
        match s with
        | String _ s' => search_code_block s'
        | EmptyString => None
        end
    end.
Proof. by destruct s. Qed.

Lemma code_block_found (opening inner post : string) :
  opening = fence +:+ "json" +:+ newline ∨ opening = fence +:+ newline →
  free_of "`" inner →
  code_block_at (opening +:+ inner +:+ (newline +:+ fence) +:+ post) = Some inner.
Proof.
  intros Hopening Hinner. unfold code_block_at.
  assert (fence_open (opening +:+ inner +:+ (newline +:+ fence) +:+ post)
          = Some (inner +:+ (newline +:+ fence) +:+ post)) as ->.
  { destruct Hopening as [-> | ->]; reflexivity. }
  by rewrite split_at_closing_fence.
Qed.

(** A list of hypotheses in the form the prompt asks for, inside a
    fence and after a sentence. *)
Definition listed_answer : string :=
  quoted "[{'statement': 'Lattices resist quantum attacks', 'rationale': 'No known quantum algorithm'}]".

(** X18: a fenced block that decodes is what the sanitizer returns.
    When the answer holds, after a text without backtick, a block
    opened by a fence (with or without [json]) whose content has no
    backtick, and the stripped content decodes, the sanitizer returns
    the stripped content, whatever follows the closing fence. *)
Theorem sanitize_returns_fenced_block (loads : string → option json)
    (pre opening inner post : string) (v : json) :
  opening = fence +:+ "json" +:+ newline ∨ opening = fence +:+ newline →
  free_of "`" pre → free_of "`" inner →
  loads (strip inner) = Some v →
  sanitize_json_response loads
    (pre +:+ opening +:+ inner +:+ (newline +:+ fence) +:+ post)
  = strip inner.
Proof.
  intros Hopening Hpre Hinner Hloads. unfold sanitize_json_response.
  assert (String.eqb (pre +:+ opening +:+ inner +:+ (newline +:+ fence) +:+ post)
                     EmptyString = false) as ->.
  { apply String.eqb_neq. destruct pre; [|done]. by destruct Hopening as [-> | ->]. }
  rewrite search_after_prose by done.
  assert (search_code_block (opening +:+ inner +:+ (newline +:+ fence) +:+ post)
          = Some inner) as ->.
  { rewrite search_code_block_eq. by rewrite code_block_found. }
  by rewrite Hloads.
Qed.

Lemma sanitize_returns_fenced_block_witness :
  sanitize_json_response Json.loads
    ("Here are the hypotheses:" +:+ newline +:+ fence +:+ newline
     +:+ listed_answer +:+ newline +:+ newline +:+ fence +:+ newline +:+ "Done.")
  = listed_answer.
Proof.
  apply (sanitize_returns_fenced_block Json.loads
           ("Here are the hypotheses:" +:+ newline) (fence +:+ newline)
           (listed_answer +:+ newline) (newline +:+ "Done.")
           (JArr [JObj [("statement", JStr "Lattices resist quantum attacks");
                        ("rationale", JStr "No known quantum algorithm")]]));
    [by right | reflexivity | reflexivity | vm_compute; reflexivity].
Defined.

End SanitizerFacts.

(** ** The refinement of a sound hypothesis *)

Module RefinementFacts.

Import Text Evolution.
#[local] Open Scope list_scope.

(** The reflection reports no issue: the hypothesis is coherent, it
    has supporting evidence and nothing contradicts it. *)
Definition sound (reflection : pydict) : Prop :=
  ∃ coherent supported contradictions,
    dict_get "is_coherent" reflection = Some coherent ∧ truthy coherent = true
    ∧ dict_get "has_supporting_evidence" reflection = Some supported
    ∧ truthy supported = true
    ∧ dict_get "contradictions" reflection = Some contradictions
    ∧ truthy contradictions = false.

Lemma sound_issues (reflection : pydict) :
  sound reflection → issues_of reflection = Ok (false, false, false).
Proof.
  intros (a & b & c & Ha & Hta & Hb & Htb & Hc & Htc).
  unfold issues_of, dict_item. rewrite Ha, Hb, Hc.
  cbn [mbind result_bind Py.bind]. by rewrite Hta, Htb, Htc.
Qed.

(** X19: the evolution of a sound hypothesis.  When the reflection
    reports no issue, the hypothesis is evolved without any search; in
    the first cycle its statement stays as it is, although the evolved
    hypothesis has a new identifier and a raised confidence, and from
    the second cycle on the statement loses its final mark and gets one
    of the four phrases about the query and a full stop.  The reason
    given depends on the overall score alone. *)
Theorem sound_hypothesis_evolution (W : world) (h : hypothesis) (reflection : pydict)
    (query : string) (cycle : Z) :
  sound reflection →
  ∃ e d,
    evolve_one W h reflection query cycle = Ok (e, d)
    ∧ ((cycle ≤ 1)%Z → statement e = statement h
                        ∧ evolved_statement d = original_statement d)
    ∧ ((1 < cycle)%Z →
       statement e
       = drop_final_mark (statement h) +:+ ", "
         +:+ choice W [ "especially in the context of " +:+ query;
                        "particularly when considering " +:+ query;
                        "with notable impact on " +:+ query;
                        "which is critical for " +:+ query ]
         +:+ ".")
    ∧ id e = id h +:+ "-evolved-" +:+ pretty cycle
    ∧ evolution_reason d
      = "Evolution based on "
        +:+ (if qlt (default 0%Q (overall_score h)) 7.0
             then "enhanced overall quality"
             else "refined with more specific details").
Proof.
  intros Hsound%sound_issues.
  unfold evolve_one, refine_hypothesis, get_evolution_reason. rewrite Hsound.
  cbn [mbind result_bind Py.bind orb negb andb app].
  destruct (1 <? cycle)%Z eqn:Hcycle; cbn [andb mbind result_bind Py.bind].
  - apply Z.ltb_lt in Hcycle.
    eexists _, _. split; [done|]. cbn. split_and!; try done. lia.
    by destruct (qlt _ _).
  - apply Z.ltb_ge in Hcycle.
    eexists _, _. split; [done|]. cbn. split_and!; try done. lia.
    by destruct (qlt _ _).
Qed.

(** A reflection without issue on the first hypothesis of the test
    cycle. *)
Definition sound_reflection : pydict :=
  [("hypothesis_id", JStr "hyp_001"); ("is_coherent", JBool true);
   ("has_supporting_evidence", JBool true); ("contradictions", JArr [])].

Lemma sound_hypothesis_evolution_witness :
  ∃ e d,
    evolve_one EvolutionFacts.quiet_world EvolutionFacts.hyp_001 sound_reflection
      "future of computing" 1 = Ok (e, d)
    ∧ statement e = statement EvolutionFacts.hyp_001
    ∧ id e = "hyp_001-evolved-1"
    ∧ evolution_reason d = "Evolution based on refined with more specific details".
Proof.
  destruct (sound_hypothesis_evolution EvolutionFacts.quiet_world EvolutionFacts.hyp_001
              sound_reflection "future of computing" 1)
    as (e & d & Hrun & Hfirst & _ & Hid & Hreason).
  { exists (JBool true), (JBool true), (JArr []). by split_and!. }
  exists e, d. split; [done|]. split; [by apply Hfirst|]. split; [done|].
  by rewrite Hreason.
Defined.

End RefinementFacts.

(** ** The reflection read from prose *)

Module ProseFacts.

Import Text Reflection.
#[local] Open Scope nat_scope.
#[local] Open Scope list_scope.

Lemma lstrip_all (p : ascii → bool) (s : string) :
  all_chars p s = true → all_chars p (lstrip s) = true.
Proof.
  induction s as [|c s IH]; [done|]. cbn [lstrip]. intros Hs.
  destruct (isspace c); [|done].
  cbn [all_chars] in Hs. apply andb_prop in Hs as [_ Hs]. by apply IH.
Qed.

Lemma rstrip_all (p : ascii → bool) (s : string) :
  all_chars p s = true → all_chars p (rstrip s) = true.
Proof.
  induction s as [|c s IH]; [done|]. cbn [all_chars rstrip].
  intros [Hc Hs]%andb_prop. specialize (IH Hs).
  destruct (rstrip s) as [|c' r].
  - destruct (isspace c); [done|]. cbn [all_chars]. by rewrite Hc.
  - cbn [all_chars] in IH |- *. by rewrite Hc, IH.
Qed.

(** The pieces of a split hold none of the separators. *)
Lemma split_chars_free (p : ascii → bool) (s : string) :
  Forall (λ w, all_chars (λ c, negb (p c)) w = true) (split_chars p s).
Proof.
  induction s as [|c s IH]; [by repeat constructor|]. cbn [split_chars].
  destruct (p c) eqn:Hc; [by constructor|].
  destruct (split_chars p s) as [|w ws].
  - repeat constructor. cbn [all_chars]. by rewrite Hc.
  - inversion IH as [|? ? Hw Hws]; subst. constructor; [|done].
    cbn [all_chars]. by rewrite Hc, Hw.
Qed.

(** X20: the reflection read from prose.  Whatever the text, the
    result has the eight keys of a reflection; it is coherent with the
    score 0.5, or not coherent with the score 0.3 when the text says so;
    its supporting facts and its contradictions are empty; and it has at
    most three comments, each of them the stripped text of a sentence,
    more than 15 characters long, without full stop, exclamation mark or
    question mark, and starting neither with a brace nor with a double
    quote. *)
Theorem prose_reflection_shape (text hypothesis_id query : string) :
  let r := extract_reflection_from_text text hypothesis_id query in
  r.*1 = ["hypothesis_id"; "is_coherent"; "coherence_score"; "has_supporting_evidence";
          "supporting_facts"; "contradictions"; "comments"; "query"]
  ∧ dict_get "hypothesis_id" r = Some (JStr hypothesis_id)
  ∧ dict_get "query" r = Some (JStr query)
  ∧ ((dict_get "is_coherent" r = Some (JBool true)
      ∧ dict_get "coherence_score" r = Some (JFloat 0.5))
     ∨ (dict_get "is_coherent" r = Some (JBool false)
        ∧ dict_get "coherence_score" r = Some (JFloat 0.3)
        ∧ mentions ["not coherent"; "lacks coherence"; "incoherent"] text = true))
  ∧ dict_get "supporting_facts" r = Some (JArr [])
  ∧ dict_get "contradictions" r = Some (JArr [])
  ∧ ∃ comments,
      dict_get "comments" r = Some (json_strings comments)
      ∧ length comments ≤ 3
      ∧ Forall (λ comment,
                  15 < String.length comment
                  ∧ all_chars (λ c, negb (sentence_end c)) comment = true
                  ∧ startswith "{" comment = false
                  ∧ startswith quote comment = false
                  ∧ ∃ sentence, sentence ∈ split_chars sentence_end text
                                ∧ comment = strip sentence)
               comments.
Proof.
  cbn zeta. unfold extract_reflection_from_text.
  split; [done|]. split; [done|]. split; [done|]. split.
  { destruct (mentions ["not coherent"; "lacks coherence"; "incoherent"] text);
      [by right | by left]. }
  split; [done|]. split; [done|].
  eexists. split; [reflexivity|]. split.
  { rewrite length_take. lia. }
  apply Forall_take, Forall_forall. intros comment Hcomment.
  apply list_elem_of_filter in Hcomment as [Hkeep Hin].
  apply andb_prop in Hkeep as [[Hlen Hbrace]%andb_prop Hquote].
  apply list_elem_of_fmap in Hin as (sentence & -> & Hsentence).
  split; [by apply Nat.ltb_lt|]. split.
  { apply rstrip_all, lstrip_all.
    pose proof (split_chars_free sentence_end text) as Hfree.
    rewrite Forall_forall in Hfree. by apply Hfree. }
  split; [by apply negb_true_iff|]. split; [by apply negb_true_iff|].
  by exists sentence.
Qed.

End ProseFacts.
